(** * Diagnosis Code Reconciliation Engine (src/app.py)

    A shallow embedding of the reconciliation functions of [src/app.py]:
    the code matcher ([check_sdx_match], [check_sdx_match_filter]), the
    per-account aggregator ([merge_comparison_with_parsed_data],
    [calculate_account_statistics]) and the severity comparator
    ([calculate_cc_mcc_statistics], [create_cc_mcc_comparison_data]).

    The Python code works on untyped rows (dicts read from spreadsheets),
    so field values are modelled as Python values and every operation that
    can raise ([.upper()] on a non-string, [len] of a non-string, a missing
    key under [item[...]]) is fallible.  All handlers of the source are
    [except Exception], so the kind of the exception never matters:
    a computation that raises is [None], one that returns [v] is [Some v]. *)

From stdpp Require Import base gmap sets list strings pretty.
From Stdlib Require Import ZArith Ascii.

(** ** Python values *)

(** The values of a cell that are modelled: [None], an integer, a string.
    (Floats, such as the NaN of a blank spreadsheet cell, are left out.) *)
Inductive pyval : Type :=
  | PNone
  | PInt (n : Z)
  | PStr (s : string).

#[global] Instance pyval_eq_dec : EqDecision pyval.
Proof. solve_decision. Defined.

Definition pyval_encode (v : pyval) : unit + Z + string :=
  match v with
  | PNone => inl (inl tt)
  | PInt n => inl (inr n)
  | PStr s => inr s
  end.

Definition pyval_decode (x : unit + Z + string) : pyval :=
  match x with
  | inl (inl _) => PNone
  | inl (inr n) => PInt n
  | inr s => PStr s
  end.

#[global] Instance pyval_countable : Countable pyval.
Proof.
  refine (inj_countable' pyval_encode pyval_decode _).
  intros []; reflexivity.
Defined.

(** [bool(v)]: [None], [0] and the empty string are falsy. *)
Definition truthy (v : pyval) : bool :=
  match v with
  | PNone => false
  | PInt n => negb (Z.eqb n 0)
  | PStr s => negb (bool_decide (s = ""))
  end.

(** [str(v)]. *)
Definition py_str (v : pyval) : string :=
  match v with
  | PNone => "None"
  | PInt n => pretty n
  | PStr s => s
  end.

(** ** Strings *)

(** Strings are strings of bytes; on ASCII text [upper] is [str.upper],
    and other bytes are left as they are. *)
Definition upper_char (c : ascii) : ascii :=
  let n := nat_of_ascii c in
  if (97 <=? n)%nat && (n <=? 122)%nat then ascii_of_nat (n - 32) else c.

Fixpoint upper (s : string) : string :=
  match s with
  | EmptyString => EmptyString
  | String c r => String (upper_char c) (upper r)
  end.

(** [s[:-1]]: the string without its last character ([""] stays [""]). *)
Fixpoint drop_last (s : string) : string :=
  match s with
  | EmptyString => EmptyString
  | String c r =>
      match r with
      | EmptyString => EmptyString
      | String _ _ => String c (drop_last r)
      end
  end.

(** [s.startswith(p)]. *)
Definition startswith (s p : string) : bool := String.prefix p s.

(** The same operations on Python values: each raises on a non-string. *)
Definition py_upper (v : pyval) : option string :=
  match v with PStr s => Some (upper s) | _ => None end.

Definition py_len (v : pyval) : option nat :=
  match v with PStr s => Some (String.length s) | _ => None end.

Definition py_drop_last (v : pyval) : option string :=
  match v with PStr s => Some (drop_last s) | _ => None end.

Definition py_startswith (v p : pyval) : option bool :=
  match v, p with
  | PStr s, PStr q => Some (startswith s q)
  | _, _ => None
  end.

(** ** Rows and loaded data *)

(** A row is a dict from column names to values. *)
Abbreviation row := (gmap string pyval).

(** [d.get(k, dflt)] and [d.get(k)]. *)
Definition dict_get (d : row) (k : string) (dflt : pyval) : pyval :=
  default dflt (d !! k).

Definition dict_get_none (d : row) (k : string) : pyval :=
  dict_get d k PNone.

(** [CSV_DATA]: ground truth by role, then by account.  Every access of the
    source is [csv_data.get(role, {}).get(account_num, [])], so an absent
    role is the same as an empty mapping. *)
Record csv_data : Type := {
  csv_pdx : gmap string (list row);
  csv_sdx : gmap string (list row)
}.

Definition ground_truth_of (m : gmap string (list row)) (account_num : string)
  : list row := default [] (m !! account_num).

(** One entry of [PARSED_RESULTS_DATA]: the tables the engine reads. *)
Record parsed_account : Type := {
  coded_diagnoses : list row;
  combination_code_review : list row
}.

Abbreviation parsed_results := (gmap string parsed_account).

(** [parsed_data.get(account_num, {}).get('coded_diagnoses', [])]. *)
Definition coded_diagnoses_of (parsed_data : parsed_results)
    (account_num : string) : list row :=
  from_option coded_diagnoses [] (parsed_data !! account_num).

(** ** Code matcher *)

(** The specificity test that the three matchers of the source inline in
    their loop body:
<<
    if len(icd_code) > 1 and len(gt_code) > 1:
        if icd_code[:-1] == gt_code[:-1]: ...
        elif icd_code.startswith(gt_code) or gt_code.startswith(icd_code): ...
>>
    [and] and [or] are short-circuit, so a right operand that would raise
    is not evaluated when the left one decides. *)
Definition specificity_test (icd_code gt_code : pyval) : option bool :=
  n ← py_len icd_code;
  if bool_decide (1 < n) then
    m ← py_len gt_code;
    if bool_decide (1 < m) then
      a ← py_drop_last icd_code;
      b ← py_drop_last gt_code;
      if bool_decide (a = b) then Some true
      else
        p ← py_startswith icd_code gt_code;
        if p : bool then Some true else py_startswith gt_code icd_code
    else Some false
  else Some false.

(** The [for gt_code in ground_truth_codes] loop of [check_sdx_match], which
    returns at the first reference that passes the test. *)
Fixpoint sdx_scan (icd_code : pyval) (ground_truth_codes : list pyval)
  : option string :=
  match ground_truth_codes with
  | [] => Some "SDX Mismatch"
  | gt_code :: rest =>
      q ← specificity_test icd_code gt_code;
      if q : bool then Some "Specificity Issue" else sdx_scan icd_code rest
  end.

Definition is_nil {A} (l : list A) : bool :=
  match l with [] => true | _ => false end.

(** The [try] block of [check_sdx_match]. *)
Definition check_sdx_match_body (icd_code : pyval) (account_num : string)
    (csv : csv_data) : option string :=
  let ground_truth_sdx := ground_truth_of (csv_sdx csv) account_num in
  let ground_truth_codes :=
    (λ item, dict_get item "icd_code" (PStr "")) <$> ground_truth_sdx in
  if negb (truthy icd_code) || is_nil ground_truth_codes then
    Some "SDX Mismatch"
  else if bool_decide (icd_code ∈ ground_truth_codes) then
    Some "SDX Match"
  else sdx_scan icd_code ground_truth_codes.

(** [check_sdx_match]: any exception gives ["SDX Mismatch"]. *)
Definition check_sdx_match (icd_code : pyval) (account_num : string)
    (csv : csv_data) : string :=
  default "SDX Mismatch" (check_sdx_match_body icd_code account_num csv).

(** The per-account ground truth handed to the template filter:
    [{"pdx": [...], "sdx": [...]}]. *)
Record account_csv : Type := {
  acc_pdx : list row;
  acc_sdx : list row
}.

Record filter_result : Type := {
  status : string;
  gt_codes : list string
}.

(** [check_sdx_match_filter].  The codes are passed through [str], so the
    loop works on strings and cannot raise; it collects every reference
    that passes the specificity test.  ([csv_data] is a dict and its items
    are dicts here, so the [isinstance] branches are the ones taken.) *)
Definition specificity_test_str (icd_code gt_code : string) : bool :=
  bool_decide (1 < String.length icd_code)
  && bool_decide (1 < String.length gt_code)
  && (bool_decide (drop_last icd_code = drop_last gt_code)
      || startswith icd_code gt_code || startswith gt_code icd_code).

(** [ground_truth_codes] of the filter: the [str] of the truthy codes. *)
Definition filter_ground_truth_codes (csv : account_csv) : list string :=
  let ground_truth_sdx := acc_sdx csv in
  py_str <$>
    filter (λ icd, truthy icd = true)
      ((λ item, dict_get item "icd_code" (PStr "")) <$> ground_truth_sdx).

Definition check_sdx_match_filter (icd_code : pyval) (account_num : pyval)
    (csv : account_csv) : filter_result :=
  match icd_code with
  | PNone => {| status := "SDX Mismatch"; gt_codes := [] |}
  | _ =>
      let icd_code := py_str icd_code in
      let ground_truth_codes := filter_ground_truth_codes csv in
      if bool_decide (icd_code = "") || is_nil ground_truth_codes then
        {| status := "SDX Mismatch"; gt_codes := ground_truth_codes |}
      else if bool_decide (icd_code ∈ ground_truth_codes) then
        {| status := "SDX Match"; gt_codes := [icd_code] |}
      else
        let specificity_matches :=
          filter (λ gt_code, specificity_test_str icd_code gt_code = true)
            ground_truth_codes in
        if negb (is_nil specificity_matches) then
          {| status := "Specificity Issue"; gt_codes := specificity_matches |}
        else
          {| status := "SDX Mismatch"; gt_codes := ground_truth_codes |}
  end.

(** ** Per-account aggregator *)

(** [COMPARISON_DATA]: per account, a list of comparison entries (dicts with
    the keys [type], [coded_icd], [coded_description], [llm_icd],
    [llm_description], [match_status]). *)
Abbreviation comparison := (gmap string (list row)).

(** The comprehension [[d for d in l if d.get(key, '').upper() == target]]
    and the loops of the same shape: [.upper()] raises on the first row
    whose field is not a string. *)
Fixpoint filter_by_upper (key target : string) (l : list row)
  : option (list row) :=
  match l with
  | [] => Some []
  | d :: rest =>
      u ← py_upper (dict_get d key (PStr ""));
      kept ← filter_by_upper key target rest;
      Some (if bool_decide (u = target) then d :: kept else kept)
  end.

(** The entry [merge_comparison_with_parsed_data] appends for one parsed
    diagnosis; nothing is appended when the code is falsy, and the
    [.upper()] of the type is evaluated before that test. *)
Definition merge_diagnosis (ground_truth_sdx_codes : gset pyval)
    (diagnosis : row) : option (list row) :=
  let icd_code := dict_get diagnosis "ICD-10-CM Code" (PStr "") in
  diagnosis_type ← py_upper (dict_get diagnosis "Type" (PStr ""));
  let description := dict_get diagnosis "Diagnosis/Condition" (PStr "") in
  if truthy icd_code then
    let is_in_ground_truth := bool_decide (icd_code ∈ ground_truth_sdx_codes) in
    let match_status := if is_in_ground_truth then "Match" else "Mismatch" in
    Some [ ({[ "type" := PStr diagnosis_type;
               "coded_icd" := icd_code;
               "coded_description" := description;
               "llm_icd" := icd_code;
               "llm_description" := description;
               "match_status" := PStr match_status ]} : row) ]
  else Some [].

(** The body of the [for account_num, comparison_items] loop. *)
Definition merge_account (parsed_data : parsed_results) (account_num : string)
    (comparison_items : list row) : option (list row) :=
  let parsed_diagnoses := coded_diagnoses_of parsed_data account_num in
  let ground_truth_sdx_codes : gset pyval :=
    list_to_set
      ((λ item, dict_get item "coded_icd" (PStr "")) <$>
         filter (λ item, dict_get_none item "type" = PStr "SDX")
           comparison_items) in
  entries ← mapM (merge_diagnosis ground_truth_sdx_codes) parsed_diagnoses;
  Some (concat entries).

(** [merge_comparison_with_parsed_data]: the loop raises as soon as the body
    raises for some account, and the handler then returns the raw
    [comparison_data] unchanged, for every account. *)
Definition merge_comparison_with_parsed_data (comparison_data : comparison)
    (parsed_data : parsed_results) : comparison :=
  let attempts : gmap string (option (list row)) :=
    map_imap (λ account_num items,
                Some (merge_account parsed_data account_num items))
      comparison_data in
  if bool_decide (map_Forall (λ _ r, is_Some r) attempts)
  then omap id attempts
  else comparison_data.

(** The severity counts, the dict under [cc_mcc_stats] in the source. *)
Record cc_mcc_counts : Type := {
  gt_cc : nat;
  gt_mcc : nat;
  llm_cc : nat;
  llm_mcc : nat
}.

(** The value [cc_mcc] of the ground-truth loop of
    [calculate_cc_mcc_statistics]: [None] when the row has neither column,
    the upper-cased [str] of the cell otherwise (the empty string for a
    falsy cell).  The [ccmcc] column is read only when [cc_mcc] is absent. *)
Definition gt_cc_mcc_upper (item : row) : option string :=
  match item !! "cc_mcc" with
  | Some v => Some (if truthy v then upper (py_str v) else "")
  | None =>
      match item !! "ccmcc" with
      | Some v => Some (if truthy v then upper (py_str v) else "")
      | None => None
      end
  end.

(** One step of a counting loop:
    [if cc_mcc == 'CC': cc += 1  elif cc_mcc == 'MCC': mcc += 1]. *)
Definition tally (counts : nat * nat) (cc_mcc : option string) : nat * nat :=
  if bool_decide (cc_mcc = Some "CC") then (S counts.1, counts.2)
  else if bool_decide (cc_mcc = Some "MCC") then (counts.1, S counts.2)
  else counts.

(** [llm_sdx_diagnoses]: the rows of the combination table whose upper-cased
    [type] is SDX, when the account is in [parsed_data]. *)
Definition llm_sdx_diagnoses_of (parsed_data : parsed_results)
    (account_num : string) : option (list row) :=
  match parsed_data !! account_num with
  | Some acct => filter_by_upper "type" "SDX" (combination_code_review acct)
  | None => Some []
  end.

(** [item.get('cc/mcc', '').upper() if item.get('cc/mcc') else '']. *)
Definition llm_cc_mcc_upper (item : row) : option string :=
  if truthy (dict_get_none item "cc/mcc")
  then py_upper (dict_get item "cc/mcc" (PStr ""))
  else Some "".

(** The [try] block of [calculate_cc_mcc_statistics]. *)
Definition calculate_cc_mcc_statistics_body (account_num : string)
    (parsed_data : parsed_results) (csv : csv_data) : option cc_mcc_counts :=
  let ground_truth_sdx := ground_truth_of (csv_sdx csv) account_num in
  let gt_counts := foldl tally (0, 0) (gt_cc_mcc_upper <$> ground_truth_sdx) in
  llm_sdx_diagnoses ← llm_sdx_diagnoses_of parsed_data account_num;
  llm_tags ← mapM llm_cc_mcc_upper llm_sdx_diagnoses;
  let llm_counts := foldl tally (0, 0) (Some <$> llm_tags) in
  Some {| gt_cc := gt_counts.1; gt_mcc := gt_counts.2;
          llm_cc := llm_counts.1; llm_mcc := llm_counts.2 |}.

Definition zero_cc_mcc_stats : cc_mcc_counts :=
  {| gt_cc := 0; gt_mcc := 0; llm_cc := 0; llm_mcc := 0 |}.

(** [calculate_cc_mcc_statistics]: all four counts are zero on an exception. *)
Definition calculate_cc_mcc_statistics (account_num : string)
    (parsed_data : parsed_results) (csv : csv_data) : cc_mcc_counts :=
  default zero_cc_mcc_stats
    (calculate_cc_mcc_statistics_body account_num parsed_data csv).

(** The statistics object.  [accuracy] is a float with one decimal in the
    source; it is kept here as its number of tenths (so [1000] is [100.0]). *)
Record account_statistics : Type := {
  total_sdx : nat;
  llm_matched_sdx : nat;
  matched_icds : nat;
  accuracy : Z;
  pdx_coded : string;
  pdx_llm : string;
  pdx_matched : bool;
  cc_mcc_stats : cc_mcc_counts
}.

(** [num / den] rounded to the nearest integer, a tie going to the even one
    ([den] positive). *)
Definition round_half_even (num den : Z) : Z :=
  let q := (num / den)%Z in
  let r := (num mod den)%Z in
  if (2 * r <? den)%Z then q
  else if (den <? 2 * r)%Z then (q + 1)%Z
  else if Z.even q then q else (q + 1)%Z.

(** [round((matched_icds / total_icds * 100) if total_icds > 0 else 0, 1)],
    in tenths, computed on the exact quotient.  The source rounds the float
    it has computed; the two can differ only when the exact quotient is a
    decimal tie, where the float may lie on either side and this model goes
    to the even tenth.  No statement below depends on a tie. *)
Definition accuracy_of (matched_icds total_icds : nat) : Z :=
  if bool_decide (0 < total_icds)
  then round_half_even (1000 * Z.of_nat matched_icds) (Z.of_nat total_icds)
  else 0%Z.

(** [rows[0].get(key, 'N/A') if rows else 'N/A']. *)
Definition first_code (key : string) (rows : list row) : pyval :=
  match rows with
  | d :: _ => dict_get d key (PStr "N/A")
  | [] => PStr "N/A"
  end.

(** The [try] block of [calculate_account_statistics]. *)
Definition calculate_account_statistics_body (account_num : string)
    (parsed_data : parsed_results) (csv : csv_data)
    (comparison_data : comparison) : option account_statistics :=
  let coded_diagnoses := coded_diagnoses_of parsed_data account_num in
  let ground_truth_sdx := ground_truth_of (csv_sdx csv) account_num in
  gt_code_list ← mapM (λ item : row, item !! "icd_code") ground_truth_sdx;
  let ground_truth_sdx_codes : gset pyval := list_to_set gt_code_list in
  let total_sdx := length ground_truth_sdx in
  sdx_diagnoses ← filter_by_upper "Type" "SDX" coded_diagnoses;
  let parsed_sdx_codes : gset pyval :=
    list_to_set
      ((λ d, dict_get d "ICD-10-CM Code" (PStr "")) <$> sdx_diagnoses) in
  let matched_sdx := size (parsed_sdx_codes ∩ ground_truth_sdx_codes) in
  let matched_icds := length (default [] (comparison_data !! account_num)) in
  let total_icds := length coded_diagnoses in
  let accuracy := accuracy_of matched_icds total_icds in
  pdx_diagnoses ← filter_by_upper "Type" "PDX" coded_diagnoses;
  let pdx_llm := first_code "ICD-10-CM Code" pdx_diagnoses in
  let ground_truth_pdx := ground_truth_of (csv_pdx csv) account_num in
  let pdx_coded := first_code "icd_code" ground_truth_pdx in
  let pdx_matched :=
    bool_decide (pdx_coded = pdx_llm)
    && negb (bool_decide (pdx_coded = PStr "N/A")) in
  let stats := calculate_cc_mcc_statistics account_num parsed_data csv in
  Some {| total_sdx := total_sdx;
          llm_matched_sdx := matched_sdx;
          matched_icds := matched_icds;
          accuracy := accuracy;
          pdx_coded := py_str pdx_coded;
          pdx_llm := py_str pdx_llm;
          pdx_matched := pdx_matched;
          cc_mcc_stats := stats |}.

(** The object returned by the [except Exception] handler. *)
Definition sentinel_statistics : account_statistics :=
  {| total_sdx := 0;
     llm_matched_sdx := 0;
     matched_icds := 0;
     accuracy := 0;
     pdx_coded := "N/A";
     pdx_llm := "N/A";
     pdx_matched := false;
     cc_mcc_stats := zero_cc_mcc_stats |}.

Definition calculate_account_statistics (account_num : string)
    (parsed_data : parsed_results) (csv : csv_data)
    (comparison_data : comparison) : account_statistics :=
  default sentinel_statistics
    (calculate_account_statistics_body account_num parsed_data csv
       comparison_data).

(** The statistics of one account as the module computes them at load time:
<<
    COMPARISON_DATA = merge_comparison_with_parsed_data(COMPARISON_DATA_RAW, PARSED_RESULTS_DATA)
    stats = calculate_account_statistics(account_num, PARSED_RESULTS_DATA, CSV_DATA, COMPARISON_DATA)
>> *)
Definition account_stats (comparison_data_raw : comparison)
    (parsed_data : parsed_results) (csv : csv_data) (account_num : string)
  : account_statistics :=
  calculate_account_statistics account_num parsed_data csv
    (merge_comparison_with_parsed_data comparison_data_raw parsed_data).

(** ** Severity comparator *)

(** [llm_icd_mapping] is a Python dict that is iterated: an association list
    in insertion order.  Assigning to a key already present replaces its
    value and keeps its place. *)
Abbreviation odict := (list (pyval * pyval)).

Fixpoint odict_set (k v : pyval) (d : odict) : odict :=
  match d with
  | [] => [(k, v)]
  | (k', v') :: rest =>
      if bool_decide (k' = k) then (k, v) :: rest
      else (k', v') :: odict_set k v rest
  end.

(** [d[k]], which raises when [k] is not a key. *)
Fixpoint odict_get (d : odict) (k : pyval) : option pyval :=
  match d with
  | [] => None
  | (k', v') :: rest =>
      if bool_decide (k' = k) then Some v' else odict_get rest k
  end.

Definition odict_keys (d : odict) : list pyval := d.*1.

(** One step of the loop that fills [llm_icd_mapping]. *)
Definition record_llm_item (mapping : odict) (item : row) : odict :=
  let icd_code := dict_get item "icd-10-cm code" (PStr "") in
  let cc_mcc := dict_get item "cc/mcc" (PStr "") in
  if truthy icd_code then odict_set icd_code cc_mcc mapping else mapping.

Definition build_llm_icd_mapping (llm_sdx_diagnoses : list row) : odict :=
  foldl record_llm_item [] llm_sdx_diagnoses.

(** One row of the comparison table. [llm_icd] and [llm_cc_mcc] are [None]
    when no counterpart was found. *)
Record comparison_row : Type := {
  gt_icd : pyval;
  gt_cc_mcc : string;
  llm_icd : pyval;
  llm_cc_mcc : pyval;
  match_type : string
}.

#[global] Instance comparison_row_eq_dec : EqDecision comparison_row.
Proof. solve_decision. Defined.

(** The value [gt_cc_mcc] of [create_cc_mcc_comparison_data]: the [str] of
    the severity cell, not upper-cased; [''] for a falsy or absent cell. *)
Definition gt_cc_mcc_raw (gt_item : row) : string :=
  match gt_item !! "cc_mcc" with
  | Some v => if truthy v then py_str v else ""
  | None =>
      match gt_item !! "ccmcc" with
      | Some v => if truthy v then py_str v else ""
      | None => ""
      end
  end.

(** The [for llm_code in llm_icd_mapping.keys()] loop: it stops at the first
    key that passes the specificity test and reads that key's value. *)
Fixpoint specificity_find (gt_icd : pyval) (keys : list pyval)
    (mapping : odict) : option (option (pyval * pyval)) :=
  match keys with
  | [] => Some None
  | llm_code :: rest =>
      q ← specificity_test gt_icd llm_code;
      if q : bool then
        v ← odict_get mapping llm_code;
        Some (Some (llm_code, v))
      else specificity_find gt_icd rest mapping
  end.

(** The body of the [for gt_item in ground_truth_sdx] loop: the rows it
    appends (none, or one). *)
Definition compare_gt_item (mapping : odict) (gt_item : row)
  : option (list comparison_row) :=
  let gt_icd := dict_get gt_item "icd_code" (PStr "") in
  let gt_cc_mcc := gt_cc_mcc_raw gt_item in
  if negb (bool_decide (gt_cc_mcc = ""))
     && bool_decide (upper gt_cc_mcc ∈ ["CC"; "MCC"]) then
    if bool_decide (gt_icd ∈ odict_keys mapping) then
      v ← odict_get mapping gt_icd;
      Some [ {| gt_icd := gt_icd; gt_cc_mcc := gt_cc_mcc;
                llm_icd := gt_icd; llm_cc_mcc := v;
                match_type := "Match" |} ]
    else
      found ← specificity_find gt_icd (odict_keys mapping) mapping;
      match found with
      | Some (llm_code, v) =>
          Some [ {| gt_icd := gt_icd; gt_cc_mcc := gt_cc_mcc;
                    llm_icd := llm_code; llm_cc_mcc := v;
                    match_type := "Specificity Issue" |} ]
      | None =>
          Some [ {| gt_icd := gt_icd; gt_cc_mcc := gt_cc_mcc;
                    llm_icd := PNone; llm_cc_mcc := PNone;
                    match_type := "Mismatch" |} ]
      end
  else Some [].

(** The [try] block of [create_cc_mcc_comparison_data]. *)
Definition create_cc_mcc_comparison_data_body (account_num : string)
    (parsed_data : parsed_results) (csv : csv_data)
  : option (list comparison_row) :=
  let ground_truth_sdx := ground_truth_of (csv_sdx csv) account_num in
  llm_sdx_diagnoses ← llm_sdx_diagnoses_of parsed_data account_num;
  let llm_icd_mapping := build_llm_icd_mapping llm_sdx_diagnoses in
  rows ← mapM (compare_gt_item llm_icd_mapping) ground_truth_sdx;
  Some (concat rows).

(** [create_cc_mcc_comparison_data]: an exception anywhere gives [[]]. *)
Definition create_cc_mcc_comparison_data (account_num : string)
    (parsed_data : parsed_results) (csv : csv_data) : list comparison_row :=
  default []
    (create_cc_mcc_comparison_data_body account_num parsed_data csv).

(** ** The specification's words *)

(** The three classifications of the matcher, and the labels under which
    [check_sdx_match] and the severity comparator report them. *)
Inductive match_kind : Type := MATCH | SPECIFICITY_ISSUE | MISMATCH.

Definition sdx_label (k : match_kind) : string :=
  match k with
  | MATCH => "SDX Match"
  | SPECIFICITY_ISSUE => "Specificity Issue"
  | MISMATCH => "SDX Mismatch"
  end.

Definition row_label (k : match_kind) : string :=
  match k with
  | MATCH => "Match"
  | SPECIFICITY_ISSUE => "Specificity Issue"
  | MISMATCH => "Mismatch"
  end.

(** Step 3 of the specification for one reference [r]: both lengths exceed
    one, and either the truncations agree or one code starts with the other. *)
Definition qualifies (candidate r : string) : Prop :=
  1 < String.length candidate ∧ 1 < String.length r ∧
  (drop_last candidate = drop_last r
   ∨ startswith candidate r = true ∨ startswith r candidate = true).

#[global] Instance qualifies_dec candidate r : Decision (qualifies candidate r).
Proof. unfold qualifies. apply _. Defined.

(** [classify] as the specification words it, steps 1 to 4. *)
Definition classify (candidate : string) (reference_codes : list string)
  : match_kind :=
  if bool_decide (candidate = "" ∨ reference_codes = []) then MISMATCH
  else if bool_decide (candidate ∈ reference_codes) then MATCH
  else if bool_decide (Exists (qualifies candidate) reference_codes)
       then SPECIFICITY_ISSUE
  else MISMATCH.

(** [best_reference]: the reference that produced the classification. *)
Definition best_reference (candidate : string) (reference_codes : list string)
  : option string :=
  match classify candidate reference_codes with
  | MATCH => Some candidate
  | SPECIFICITY_ISSUE =>
      head (filter (qualifies candidate) reference_codes)
  | MISMATCH => None
  end.

(** Severity tags of the data model, and the normalization of a source cell
    ([None] for an absent column): upper-case, keep CC and MCC. *)
Inductive severity_tag : Type := NONE | CC | MCC.

#[global] Instance severity_tag_eq_dec : EqDecision severity_tag.
Proof. solve_decision. Defined.

Definition normalize_severity (cell : option pyval) : severity_tag :=
  match cell with
  | Some (PStr s) =>
      if bool_decide (upper s = "CC") then CC
      else if bool_decide (upper s = "MCC") then MCC
      else NONE
  | _ => NONE
  end.

(** The severity cell of a ground-truth row under either column name. *)
Definition gt_severity_cell (item : row) : option pyval :=
  match item !! "cc_mcc" with
  | Some v => Some v
  | None => item !! "ccmcc"
  end.


(** ** Records of the data model *)

(** The specification's records carry strings: a field of a row conforms
    when it is absent or holds a string. *)
Definition is_str (v : pyval) : Prop :=
  match v with PStr _ => True | _ => False end.

#[global] Instance is_str_dec v : Decision (is_str v).
Proof. destruct v; apply _. Defined.

Definition str_field (d : row) (k : string) : Prop :=
  from_option is_str True (d !! k).

#[global] Instance str_field_dec d k : Decision (str_field d k).
Proof. unfold str_field. destruct (d !! k); apply _. Defined.

(** A DiagnosisRecord of the diagnoses table. *)
Definition typed_diagnosis (d : row) : Prop :=
  str_field d "Type" ∧ str_field d "ICD-10-CM Code".

#[global] Instance typed_diagnosis_dec d : Decision (typed_diagnosis d).
Proof. unfold typed_diagnosis. apply _. Defined.

(** A DiagnosisRecord of the combination table. *)
Definition typed_comb_item (item : row) : Prop :=
  str_field item "type" ∧ str_field item "icd-10-cm code".

#[global] Instance typed_comb_item_dec item : Decision (typed_comb_item item).
Proof. unfold typed_comb_item. apply _. Defined.

(** A GroundTruthRecord: it has a code, a string. *)
Definition typed_gt_row (item : row) : Prop :=
  from_option is_str False (item !! "icd_code").

#[global] Instance typed_gt_row_dec item : Decision (typed_gt_row item).
Proof. unfold typed_gt_row. destruct (item !! "icd_code"); apply _. Defined.

(** The combination table of an account ([[]] for an unknown account). *)
Definition combination_of (parsed_data : parsed_results)
    (account_num : string) : list row :=
  from_option combination_code_review [] (parsed_data !! account_num).

(** The role of a record, upper-cased, and the records of a given role. *)
Definition role_of (key : string) (d : row) : string :=
  upper (py_str (dict_get d key (PStr ""))).

Definition records_of_role (key role : string) (l : list row) : list row :=
  filter (λ d, role_of key d = role) l.

(** The extracted-SDX records of the severity comparator and their codes. *)
Definition extracted_sdx (parsed_data : parsed_results)
    (account_num : string) : list row :=
  records_of_role "type" "SDX" (combination_of parsed_data account_num).

Definition raw_item_code (item : row) : pyval :=
  dict_get item "icd-10-cm code" (PStr "").

Definition item_code (item : row) : string := py_str (raw_item_code item).

Definition extracted_sdx_codes (parsed_data : parsed_results)
    (account_num : string) : list string :=
  item_code <$> extracted_sdx parsed_data account_num.

(** The code of a ground-truth record. *)
Definition gt_code (item : row) : string :=
  py_str (dict_get item "icd_code" (PStr "")).

(** A ground-truth record carries a severity signal when its normalized
    tag is CC or MCC. *)
Definition has_severity (item : row) : Prop :=
  normalize_severity (gt_severity_cell item) ≠ NONE.

#[global] Instance has_severity_dec item : Decision (has_severity item).
Proof. unfold has_severity. apply _. Defined.

(** A reference of the matcher as the comparator reports it: [None] when
    there is none. *)
Definition reference_value (r : option string) : pyval :=
  from_option PStr PNone r.

(** A PDX code of the statistics is present when there is one: it is not
    the empty code ("no code present") and not the placeholder "N/A". *)
Definition code_present (code : string) : Prop :=
  code ≠ "" ∧ code ≠ "N/A".

#[global] Instance code_present_dec code : Decision (code_present code).
Proof. unfold code_present. apply _. Defined.

(** ** Auxiliary predicates *)

(** The first character of the string is below the letters of ASCII, as the
    first character (a digit or a sign) of the [str] of an integer is. *)
Definition numeric_head (s : string) : Prop :=
  match s with
  | EmptyString => False
  | String c _ => (nat_of_ascii c < 65)%nat
  end.

(** [qualifies] on a key of the mapping: only a string key can qualify. *)
Definition qualifies_val (candidate : string) (k : pyval) : Prop :=
  match k with
  | PStr r => qualifies candidate r
  | _ => False
  end.

#[global] Instance qualifies_val_dec candidate k :
  Decision (qualifies_val candidate k).
Proof. destruct k; apply _. Defined.

(** The part of a comparison row that the matcher decides. *)
Definition row_match (r : comparison_row) : pyval * pyval * string :=
  (gt_icd r, llm_icd r, match_type r).

(** The names of the normalized tags. *)
Definition tag_name (t : severity_tag) : string :=
  match t with NONE => "NONE" | CC => "CC" | MCC => "MCC" end.

(** The code of a record of the diagnoses table, and the two sets of codes
    behind [matched_sdx]. *)
Definition diagnosis_code (d : row) : pyval :=
  dict_get d "ICD-10-CM Code" (PStr "").

Definition extracted_sdx_code_set (parsed_data : parsed_results)
    (account_num : string) : gset pyval :=
  list_to_set
    (diagnosis_code <$>
       records_of_role "Type" "SDX" (coded_diagnoses_of parsed_data account_num)).

Definition ground_truth_sdx_code_set (csv : csv_data) (account_num : string)
  : gset pyval :=
  list_to_set
    ((λ item, dict_get item "icd_code" (PStr "")) <$>
       ground_truth_of (csv_sdx csv) account_num).

(** * The rest of the module *)

(** ** Template filters [flatten] and [strip] *)

(** A list as [flatten_filter] sees it: an item is a list or anything else. *)
#[warnings="-register-all"] Inductive pynest : Type :=
  | Atom (v : pyval)
  | Nest (items : list pynest).

(** [flatten_filter]: a list item is replaced by its own flattening
    ([result.extend]), any other item is kept ([result.append]). *)
Fixpoint flatten_item (item : pynest) : list pyval :=
  match item with
  | Atom v => [v]
  | Nest items => concat (map flatten_item items)
  end.

Definition flatten_filter (lst : list pynest) : list pyval :=
  concat (map flatten_item lst).

(** The ASCII characters [str.strip] removes: tab to carriage return, the
    four separators 28 to 31, and the space. *)
Definition is_space (c : ascii) : bool :=
  let n := nat_of_ascii c in
  ((9 <=? n)%nat && (n <=? 13)%nat)
  || ((28 <=? n)%nat && (n <=? 31)%nat)
  || (n =? 32)%nat.

Fixpoint lstrip (s : string) : string :=
  match s with
  | EmptyString => EmptyString
  | String c r => if is_space c then lstrip r else s
  end.

Fixpoint rstrip (s : string) : string :=
  match s with
  | EmptyString => EmptyString
  | String c r =>
      match rstrip r with
      | EmptyString => if is_space c then EmptyString else String c EmptyString
      | String c' r' => String c (String c' r')
      end
  end.

(** [s.strip()]. *)
Definition strip (s : string) : string := rstrip (lstrip s).

(** [strip_filter]: [""] for [None], the stripped [str] otherwise. *)
Definition strip_filter (value : pyval) : string :=
  match value with
  | PNone => ""
  | _ => strip (py_str value)
  end.

(** ** Template filter [get_submitted_feedback] *)

(** The loop that fills [icd_type_mapping], a dict that is only looked up:
    [.upper()] of the type is evaluated for every row, before the test on
    the code, and a later row with the same code replaces an earlier one. *)
Fixpoint build_icd_type_mapping (combination_code_review : list row)
    (icd_type_mapping : gmap pyval string) : option (gmap pyval string) :=
  match combination_code_review with
  | [] => Some icd_type_mapping
  | item :: rest =>
      let icd_code := dict_get item "icd-10-cm code" (PStr "") in
      diagnosis_type ← py_upper (dict_get item "type" (PStr ""));
      build_icd_type_mapping rest
        (if truthy icd_code
         then <[icd_code := diagnosis_type]> icd_type_mapping
         else icd_type_mapping)
  end.

(** [feedback_type] of one feedback row. *)
Definition feedback_type_of (icd_type_mapping : gmap pyval string)
    (icd_code : pyval) : string :=
  match icd_type_mapping !! icd_code with
  | Some diagnosis_type =>
      if bool_decide (diagnosis_type = "PDX") then "PDX Feedback"
      else if bool_decide (diagnosis_type = "ADX") then "ADX Feedback"
      else if bool_decide (diagnosis_type = "SDX") then "SDX Feedback"
      else "ICD Feedback"
  | None => "ICD Feedback"
  end.

(** The item built for one row of the feedback file; [row[...]] raises on a
    missing column, [row.get] does not. *)
Definition feedback_item_of (icd_type_mapping : gmap pyval string)
    (r : row) : option row :=
  icd_code ← r !! "icd_code";
  let feedback_type := feedback_type_of icd_type_mapping icd_code in
  accept_reject ← r !! "accept_reject";
  feedback_comment ← r !! "feedback_comment";
  reviewer ← r !! "reviewer";
  timestamp ← r !! "timestamp";
  Some ({[ "icd_code" := icd_code;
           "type" := PStr feedback_type;
           "status" := accept_reject;
           "feedback" := feedback_comment;
           "reviewer" := reviewer;
           "timestamp" := timestamp;
           "cc_mcc" := dict_get r "cc_mcc" (PStr "");
           "pdx_feedback" := dict_get r "pdx_feedback" (PStr "");
           "adx_feedback" := dict_get r "adx_feedback" (PStr "");
           "sdx_feedback" := dict_get r "sdx_feedback" (PStr "") ]} : row).

(** The [try] block of [get_submitted_feedback_filter] once the feedback
    file is read: [df] are its rows and [parsed_data] is what
    [load_parsed_results_data] returns at the time of the call. *)
Definition get_submitted_feedback_filter_body (df : list row)
    (parsed_data : parsed_results) (account_id : string)
  : option (list row) :=
  account_numbers ← mapM (λ r : row, r !! "account_number") df;
  let account_feedback :=
    filter (λ r, py_str (dict_get_none r "account_number") = account_id) df in
  let combination_code_review := combination_of parsed_data account_id in
  icd_type_mapping ← build_icd_type_mapping combination_code_review ∅;
  mapM (feedback_item_of icd_type_mapping) account_feedback.

(** [get_submitted_feedback_filter]: [[]] when there is no feedback file and
    on any exception. *)
Definition get_submitted_feedback_filter (feedback_file : option (list row))
    (parsed_data : parsed_results) (account_id : string) : list row :=
  match feedback_file with
  | None => []
  | Some df =>
      default [] (get_submitted_feedback_filter_body df parsed_data account_id)
  end.

(** ** Login and the access decorators *)

(** One entry of [AUDITOR_CREDENTIALS]. *)
Record credential : Type := {
  password : pyval;
  name : pyval;
  team : pyval
}.

Abbreviation credentials := (gmap pyval credential).

(** The Flask session as the module uses it: a dict of values under the
    keys the module sets.  (The entry in which Flask keeps flashed messages
    is left out.) *)
Abbreviation session := (gmap string pyval).

(** One row of [logins.xlsx] as a credential; a missing column raises. *)
Definition credential_of_row (r : row) : option (pyval * credential) :=
  p ← r !! "password";
  n ← r !! "name";
  t ← r !! "team";
  u ← r !! "username";
  Some (u, {| password := p; name := n; team := t |}).

(** The account [load_auditor_credentials] creates when there is no file. *)
Definition default_credentials : credentials :=
  {[ PStr "admin" := {| password := PStr "admin123";
                        name := PStr "Admin User";
                        team := PStr "Administration" |} ]}.

(** [load_auditor_credentials], on the rows of the file when it exists: a
    later row replaces an earlier one with the same username, and an
    exception gives an empty dict. *)
Definition load_auditor_credentials (file : option (list row)) : credentials :=
  match file with
  | Some rows =>
      match mapM credential_of_row rows with
      | Some entries =>
          foldl (λ creds e, <[e.1 := e.2]> creds) ∅ entries
      | None => ∅
      end
  | None => default_credentials
  end.

(** The POST branch of [login]: the new session, and whether the
    credentials were accepted (redirect to the index) or not (the login page
    again). *)
Definition login_post (creds : credentials) (username pass : pyval)
    (s : session) : session * bool :=
  match creds !! username with
  | Some c =>
      if bool_decide (password c = pass) then
        (<["user_team" := team c]>
           (<["user_name" := name c]> (<["user_id" := username]> s)), true)
      else (s, false)
  | None => (s, false)
  end.

(** [logout]: the session is cleared when a user is logged in. *)
Definition logout (s : session) : session :=
  if bool_decide (is_Some (s !! "user_id")) then ∅ else s.

(** What a decorated view answers. *)
Inductive response (A : Type) : Type :=
  | View (a : A)
  | RedirectLogin
  | RedirectIndexDenied.
Arguments View {A} a.
Arguments RedirectLogin {A}.
Arguments RedirectIndexDenied {A}.

(** [login_required(f)] called in session [s]. *)
Definition login_required {A} (f : A) (s : session) : response A :=
  if bool_decide (s !! "user_id" = None) then RedirectLogin else View f.

(** [admin_required(f)] called in session [s]. *)
Definition admin_required {A} (f : A) (s : session) : response A :=
  if bool_decide (s !! "user_id" = None) then RedirectLogin
  else
    let user_name := dict_get_none s "user_name" in
    let user_team := dict_get s "user_team" (PStr "") in
    if bool_decide (user_name = PStr "admin")
       || bool_decide (user_team = PStr "Administration")
    then View f
    else RedirectIndexDenied.

(** ** Building [SAMPLE_ACCOUNTS] *)

(** The globals the loop reads. [DOCUMENTS_DATA] maps an account to its
    documents, by title. *)
Record loaded_data : Type := {
  PARSED_RESULTS_DATA : parsed_results;
  CSV_DATA : csv_data;
  COMPARISON_DATA : comparison;
  DOCUMENTS_DATA : gmap string (gmap string row);
  completed_at_load : gset string
}.

(** The entry of an account, without the fields that are copied through
    (documents, review items, parsed and audited data). *)
Record sample_account : Type := {
  sa_id : string;
  sa_stats : account_statistics;
  sa_cc_mcc_comparison : list comparison_row;
  sa_has_cc_mcc_tags : bool;
  sa_diagnosis_comb_overlap : list pyval;
  sa_reviewed : bool;
  sa_comparison_data : list row;
  sa_csv_data : account_csv
}.

(** The loop that sets [has_cc_mcc_tags]:
<<
    cc_mcc = sdx_item.get('cc_mcc', '') or sdx_item.get('ccmcc', '')
    if cc_mcc and cc_mcc.upper() in ['CC', 'MCC']: has_cc_mcc_tags = True; break
>>
    It is not inside a [try]: [.upper()] on a truthy cell that is not a
    string raises out of the module. *)
Fixpoint has_cc_mcc_tags (rows : list row) : option bool :=
  match rows with
  | [] => Some false
  | sdx_item :: rest =>
      let first := dict_get sdx_item "cc_mcc" (PStr "") in
      let cc_mcc :=
        if truthy first then first else dict_get sdx_item "ccmcc" (PStr "") in
      if truthy cc_mcc then
        u ← py_upper cc_mcc;
        if bool_decide (u ∈ ["CC"; "MCC"]) then Some true
        else has_cc_mcc_tags rest
      else has_cc_mcc_tags rest
  end.

(** The keys of an entry of [PARSED_RESULTS_DATA], as
    [load_parsed_results_data] builds it. *)
Definition parsed_account_keys : list string :=
  ["coded_diagnoses"; "coded_procedures"; "ms_drg_assignment";
   "combination_code_review"].

(** [diagnosis_comb_overlap]. In the loop [parsed_data] is the entry of the
    account, so [account_num in parsed_data] asks whether the account
    number is one of the entry's keys. *)
Definition diagnosis_comb_overlap (account_num : string)
    (parsed_data : parsed_account) : list pyval :=
  if bool_decide (account_num ∈ parsed_account_keys) then
    let diagnosis_codes : gset pyval :=
      list_to_set
        (filter (λ icd_code, truthy icd_code = true)
           (diagnosis_code <$> coded_diagnoses parsed_data)) in
    filter (λ comb_icd, comb_icd ∈ diagnosis_codes)
      (raw_item_code <$> combination_code_review parsed_data)
  else [].

(** One turn of the loop over [PARSED_RESULTS_DATA.items()]: it raises
    ([None]), skips the account ([Some None]) or stores an entry. *)
Definition sample_account_of (g : loaded_data) (account_num : string)
    (parsed_data : parsed_account) : option (option sample_account) :=
  let stats :=
    calculate_account_statistics account_num (PARSED_RESULTS_DATA g)
      (CSV_DATA g) (COMPARISON_DATA g) in
  let cc_mcc_comparison :=
    create_cc_mcc_comparison_data account_num (PARSED_RESULTS_DATA g)
      (CSV_DATA g) in
  let documents := default ∅ (DOCUMENTS_DATA g !! account_num) in
  if bool_decide (documents = ∅) then Some None
  else
    (* [stats['total_sdx']] is a non-negative [int], so the conversion of
       the source leaves it as it is *)
    let total_sdx := total_sdx stats in
    let pdx_coded := pdx_coded stats in
    let pdx_coded_count :=
      if bool_decide (pdx_coded = "N/A") || bool_decide (pdx_coded = "")
      then 0 else 1 in
    tags ← has_cc_mcc_tags (ground_truth_of (csv_sdx (CSV_DATA g)) account_num);
    let overlap := diagnosis_comb_overlap account_num parsed_data in
    if bool_decide (0 < total_sdx) || bool_decide (0 < pdx_coded_count) then
      Some (Some
        {| sa_id := account_num;
           sa_stats := stats;
           sa_cc_mcc_comparison := cc_mcc_comparison;
           sa_has_cc_mcc_tags := tags;
           sa_diagnosis_comb_overlap := overlap;
           sa_reviewed := bool_decide (account_num ∈ completed_at_load g);
           sa_comparison_data := default [] (COMPARISON_DATA g !! account_num);
           sa_csv_data :=
             {| acc_pdx := ground_truth_of (csv_pdx (CSV_DATA g)) account_num;
                acc_sdx := ground_truth_of (csv_sdx (CSV_DATA g)) account_num |}
        |})
    else Some None.

(** [SAMPLE_ACCOUNTS] after the loop, or [None] when a turn raised. *)
Definition build_sample_accounts (g : loaded_data)
  : option (gmap string sample_account) :=
  let turns : gmap string (option (option sample_account)) :=
    map_imap (λ account_num parsed_data,
                Some (sample_account_of g account_num parsed_data))
      (PARSED_RESULTS_DATA g) in
  if bool_decide (map_Forall (λ _ r, is_Some r) turns)
  then Some (omap (λ r, r ≫= id) turns)
  else None.

(** ** The review queue *)

(** [pending_accounts] and [completed_accounts]. *)
Record queue : Type := {
  pending_accounts : gset string;
  completed_accounts : gset string
}.

(** The queue after the module is loaded:
    [pending_accounts = set(SAMPLE_ACCOUNTS.keys()) - completed_accounts]. *)
Definition initial_queue (accounts : gset string) (completed : gset string)
  : queue :=
  {| pending_accounts := accounts ∖ completed;
     completed_accounts := completed |}.

(** What [submit_feedback] does to the queue when it accepts a submission
    ([pending_accounts.discard], [completed_accounts.add]). *)
Definition submit_feedback_queue (account_id : string) (q : queue) : queue :=
  {| pending_accounts := pending_accounts q ∖ {[account_id]};
     completed_accounts := {[account_id]} ∪ completed_accounts q |}.

(** What [move_to_queue] does to the queue, before it touches the feedback
    file; [accounts] are the keys of [SAMPLE_ACCOUNTS]. *)
Definition move_to_queue_queue (accounts : gset string) (account_id : string)
    (q : queue) : queue :=
  {| pending_accounts :=
       if bool_decide (account_id ∈ accounts)
       then {[account_id]} ∪ pending_accounts q
       else pending_accounts q;
     completed_accounts :=
       if bool_decide (account_id ∈ completed_accounts q)
       then completed_accounts q ∖ {[account_id]}
       else completed_accounts q |}.

(** A request that changes the queue.  [submit_feedback] answers 404 for an
    account that is not in [SAMPLE_ACCOUNTS] before it changes anything;
    [accepted] says whether the rest of the handler reaches the update of the
    queue (it does not when feedback for the account is already on file, or
    when an exception is raised on the way). *)
Inductive request : Type :=
  | SubmitFeedback (account_id : string) (accepted : bool)
  | MoveToQueue (account_id : string).

Definition handle (accounts : gset string) (q : queue) (r : request) : queue :=
  match r with
  | SubmitFeedback account_id accepted =>
      if bool_decide (account_id ∈ accounts) && accepted
      then submit_feedback_queue account_id q
      else q
  | MoveToQueue account_id => move_to_queue_queue accounts account_id q
  end.

(** The queue after a sequence of requests. *)
Definition serve (accounts : gset string) (q : queue) (requests : list request)
  : queue :=
  foldl (handle accounts) q requests.

(** The accounts the dashboard ([index]) and the page of completed accounts
    ([completed_accounts_page]) list:
    [{k: v for k, v in SAMPLE_ACCOUNTS.items() if k in pending_accounts}]. *)
Definition index_accounts {A} (SAMPLE_ACCOUNTS : gmap string A) (q : queue)
  : gmap string A :=
  filter (λ kv, kv.1 ∈ pending_accounts q) SAMPLE_ACCOUNTS.

Definition completed_accounts_page {A} (SAMPLE_ACCOUNTS : gmap string A)
    (q : queue) : gmap string A :=
  filter (λ kv, kv.1 ∈ completed_accounts q) SAMPLE_ACCOUNTS.

(** ** Sample accounts *)

(** Rows as the loaders build them. *)
Definition gt_row (code cc : string) : row :=
  {[ "icd_code" := PStr code; "cc_mcc" := PStr cc ]}.

Definition diagnosis (code typ : string) : row :=
  {[ "ICD-10-CM Code" := PStr code; "Type" := PStr typ ]}.

Definition comb_item (code typ cc : string) : row :=
  {[ "type" := PStr typ; "icd-10-cm code" := PStr code; "cc/mcc" := PStr cc ]}.

(** The raw comparison entry [load_coded_vs_llm_comparison] builds for a
    ground-truth code. *)
Definition raw_entry (typ code : string) : row :=
  {[ "type" := PStr typ;
     "coded_icd" := PStr code;
     "coded_description" := PStr (typ +:+ " - " +:+ code);
     "llm_icd" := PStr code;
     "llm_description" := PStr (typ +:+ " - " +:+ code);
     "match_status" := PStr "Match" ]}.

(** Account 1001: one PDX and three SDX codes in the ground truth, one of
    them tagged in lower case; the extraction has the PDX, an SDX code that
    differs from the ground truth in its last character and is listed twice
    in the combination table with different severities, and one exact SDX. *)
Definition sample_csv : csv_data :=
  {| csv_pdx := {[ "1001" := [gt_row "I2510" ""] ]};
     csv_sdx := {[ "1001" := [gt_row "E1122" "mcc"; gt_row "I10" "";
                              gt_row "N179" "CC"] ]} |}.

Definition sample_parsed : parsed_results :=
  {[ "1001" :=
       {| coded_diagnoses :=
            [diagnosis "I2510" "PDX"; diagnosis "E1121" "SDX";
             diagnosis "N179" "sdx"];
          combination_code_review :=
            [comb_item "E1121" "SDX" "No"; comb_item "E1121" "sdx" "yes";
             comb_item "N179" "SDX" "CC"] |} ]}.

Definition sample_comparison_raw : comparison :=
  {[ "1001" := [raw_entry "PDX" "I2510"; raw_entry "SDX" "E1122";
                raw_entry "SDX" "I10"; raw_entry "SDX" "N179"] ]}.

(** The first comparison row of account 1001. *)
Definition sample_row : comparison_row :=
  {| gt_icd := PStr "E1122"; gt_cc_mcc := "mcc";
     llm_icd := PStr "E1121"; llm_cc_mcc := PStr "yes";
     match_type := "Specificity Issue" |}.

(** The severity counts of account 1001. *)
Definition sample_counts : cc_mcc_counts :=
  {| gt_cc := 1; gt_mcc := 1; llm_cc := 1; llm_mcc := 0 |}.

(** Account 2002: the ground truth has one SDX code, tagged CC, and the
    extraction has it too; a row of the combination table has a number
    where its type should be. *)
Definition broken_comb_csv : csv_data :=
  {| csv_pdx := ∅;
     csv_sdx := {[ "2002" := [gt_row "I10" "CC"] ]} |}.

Definition broken_comb_parsed : parsed_results :=
  {[ "2002" :=
       {| coded_diagnoses := [diagnosis "I10" "SDX"];
          combination_code_review :=
            [ ({[ "type" := PInt 7; "icd-10-cm code" := PStr "I10";
                  "cc/mcc" := PStr "CC" ]} : row) ] |} ]}.

(** Account 3003: one extracted code, which is not in the ground truth. *)
Definition mismatch_csv : csv_data :=
  {| csv_pdx := ∅;
     csv_sdx := {[ "3003" := [gt_row "Z9989" ""] ]} |}.

Definition mismatch_parsed : parsed_results :=
  {[ "3003" :=
       {| coded_diagnoses := [diagnosis "E1121" "SDX"];
          combination_code_review := [] |} ]}.

Definition mismatch_comparison_raw : comparison :=
  {[ "3003" := [raw_entry "SDX" "Z9989"] ]}.

(** Accounts 4004 and 4005: 4004 has one extracted code against three
    ground-truth codes; the only diagnosis of 4005 has [None] as its type. *)
Definition fallback_csv : csv_data :=
  {| csv_pdx := {[ "4004" := [gt_row "I2510" ""];
                   "4005" := [gt_row "J189" ""] ]};
     csv_sdx := {[ "4004" := [gt_row "I10" ""; gt_row "E119" ""] ]} |}.

Definition fallback_parsed : parsed_results :=
  {[ "4004" :=
       {| coded_diagnoses := [diagnosis "I10" "SDX"];
          combination_code_review := [] |};
     "4005" :=
       {| coded_diagnoses :=
            [ ({[ "ICD-10-CM Code" := PStr "J189"; "Type" := PNone ]} : row) ];
          combination_code_review := [] |} ]}.

Definition fallback_comparison_raw : comparison :=
  {[ "4004" := [raw_entry "PDX" "I2510"; raw_entry "SDX" "I10";
                raw_entry "SDX" "E119"];
     "4005" := [raw_entry "PDX" "J189"] ]}.

(** The statistics of account 2002. *)
Definition broken_comb_statistics : account_statistics :=
  {| total_sdx := 1; llm_matched_sdx := 1; matched_icds := 0; accuracy := 0;
     pdx_coded := "N/A"; pdx_llm := "N/A"; pdx_matched := false;
     cc_mcc_stats := zero_cc_mcc_stats |}.

(** The ground truth of an account with two codes that differ from "E1121"
    in their last character only. *)
Definition two_candidates_csv : account_csv :=
  {| acc_pdx := [];
     acc_sdx := [gt_row "E1122" "MCC"; gt_row "I10" ""; gt_row "E1129" ""] |}.

(** ** Loaded modules *)

(** The documents of an account: one entry, under its title. *)
Definition one_document : gmap string row :=
  {[ "Combined Document" := ({[ "content" := PStr "Discharge summary" ]} : row) ]}.

(** The globals after loading account 1001, with its feedback on file. *)
Definition sample_loaded : loaded_data :=
  {| PARSED_RESULTS_DATA := sample_parsed;
     CSV_DATA := sample_csv;
     COMPARISON_DATA :=
       merge_comparison_with_parsed_data sample_comparison_raw sample_parsed;
     DOCUMENTS_DATA := {[ "1001" := one_document ]};
     completed_at_load := {[ "1001" ]} |}.

(** The globals after loading account 3003, whose ground truth has no
    severity tag. *)
Definition mismatch_loaded : loaded_data :=
  {| PARSED_RESULTS_DATA := mismatch_parsed;
     CSV_DATA := mismatch_csv;
     COMPARISON_DATA :=
       merge_comparison_with_parsed_data mismatch_comparison_raw mismatch_parsed;
     DOCUMENTS_DATA := {[ "3003" := one_document ]};
     completed_at_load := ∅ |}.

(** Account 5005: the severity cell of its only ground-truth row is a
    number. *)
Definition numeric_tag_loaded : loaded_data :=
  {| PARSED_RESULTS_DATA :=
       {[ "5005" := {| coded_diagnoses := [diagnosis "I10" "SDX"];
                       combination_code_review := [] |} ]};
     CSV_DATA :=
       {| csv_pdx := ∅;
          csv_sdx := {[ "5005" := [ ({[ "icd_code" := PStr "I10";
                                        "cc_mcc" := PInt 1 ]} : row) ] ]} |};
     COMPARISON_DATA := ∅;
     DOCUMENTS_DATA := {[ "5005" := one_document ]};
     completed_at_load := ∅ |}.

(** The accounts built from [sample_loaded]. *)
Definition sample_accounts : gmap string sample_account :=
  default ∅ (build_sample_accounts sample_loaded).



(** ** Login files *)

Definition login_row (username pass name team : string) : row :=
  {[ "username" := PStr username; "password" := PStr pass;
     "name" := PStr name; "team" := PStr team ]}.

(** A file in which the username [jo] is listed twice. *)
Definition sample_logins : list row :=
  [ login_row "jo" "first" "Jo" "Coding";
    login_row "al" "secret" "Al" "Audit";
    login_row "jo" "second" "Jo B" "Administration" ].


(** ** A feedback file *)

Definition feedback_row (account code verdict : string) : row :=
  {[ "account_number" := PStr account; "icd_code" := PStr code;
     "accept_reject" := PStr verdict; "feedback_comment" := PStr "";
     "reviewer" := PStr "Jo"; "timestamp" := PStr "2025-01-01T00:00:00" ]}.

(** Feedback on two codes of account 1001 and on one code of another
    account; E1121 is in the combination table of 1001, Z9989 is not. *)
Definition sample_feedback : list row :=
  [ feedback_row "1001" "E1121" "accept";
    feedback_row "3003" "E1121" "reject";
    feedback_row "1001" "Z9989" "reject" ].

(** * Properties *)

(** ** Lists and options *)

Section list_facts.
Context {A B C : Type}.

Lemma is_nil_fmap (f : A → B) (l : list A) : is_nil (f <$> l) = is_nil l.
Proof. by destruct l. Qed.

Lemma foldl_snoc (f : A → B → A) (a : A) (l : list B) (x : B) :
  foldl f a (l ++ [x]) = f (foldl f a l) x.
Proof. by rewrite foldl_app. Qed.

Lemma elem_of_concat (x : A) (ls : list (list A)) :
  x ∈ concat ls → ∃ l, l ∈ ls ∧ x ∈ l.
Proof.
  induction ls as [|l ls IH]; cbn [concat].
  - by intros ?%elem_of_nil.
  - rewrite elem_of_app. intros [Hx|Hx].
    + exists l. split; [left|done].
    + destruct (IH Hx) as (l' & ? & ?). exists l'. split; [by right|done].
Qed.

Lemma mapM_Some_elem (f : A → option B) (l : list A) (k : list B)
    (y : B) :
  mapM f l = Some k → y ∈ k → ∃ x, x ∈ l ∧ f x = Some y.
Proof.
  intros HmapM%mapM_Some_1.
  induction HmapM as [|x y' l k Hxy _ IH].
  - by intros ?%elem_of_nil.
  - rewrite elem_of_cons. intros [->|Hy].
    + exists x. split; [left|done].
    + destruct (IH Hy) as (x' & ? & ?). exists x'. split; [by right|done].
Qed.

Lemma mapM_concat_fmap (f : A → option (list B)) (proj : B → C)
    (g : A → list C) (l : list A) :
  Forall (λ x, ∃ ys, f x = Some ys ∧ proj <$> ys = g x) l →
  ∃ rows, mapM f l = Some rows ∧ proj <$> concat rows = concat (g <$> l).
Proof.
  induction 1 as [|x l (ys & Hf & Hg) _ (rows & Hrows & Hproj)].
  - by exists [].
  - exists (ys :: rows). cbn [mapM]. rewrite Hf, Hrows. split; [done|].
    rewrite fmap_cons. cbn [concat]. by rewrite fmap_app, Hg, Hproj.
Qed.

Section predicates.
Context (P : A → Prop) `{!∀ x, Decision (P x)}.

Lemma head_filter_app (l1 l2 : list A) :
  head (filter P (l1 ++ l2))
  = match head (filter P l1) with
    | Some x => Some x
    | None => head (filter P l2)
    end.
Proof. rewrite filter_app. by destruct (filter P l1). Qed.

Lemma head_filter_None (l : list A) (x : A) :
  head (filter P l) = None → x ∈ l → ¬ P x.
Proof.
  intros Hhead Hx HP.
  assert (x ∈ filter P l) as Hin by (by apply list_elem_of_filter).
  destruct (filter P l); [by apply elem_of_nil in Hin|done].
Qed.

Lemma head_filter_None_iff (l : list A) :
  head (filter P l) = None ↔ ¬ Exists P l.
Proof.
  rewrite Exists_exists. split.
  - intros Hh (x & Hx & HPx). by eapply head_filter_None.
  - intros Hno. destruct (filter P l) as [|x l'] eqn:Hf; [done|].
    exfalso. apply Hno. exists x.
    assert (x ∈ filter P l) as [? ?]%list_elem_of_filter by (rewrite Hf; left).
    done.
Qed.

Lemma concat_fmap_if (h : A → C) (l : list A) :
  concat ((λ x, if bool_decide (P x) then [h x] else []) <$> l)
  = h <$> filter P l.
Proof.
  induction l as [|x l IH]; [done|].
  rewrite fmap_cons, filter_cons. cbn [concat]. rewrite IH.
  case_bool_decide; case_decide; done.
Qed.

End predicates.

End list_facts.

Lemma count_Forall2 {A B} (P : A → Prop) (Q : B → Prop)
    `{!∀ x, Decision (P x)} `{!∀ y, Decision (Q y)}
    (l : list A) (k : list B) :
  Forall2 (λ x y, P x ↔ Q y) l k →
  length (filter P l) = length (filter Q k).
Proof.
  induction 1 as [|x y l k Hxy _ IH]; [done|].
  rewrite !filter_cons.
  destruct (decide (P x)), (decide (Q y)); cbn [length]; tauto || lia.
Qed.



(** ** Python values and rows *)

Lemma truthy_PStr (s : string) : truthy (PStr s) = true ↔ s ≠ "".
Proof.
  cbn [truthy]. rewrite negb_true_iff, bool_decide_eq_false. done.
Qed.

Lemma elem_of_PStr_fmap (c : string) (l : list string) :
  PStr c ∈ PStr <$> l ↔ c ∈ l.
Proof.
  rewrite list_elem_of_fmap. split.
  - intros (y & [= ->] & Hy). done.
  - intros Hc. eauto.
Qed.

Lemma dict_get_Some (d : row) (k : string) (dflt v : pyval) :
  d !! k = Some v → dict_get d k dflt = v.
Proof. unfold dict_get. by intros ->. Qed.

Lemma str_field_get (d : row) (k dflt : string) :
  str_field d k → ∃ s, dict_get d k (PStr dflt) = PStr s.
Proof.
  unfold str_field, dict_get.
  destruct (d !! k) as [[|n|s]|]; simpl; [done|done|eauto|eauto].
Qed.

Lemma typed_gt_row_code (item : row) :
  typed_gt_row item → ∃ s, item !! "icd_code" = Some (PStr s).
Proof.
  unfold typed_gt_row.
  destruct (item !! "icd_code") as [[|n|s]|]; simpl; [done|done|eauto|done].
Qed.

Lemma filter_by_upper_typed (key target : string) (l : list row) :
  Forall (λ d, str_field d key) l →
  filter_by_upper key target l = Some (records_of_role key target l).
Proof.
  unfold records_of_role.
  induction 1 as [|d l Hd _ IH]; [done|].
  cbn [filter_by_upper]. rewrite IH, filter_cons. unfold role_of.
  destruct (str_field_get d key "" Hd) as [s ->]. simpl.
  case_bool_decide; case_decide; done.
Qed.

Lemma filter_by_upper_Some (key target : string) (l kept : list row) :
  filter_by_upper key target l = Some kept →
  kept = records_of_role key target l.
Proof.
  intros Hsome.
  assert (Forall (λ d, str_field d key) l) as Htyped.
  { revert kept Hsome.
    induction l as [|d l IH]; intros kept; cbn [filter_by_upper]; [done|].
    unfold dict_get.
    destruct (py_upper _) as [u|] eqn:Hu; cbn [mbind option_bind]; [|done].
    destruct (filter_by_upper key target l) as [kept'|]; [|done].
    intros _. constructor; [|by eapply IH].
    unfold str_field. by destruct (d !! key) as [[|n|s]|]. }
  rewrite (filter_by_upper_typed _ _ _ Htyped) in Hsome. congruence.
Qed.


(** ** The specificity test on strings *)

Lemma specificity_test_strings (a b : string) :
  specificity_test (PStr a) (PStr b) = Some (bool_decide (qualifies a b)).
Proof.
  unfold specificity_test; simpl.
  destruct (decide (1 < String.length a)) as [Ha|Ha]; cycle 1.
  { rewrite (bool_decide_eq_false_2 _ Ha).
    rewrite bool_decide_eq_false_2; [done|]. unfold qualifies. tauto. }
  rewrite (bool_decide_eq_true_2 _ Ha).
  destruct (decide (1 < String.length b)) as [Hb|Hb]; cycle 1.
  { rewrite (bool_decide_eq_false_2 _ Hb).
    rewrite bool_decide_eq_false_2; [done|]. unfold qualifies. tauto. }
  rewrite (bool_decide_eq_true_2 _ Hb).
  destruct (decide (drop_last a = drop_last b)) as [Ht|Ht].
  { rewrite (bool_decide_eq_true_2 _ Ht).
    rewrite bool_decide_eq_true_2; [done|]. unfold qualifies. tauto. }
  rewrite (bool_decide_eq_false_2 _ Ht).
  destruct (startswith a b) eqn:Hab.
  { rewrite bool_decide_eq_true_2; [done|]. unfold qualifies. tauto. }
  destruct (startswith b a) eqn:Hba.
  { rewrite bool_decide_eq_true_2; [done|]. unfold qualifies. tauto. }
  rewrite bool_decide_eq_false_2; [done|].
  unfold qualifies. rewrite Hab, Hba. intros (_ & _ & [?|[?|?]]); done.
Qed.

Lemma specificity_test_str_qualifies (a b : string) :
  specificity_test_str a b = bool_decide (qualifies a b).
Proof.
  apply eq_true_iff_eq. rewrite bool_decide_eq_true.
  unfold specificity_test_str, qualifies.
  rewrite !andb_true_iff, !orb_true_iff, !bool_decide_eq_true. tauto.
Qed.

Lemma sdx_scan_strings (candidate : string) (refs : list string) :
  sdx_scan (PStr candidate) (PStr <$> refs)
  = Some (if bool_decide (Exists (qualifies candidate) refs)
          then "Specificity Issue" else "SDX Mismatch").
Proof.
  induction refs as [|r refs IH].
  - rewrite bool_decide_eq_false_2; [done|]. by inversion 1.
  - rewrite fmap_cons. cbn [sdx_scan].
    rewrite specificity_test_strings, IH. cbn [mbind option_bind].
    destruct (decide (qualifies candidate r)) as [Hq|Hq].
    + rewrite (bool_decide_eq_true_2 _ Hq).
      rewrite bool_decide_eq_true_2; [done|]. by left.
    + rewrite (bool_decide_eq_false_2 _ Hq). f_equal.
      rewrite (bool_decide_ext (Exists _ (r :: refs)) (Exists (qualifies candidate) refs));
        [done|].
      rewrite Exists_cons. tauto.
Qed.

Lemma qualifies_nonempty (c r : string) : qualifies c r → c ≠ "" ∧ r ≠ "".
Proof.
  intros (Hc & Hr & _). split; intros ->; simpl in *; lia.
Qed.

(** The classification and the reported reference, by cases. *)
Lemma classify_cases (c : string) (ext : list string) :
  (c ≠ "" ∧ c ∈ ext
   ∧ classify c ext = MATCH ∧ best_reference c ext = Some c)
  ∨ (¬ (c ≠ "" ∧ c ∈ ext)
     ∧ match head (filter (qualifies c) ext) with
       | Some r =>
           classify c ext = SPECIFICITY_ISSUE ∧ best_reference c ext = Some r
       | None => classify c ext = MISMATCH ∧ best_reference c ext = None
       end).
Proof.
  unfold best_reference, classify.
  destruct (decide (c = "")) as [->|Hc].
  { right. split; [tauto|].
    rewrite (bool_decide_eq_true_2 (_ ∨ _)) by (by left).
    destruct (head _) as [r|] eqn:Hh; [|done].
    apply head_Some_elem_of, list_elem_of_filter in Hh as [Hq _].
    by apply qualifies_nonempty in Hq as [? _]. }
  destruct ext as [|r0 ext].
  { right. split; [by intros [_ ?%elem_of_nil]|].
    rewrite (bool_decide_eq_true_2 (_ ∨ _)) by (by right). done. }
  rewrite (bool_decide_eq_false_2 (_ ∨ _)) by (intros [?|?]; done).
  destruct (decide (c ∈ r0 :: ext)) as [Hin|Hin].
  { left. by rewrite (bool_decide_eq_true_2 _ Hin). }
  right. split; [tauto|].
  rewrite (bool_decide_eq_false_2 _ Hin).
  destruct (head (filter (qualifies c) (r0 :: ext))) as [r|] eqn:Hh.
  - rewrite bool_decide_eq_true_2; [done|].
    apply head_Some_elem_of, list_elem_of_filter in Hh as [Hq Hr].
    apply Exists_exists. eauto.
  - rewrite bool_decide_eq_false_2; [done|].
    by apply (head_filter_None_iff (qualifies c)).
Qed.


(** ** C1: the matcher follows the four steps *)

(** C1.  For a string candidate and a ground-truth list whose codes are the
    strings [refs] (in that order), [check_sdx_match] returns the label of
    [classify candidate refs]: MISMATCH for an empty candidate or an empty
    list, else MATCH when the candidate is one of the references, else
    SPECIFICITY_ISSUE when some reference with both lengths above one has
    the same truncation or is a prefix of, or prefixed by, the candidate,
    else MISMATCH. *)
Theorem check_sdx_match_follows_classify
    (candidate : string) (refs : list string)
    (account_num : string) (csv : csv_data) :
  (λ item, dict_get item "icd_code" (PStr "")) <$>
     ground_truth_of (csv_sdx csv) account_num = PStr <$> refs →
  check_sdx_match (PStr candidate) account_num csv
  = sdx_label (classify candidate refs).
Proof.
  intros Hcodes.
  unfold check_sdx_match, check_sdx_match_body, classify.
  rewrite Hcodes, is_nil_fmap; simpl.
  destruct (decide (candidate = "")) as [->|Hne].
  { rewrite (bool_decide_eq_true_2 ("" = "")) by done.
    rewrite (bool_decide_eq_true_2 (_ ∨ _)) by (by left). done. }
  rewrite (bool_decide_eq_false_2 (candidate = "")) by done.
  destruct refs as [|r refs].
  { rewrite (bool_decide_eq_true_2 (_ ∨ _)) by (by right). done. }
  rewrite (bool_decide_eq_false_2 (_ ∨ _)) by (intros [?|?]; done).
  change (negb (negb false) || is_nil (r :: refs)) with false. cbv iota.
  rewrite (bool_decide_ext _ _ (elem_of_PStr_fmap candidate (r :: refs))).
  destruct (bool_decide (candidate ∈ r :: refs)); [done|].
  rewrite sdx_scan_strings.
  by destruct (bool_decide (Exists (qualifies candidate) (r :: refs))).
Qed.

Lemma check_sdx_match_follows_classify_witness :
  (λ item, dict_get item "icd_code" (PStr "")) <$>
     ground_truth_of (csv_sdx sample_csv) "1001"
  = PStr <$> ["E1122"; "I10"; "N179"]
  ∧ check_sdx_match (PStr "E1121") "1001" sample_csv = "Specificity Issue".
Proof.
  assert ((λ item, dict_get item "icd_code" (PStr "")) <$>
            ground_truth_of (csv_sdx sample_csv) "1001"
          = PStr <$> ["E1122"; "I10"; "N179"]) as Hcodes by compute_done.
  split; [exact Hcodes|].
  rewrite (check_sdx_match_follows_classify "E1121" ["E1122"; "I10"; "N179"]
             "1001" sample_csv Hcodes).
  compute_done.
Defined.

(** The matcher on account 1001, whose ground truth is E1122, I10, N179. *)
Example check_sdx_match_exact :
  check_sdx_match (PStr "I10") "1001" sample_csv = "SDX Match".
Proof. compute_done. Qed.

Example check_sdx_match_prefix :
  check_sdx_match (PStr "I1") "1001" sample_csv = "Specificity Issue".
Proof. compute_done. Qed.

Example check_sdx_match_length_guard :
  check_sdx_match (PStr "I") "1001" sample_csv = "SDX Mismatch".
Proof. compute_done. Qed.

Example check_sdx_match_unknown_account :
  check_sdx_match (PStr "I10") "9999" sample_csv = "SDX Mismatch".
Proof. compute_done. Qed.

(** A reference that is not a string makes the scan raise, and the handler
    answers with a mismatch. *)
Example check_sdx_match_raises :
  check_sdx_match_body (PStr "E1121") "1"
    {| csv_pdx := ∅;
       csv_sdx := {[ "1" := [ ({[ "icd_code" := PInt 5 ]} : row) ] ]} |} = None
  ∧ check_sdx_match (PStr "E1121") "1"
      {| csv_pdx := ∅;
         csv_sdx := {[ "1" := [ ({[ "icd_code" := PInt 5 ]} : row) ] ]} |}
    = "SDX Mismatch".
Proof. split; compute_done. Qed.

(** ** Severity normalization *)

Lemma upper_numeric_head (s : string) :
  numeric_head s → upper s ≠ "CC" ∧ upper s ≠ "MCC".
Proof.
  destruct s as [|c r]; [done|]. cbn [numeric_head upper]. intros Hc.
  assert (upper_char c = c) as ->.
  { unfold upper_char.
    destruct (Nat.leb_spec 97 (nat_of_ascii c)); [lia|done]. }
  split; intros [= -> _]; vm_compute in Hc; lia.
Qed.

Lemma pretty_N_char_numeric (x : N) (s : string) :
  numeric_head (String (pretty_N_char x) s).
Proof.
  unfold numeric_head, pretty_N_char.
  repeat case_match; vm_compute; lia.
Qed.

Lemma pretty_N_go_numeric (x : N) (s : string) :
  numeric_head s → numeric_head (pretty_N_go x s).
Proof.
  revert s. induction (N.lt_wf_0 x) as [x _ IH]; intros s Hs.
  destruct (decide (x = 0)%N) as [->|Hx].
  - by rewrite pretty_N_go_0.
  - rewrite pretty_N_go_step by lia. apply IH.
    + apply N.div_lt; lia.
    + apply pretty_N_char_numeric.
Qed.

Lemma pretty_N_numeric (x : N) : numeric_head (pretty x).
Proof.
  unfold pretty, pretty_N. case_decide as Hx.
  - vm_compute. lia.
  - rewrite pretty_N_go_step by lia.
    apply pretty_N_go_numeric, pretty_N_char_numeric.
Qed.

Lemma pretty_Z_numeric (n : Z) : numeric_head (pretty n).
Proof.
  destruct n as [|p|p].
  - vm_compute. lia.
  - exact (pretty_N_numeric (N.pos p)).
  - unfold pretty, pretty_Z, numeric_head. cbn [String.append].
    vm_compute. lia.
Qed.

Lemma upper_py_str_int (n : Z) :
  upper (py_str (PInt n)) ≠ "CC" ∧ upper (py_str (PInt n)) ≠ "MCC".
Proof. apply upper_numeric_head, pretty_Z_numeric. Qed.

(** The test of the comparator on the raw ground-truth tag selects the rows
    whose normalized severity is CC or MCC. *)
Lemma gt_cc_mcc_raw_has_severity (item : row) :
  negb (bool_decide (gt_cc_mcc_raw item = ""))
  && bool_decide (upper (gt_cc_mcc_raw item) ∈ ["CC"; "MCC"])
  = bool_decide (has_severity item).
Proof.
  assert (∀ v : pyval,
    negb (bool_decide ((if truthy v then py_str v else "") = ""))
    && bool_decide (upper (if truthy v then py_str v else "") ∈ ["CC"; "MCC"])
    = true ↔ normalize_severity (Some v) ≠ NONE) as Hcell.
  { intros v. rewrite andb_true_iff, negb_true_iff, bool_decide_eq_false,
      bool_decide_eq_true, !elem_of_cons, elem_of_nil.
    destruct v as [|n|s]; cbn [truthy normalize_severity].
    - vm_compute. intuition congruence.
    - destruct (upper_py_str_int n) as [H1 H2].
      destruct (negb (n =? 0)%Z); [tauto|].
      vm_compute. intuition congruence.
    - destruct (decide (s = "")) as [->|Hs].
      { vm_compute. intuition congruence. }
      rewrite (bool_decide_eq_false_2 (s = "")) by done. cbn [negb py_str].
      repeat case_bool_decide; intuition congruence. }
  apply eq_true_iff_eq. rewrite bool_decide_eq_true.
  unfold gt_cc_mcc_raw, has_severity, gt_severity_cell.
  destruct (item !! "cc_mcc") as [v|]; [apply Hcell|].
  destruct (item !! "ccmcc") as [v|]; [apply Hcell|].
  vm_compute. intuition congruence.
Qed.

Lemma gt_cc_mcc_raw_upper (gt_item : row) :
  has_severity gt_item →
  upper (gt_cc_mcc_raw gt_item) = "CC" ∨ upper (gt_cc_mcc_raw gt_item) = "MCC".
Proof.
  intros Hsev. pose proof (bool_decide_eq_true_2 _ Hsev) as Hb.
  rewrite <- gt_cc_mcc_raw_has_severity in Hb.
  apply andb_true_iff in Hb as [_ Hup]. apply bool_decide_eq_true_1 in Hup.
  rewrite !elem_of_cons, elem_of_nil in Hup. tauto.
Qed.

(** The upper-cased tag of the counting loop is "CC" (or "MCC") exactly when
    the normalized severity of the row is CC (or MCC). *)
Lemma gt_cc_mcc_upper_normalize (item : row) :
  (gt_cc_mcc_upper item = Some "CC"
   ↔ normalize_severity (gt_severity_cell item) = CC)
  ∧ (gt_cc_mcc_upper item = Some "MCC"
     ↔ normalize_severity (gt_severity_cell item) = MCC).
Proof.
  assert (∀ v : pyval,
    ((if truthy v then upper (py_str v) else "") = "CC"
       ↔ normalize_severity (Some v) = CC)
    ∧ ((if truthy v then upper (py_str v) else "") = "MCC"
       ↔ normalize_severity (Some v) = MCC)) as Hcell.
  { intros [|n|s]; cbn [truthy normalize_severity].
    - by split.
    - destruct (upper_py_str_int n) as [H1 H2].
      destruct (negb (n =? 0)%Z); split; split; intros; done.
    - destruct (decide (s = "")) as [->|Hs]; [by vm_compute|].
      rewrite (bool_decide_eq_false_2 (s = "")) by done. cbn [negb py_str].
      repeat case_bool_decide; split; split; intros; congruence. }
  unfold gt_cc_mcc_upper, gt_severity_cell.
  destruct (item !! "cc_mcc") as [v|].
  { destruct (Hcell v) as [H1 H2]. split; [rewrite <- H1|rewrite <- H2];
      split; congruence. }
  destruct (item !! "ccmcc") as [v|].
  { destruct (Hcell v) as [H1 H2]. split; [rewrite <- H1|rewrite <- H2];
      split; congruence. }
  by split.
Qed.

(** The tag of the extracted-side counting loop, when it does not raise. *)
Lemma llm_cc_mcc_upper_normalize (item : row) (t : string) :
  llm_cc_mcc_upper item = Some t →
  (Some t = Some "CC" ↔ normalize_severity (item !! "cc/mcc") = CC)
  ∧ (Some t = Some "MCC" ↔ normalize_severity (item !! "cc/mcc") = MCC).
Proof.
  unfold llm_cc_mcc_upper, dict_get_none, dict_get.
  destruct (item !! "cc/mcc") as [[|n|s]|]; cbn [default from_option id truthy
    normalize_severity py_upper].
  - intros [= <-]. split; split; intros; done.
  - destruct (negb (n =? 0)%Z); [done|].
    intros [= <-]. split; split; intros; done.
  - destruct (decide (s = "")) as [->|Hs].
    { intros [= <-]. by vm_compute. }
    rewrite (bool_decide_eq_false_2 (s = "")) by done. cbn [negb].
    intros [= <-].
    repeat case_bool_decide; split; split; intros; congruence.
  - intros [= <-]. split; split; intros; done.
Qed.

Lemma tally_counts (tags : list (option string)) (a b : nat) :
  foldl tally (a, b) tags
  = (a + length (filter (λ t, t = Some "CC") tags),
     b + length (filter (λ t, t = Some "MCC") tags)).
Proof.
  revert a b. induction tags as [|t tags IH]; intros a b.
  - cbn. f_equal; lia.
  - cbn [foldl]. unfold tally at 2. rewrite !filter_cons. cbn [fst snd].
    destruct (decide (t = Some "CC")) as [->|Hcc].
    + rewrite (bool_decide_eq_true_2 (Some "CC" = Some "CC")) by done.
      rewrite IH. rewrite decide_False by done. cbn [length]. f_equal; lia.
    + rewrite (bool_decide_eq_false_2 _ Hcc).
      destruct (decide (t = Some "MCC")) as [->|Hmcc].
      * rewrite (bool_decide_eq_true_2 (Some "MCC" = Some "MCC")) by done.
        rewrite IH. cbn [length]. f_equal; lia.
      * rewrite (bool_decide_eq_false_2 _ Hmcc). apply IH.
Qed.

(** A cell with a severity is a non-empty string whose upper-cased form is
    "CC" or "MCC". *)
Lemma normalize_severity_tagged (cell : option pyval) :
  normalize_severity cell ≠ NONE →
  ∃ s, cell = Some (PStr s) ∧ s ≠ "" ∧ upper s ∈ ["CC"; "MCC"].
Proof.
  destruct cell as [[|n|s]|]; cbn [normalize_severity]; [done|done| |done].
  intros Htag. exists s. split; [done|].
  rewrite !elem_of_cons, elem_of_nil.
  repeat case_bool_decide; [| |done].
  - split; [by intros ->|by left].
  - split; [by intros ->|by right; left].
Qed.

(** ** The ordered dict *)

Lemma odict_keys_set (k v : pyval) (d : odict) :
  odict_keys (odict_set k v d)
  = if bool_decide (k ∈ odict_keys d) then odict_keys d
    else odict_keys d ++ [k].
Proof.
  unfold odict_keys. induction d as [|[k' v'] d IH]; [done|].
  cbn [odict_set]. destruct (decide (k' = k)) as [->|Hne].
  - rewrite (bool_decide_eq_true_2 (k = k)) by done.
    rewrite bool_decide_eq_true_2; [done|]. rewrite fmap_cons. left.
  - rewrite (bool_decide_eq_false_2 (k' = k)) by done.
    rewrite !fmap_cons, IH. cbn [fst].
    destruct (decide (k ∈ d.*1)) as [Hin|Hin].
    + rewrite (bool_decide_eq_true_2 _ Hin).
      rewrite bool_decide_eq_true_2; [done|]. by right.
    + rewrite (bool_decide_eq_false_2 _ Hin).
      rewrite bool_decide_eq_false_2; [done|].
      rewrite elem_of_cons. intros [?|?]; congruence.
Qed.

Lemma odict_get_set (k v k' : pyval) (d : odict) :
  odict_get (odict_set k v d) k'
  = if bool_decide (k = k') then Some v else odict_get d k'.
Proof.
  induction d as [|[k0 v0] d IH]; cbn [odict_set odict_get].
  - done.
  - destruct (decide (k0 = k)) as [->|Hne].
    + rewrite (bool_decide_eq_true_2 (k = k)) by done.
      cbn [odict_get]. by destruct (bool_decide (k = k')).
    + rewrite (bool_decide_eq_false_2 (k0 = k)) by done.
      cbn [odict_get]. rewrite IH.
      repeat case_bool_decide; congruence.
Qed.

Lemma odict_get_is_Some (d : odict) (k : pyval) :
  k ∈ odict_keys d → is_Some (odict_get d k).
Proof.
  unfold odict_keys. induction d as [|[k0 v0] d IH]; cbn [odict_get].
  - by intros ?%elem_of_nil.
  - rewrite fmap_cons, elem_of_cons. cbn [fst]. intros [->|Hin].
    + rewrite bool_decide_eq_true_2 by done. eauto.
    + case_bool_decide; eauto.
Qed.

Lemma odict_get_Some_key (d : odict) (k v : pyval) :
  odict_get d k = Some v → k ∈ odict_keys d.
Proof.
  unfold odict_keys. induction d as [|[k0 v0] d IH]; cbn [odict_get]; [done|].
  rewrite fmap_cons, elem_of_cons. cbn [fst].
  case_bool_decide; [by left; subst|]. intros ?. right. by apply IH.
Qed.

Lemma odict_set_NoDup (k v : pyval) (d : odict) :
  NoDup (odict_keys d) → NoDup (odict_keys (odict_set k v d)).
Proof.
  intros Hnd. rewrite odict_keys_set. case_bool_decide as Hin; [done|].
  apply NoDup_app. split_and!; [done| |apply NoDup_singleton].
  intros x Hx ->%list_elem_of_singleton. done.
Qed.


(** ** The mapping from extracted codes to severities *)

(** The keys are the truthy codes of the items. *)
Lemma build_keys_elem (items : list row) (d : odict) (k : pyval) :
  k ∈ odict_keys (foldl record_llm_item d items)
  ↔ k ∈ odict_keys d ∨ (truthy k = true ∧ k ∈ raw_item_code <$> items).
Proof.
  induction items as [|item items IH] using rev_ind.
  - rewrite fmap_nil, elem_of_nil. cbn [foldl]. tauto.
  - rewrite foldl_snoc, fmap_app, elem_of_app, fmap_cons, fmap_nil,
      list_elem_of_singleton.
    unfold record_llm_item at 1. fold (raw_item_code item).
    destruct (truthy (raw_item_code item)) eqn:Htr.
    + rewrite odict_keys_set. case_bool_decide as Hin.
      * rewrite IH. split; [tauto|].
        intros [?|[? [?| ->]]]; [tauto|tauto|]. by apply IH.
      * rewrite elem_of_app, list_elem_of_singleton, IH.
        split; [|tauto]. intros [?| ->]; tauto.
    + rewrite IH. split; [tauto|].
      intros [?|[? [?| ->]]]; [tauto|tauto|congruence].
Qed.

(** A key is looked up first among the keys in insertion order; as far as
    the first key with a property of truthy codes goes, the keys are the
    codes of the items in their order. *)
Lemma build_keys_head (P : pyval → Prop) `{!∀ x, Decision (P x)}
    (items : list row) (d : odict) :
  (∀ k, P k → truthy k = true) →
  head (filter P (odict_keys (foldl record_llm_item d items)))
  = head (filter P (odict_keys d ++ (raw_item_code <$> items))).
Proof.
  intros HP. induction items as [|item items IH] using rev_ind.
  - by rewrite fmap_nil, app_nil_r.
  - rewrite foldl_snoc, fmap_app, app_assoc, (head_filter_app P (_ ++ _)), <- IH.
    rewrite fmap_cons, fmap_nil.
    unfold record_llm_item at 1. fold (raw_item_code item).
    set (K := odict_keys (foldl record_llm_item d items)).
    destruct (truthy (raw_item_code item)) eqn:Htr.
    + rewrite odict_keys_set. fold K. case_bool_decide as Hin.
      * destruct (head (filter P K)) eqn:Hh; [done|].
        rewrite filter_cons_False; [done|].
        by eapply head_filter_None.
      * by rewrite head_filter_app.
    + destruct (head (filter P K)) eqn:Hh; [done|].
      rewrite filter_cons_False; [done|].
      intros HPk%HP. congruence.
Qed.

(** The value under a key is the severity cell of the last item that
    carries the key as its code. *)
Lemma build_get (items : list row) (d : odict) (k : pyval) :
  truthy k = true →
  odict_get (foldl record_llm_item d items) k
  = match last (filter (λ item, raw_item_code item = k) items) with
    | Some item => Some (dict_get item "cc/mcc" (PStr ""))
    | None => odict_get d k
    end.
Proof.
  intros Hk. induction items as [|item items IH] using rev_ind; [done|].
  rewrite foldl_snoc, filter_app.
  unfold record_llm_item at 1. fold (raw_item_code item).
  destruct (decide (raw_item_code item = k)) as [Heq|Hne].
  - rewrite filter_cons_True, filter_nil, last_snoc by done.
    rewrite Heq, Hk, odict_get_set. by rewrite bool_decide_eq_true_2.
  - rewrite filter_cons_False, filter_nil, app_nil_r by done.
    destruct (truthy (raw_item_code item)); [|done].
    rewrite odict_get_set. by rewrite bool_decide_eq_false_2.
Qed.

Lemma build_NoDup (items : list row) (d : odict) :
  NoDup (odict_keys d) →
  NoDup (odict_keys (foldl record_llm_item d items)).
Proof.
  intros Hd. induction items as [|item items IH] using rev_ind; [done|].
  rewrite foldl_snoc. unfold record_llm_item at 1.
  destruct (truthy _); [by apply odict_set_NoDup|done].
Qed.

(** A value of the mapping is the severity cell of the last item that
    carries the key as its code. *)
Lemma mapping_value_is_cell (items : list row) (k v : pyval) :
  odict_get (build_llm_icd_mapping items) k = Some v →
  ∃ item,
    last (filter (λ item, raw_item_code item = k) items) = Some item
    ∧ v = dict_get item "cc/mcc" (PStr "").
Proof.
  intros Hget.
  assert (truthy k = true) as Htruthy.
  { apply odict_get_Some_key in Hget. unfold build_llm_icd_mapping in Hget.
    apply build_keys_elem in Hget as [Hnil|[? _]]; [|done].
    by apply elem_of_nil in Hnil. }
  unfold build_llm_icd_mapping in Hget.
  rewrite (build_get _ _ _ Htruthy) in Hget.
  destruct (last _) as [item|]; [|done].
  exists item. split; [done|]. congruence.
Qed.


(** ** One ground-truth record against the mapping *)

Lemma head_filter_PStr (c : string) (l : list string) :
  head (filter (qualifies_val c) (PStr <$> l))
  = PStr <$> head (filter (qualifies c) l).
Proof.
  induction l as [|r l IH]; [done|].
  rewrite fmap_cons, !filter_cons. cbn [qualifies_val].
  destruct (decide (qualifies c r)); [done|]. exact IH.
Qed.

Lemma typed_codes (items : list row) :
  Forall typed_comb_item items →
  raw_item_code <$> items = PStr <$> (item_code <$> items).
Proof.
  induction 1 as [|item items [_ Hc] _ IH]; [done|].
  rewrite !fmap_cons, IH. f_equal. unfold item_code, raw_item_code.
  by destruct (str_field_get item "icd-10-cm code" "" Hc) as [s ->].
Qed.

(** The scan over string keys stops at the first key that qualifies. *)
Lemma specificity_find_strings (c : string) (skeys : list string)
    (mapping : odict) :
  Forall (λ k, PStr k ∈ odict_keys mapping) skeys →
  ∃ found,
    specificity_find (PStr c) (PStr <$> skeys) mapping = Some found
    ∧ fst <$> found = PStr <$> head (filter (qualifies c) skeys)
    ∧ ∀ k v, found = Some (k, v) → odict_get mapping k = Some v.
Proof.
  induction 1 as [|r skeys Hr _ IH].
  - exists None. done.
  - rewrite fmap_cons. cbn [specificity_find].
    rewrite specificity_test_strings, filter_cons. cbn [mbind option_bind].
    destruct (decide (qualifies c r)) as [Hq|Hq].
    + rewrite (bool_decide_eq_true_2 _ Hq).
      destruct (odict_get_is_Some _ _ Hr) as [v Hv]. rewrite Hv.
      exists (Some (PStr r, v)). split_and!; [done|done|].
      by intros k v' [= <- <-].
    + rewrite (bool_decide_eq_false_2 _ Hq). exact IH.
Qed.

Lemma specificity_find_get (gt : pyval) (keys : list pyval) (mapping : odict)
    (k v : pyval) :
  specificity_find gt keys mapping = Some (Some (k, v)) →
  odict_get mapping k = Some v.
Proof.
  induction keys as [|k0 keys IH]; cbn [specificity_find]; [done|].
  destruct (specificity_test gt k0) as [[|]|]; cbn [mbind option_bind];
    [|exact IH|done].
  destruct (odict_get mapping k0) as [v0|] eqn:Hget; cbn [mbind option_bind];
    [|done].
  by intros [= <- <-].
Qed.

(** The keys of the mapping built from typed items are strings, the
    candidate is a key exactly when it is a non-empty extracted code, and
    the first key that qualifies is the first extracted code that does. *)
Lemma typed_mapping_keys (items : list row) (c : string) :
  Forall typed_comb_item items →
  ∃ skeys,
    odict_keys (build_llm_icd_mapping items) = PStr <$> skeys
    ∧ (PStr c ∈ odict_keys (build_llm_icd_mapping items)
       ↔ c ≠ "" ∧ c ∈ item_code <$> items)
    ∧ head (filter (qualifies c) skeys)
      = head (filter (qualifies c) (item_code <$> items)).
Proof.
  intros Htyped. unfold build_llm_icd_mapping.
  set (keys := odict_keys (foldl record_llm_item [] items)).
  assert (∀ k, k ∈ keys ↔ truthy k = true ∧ k ∈ PStr <$> (item_code <$> items))
    as Hkeys.
  { intros k. unfold keys. rewrite build_keys_elem, typed_codes by done.
    cbn [odict_keys fmap list_fmap]. rewrite elem_of_nil. tauto. }
  assert (keys = PStr <$> (py_str <$> keys)) as Hstr.
  { assert (Forall (λ k, ∃ s, k = PStr s) keys) as Hall.
    { apply Forall_forall. intros k [_ Hk]%Hkeys.
      apply list_elem_of_fmap in Hk as (s & -> & _). eauto. }
    clearbody keys. clear Hkeys.
    induction Hall as [|k keys [s ->] _ IH]; [done|].
    rewrite !fmap_cons. cbn [py_str]. by rewrite <- IH. }
  exists (py_str <$> keys). split_and!.
  - exact Hstr.
  - rewrite Hkeys, truthy_PStr, elem_of_PStr_fmap. done.
  - assert (PStr <$> head (filter (qualifies c) (py_str <$> keys))
            = PStr <$> head (filter (qualifies c) (item_code <$> items))) as Heq.
    { rewrite <- !head_filter_PStr, <- Hstr, <- typed_codes by done.
      unfold keys. rewrite (build_keys_head (qualifies_val c)); [done|].
      intros [|n|r]; cbn [qualifies_val]; [done|done|].
      intros [_ Hr]%qualifies_nonempty. by apply truthy_PStr. }
    destruct (head (filter (qualifies c) (py_str <$> keys))),
      (head (filter (qualifies c) (item_code <$> items)));
      simpl in Heq; congruence.
Qed.

(** One ground-truth record against the mapping of typed items. *)
Lemma compare_gt_item_typed (items : list row) (gt_item : row) :
  Forall typed_comb_item items →
  typed_gt_row gt_item →
  ∃ rows,
    compare_gt_item (build_llm_icd_mapping items) gt_item = Some rows
    ∧ row_match <$> rows
      = if bool_decide (has_severity gt_item)
        then [ (PStr (gt_code gt_item),
                reference_value
                  (best_reference (gt_code gt_item) (item_code <$> items)),
                row_label (classify (gt_code gt_item) (item_code <$> items))) ]
        else [].
Proof.
  intros Htyped [c Hc]%typed_gt_row_code.
  unfold compare_gt_item, gt_code.
  rewrite (dict_get_Some _ _ _ _ Hc), gt_cc_mcc_raw_has_severity.
  cbn [py_str].
  destruct (bool_decide (has_severity gt_item)); [|by exists []].
  destruct (typed_mapping_keys items c Htyped) as (skeys & Hkeys & Hmem & Hhead).
  set (mapping := build_llm_icd_mapping items) in *.
  destruct (classify_cases c (item_code <$> items))
    as [(Hne & Hin & -> & ->) | (Hnot & Hcase)].
  - rewrite bool_decide_eq_true_2 by (by apply Hmem).
    destruct (odict_get_is_Some mapping (PStr c)) as [v ->]; [by apply Hmem|].
    eexists. split; [done|]. done.
  - rewrite bool_decide_eq_false_2 by (by rewrite Hmem).
    destruct (specificity_find_strings c skeys mapping)
      as (found & Hfind & Hfst & _).
    { apply Forall_forall. intros k Hk. rewrite Hkeys.
      by apply elem_of_PStr_fmap. }
    rewrite Hkeys, Hfind. cbn [mbind option_bind]. rewrite Hhead in Hfst.
    destruct (head (filter (qualifies c) (item_code <$> items))) as [r|].
    + destruct Hcase as [-> ->].
      destruct found as [[k v]|]; [|done]. injection Hfst as ->.
      eexists. split; done.
    + destruct Hcase as [-> ->]. destruct found as [[k v]|]; [done|].
      eexists. split; done.
Qed.

(** A row with a counterpart reports the value the mapping holds for it. *)
Lemma compare_gt_item_lookup (mapping : odict) (gt_item : row)
    (rows : list comparison_row) (r : comparison_row) :
  compare_gt_item mapping gt_item = Some rows →
  r ∈ rows →
  llm_icd r ≠ PNone →
  odict_get mapping (llm_icd r) = Some (llm_cc_mcc r).
Proof.
  unfold compare_gt_item.
  destruct (_ && _); [|by intros [= <-] ?%elem_of_nil].
  case_bool_decide as Hin.
  - destruct (odict_get mapping _) as [v|] eqn:Hget; cbn [mbind option_bind];
      [|done].
    by intros [= <-] ->%list_elem_of_singleton _.
  - destruct (specificity_find _ _ mapping) as [[[k v]|]|] eqn:Hfind;
      cbn [mbind option_bind]; [| |done].
    + intros [= <-] ->%list_elem_of_singleton _. cbn.
      by eapply specificity_find_get.
    + by intros [= <-] ->%list_elem_of_singleton.
Qed.

(** The rows [compare_gt_item] appends carry the raw tag of a record that
    has a severity; their extracted tag is the value the mapping holds for
    the counterpart, or [None] when there is no counterpart. *)
Lemma compare_gt_item_tags (mapping : odict) (gt_item : row)
    (rows : list comparison_row) (r : comparison_row) :
  compare_gt_item mapping gt_item = Some rows →
  r ∈ rows →
  has_severity gt_item
  ∧ gt_cc_mcc r = gt_cc_mcc_raw gt_item
  ∧ (llm_cc_mcc r = PNone
     ∨ odict_get mapping (llm_icd r) = Some (llm_cc_mcc r)).
Proof.
  unfold compare_gt_item. rewrite gt_cc_mcc_raw_has_severity.
  case_bool_decide as Hsev; [|by intros [= <-] ?%elem_of_nil].
  case_bool_decide as Hin.
  - destruct (odict_get mapping _) as [v|] eqn:Hget; cbn [mbind option_bind];
      [|done].
    intros [= <-] ->%list_elem_of_singleton. cbn. split_and!; [done|done|].
    by right.
  - destruct (specificity_find _ _ mapping) as [[[k v]|]|] eqn:Hfind;
      cbn [mbind option_bind]; [| |done].
    + intros [= <-] ->%list_elem_of_singleton. cbn. split_and!; [done|done|].
      right. by eapply specificity_find_get.
    + intros [= <-] ->%list_elem_of_singleton. cbn. split_and!; [done|done|].
      by left.
Qed.

Lemma specificity_test_is_str (a b : pyval) :
  specificity_test a b = Some true → is_str a ∧ is_str b.
Proof.
  unfold specificity_test.
  destruct a as [|n|a]; [done|done|]. cbn [py_len mbind option_bind].
  case_bool_decide; [|done].
  destruct b as [|m|b]; [done|done|]. done.
Qed.

Lemma specificity_find_key (gt : pyval) (keys : list pyval) (mapping : odict)
    (k v : pyval) :
  specificity_find gt keys mapping = Some (Some (k, v)) →
  k ∈ keys ∧ specificity_test gt k = Some true.
Proof.
  induction keys as [|k' keys IH]; cbn [specificity_find]; [done|].
  destruct (specificity_test gt k') as [[|]|] eqn:Hq; cbn [mbind option_bind].
  - destruct (odict_get mapping k'); cbn [mbind option_bind]; [|done].
    intros [= <- <-]. split; [left|done].
  - intros Hfind. destruct (IH Hfind). split; [by right|done].
  - done.
Qed.

(** The row the loop body appends, read without any assumption on the
    cells. *)
Lemma compare_gt_item_row (mapping : odict) (gt_item : row)
    (rows : list comparison_row) (r : comparison_row) :
  compare_gt_item mapping gt_item = Some rows →
  r ∈ rows →
  (match_type r = "Match"
   ∧ llm_icd r = gt_icd r ∧ gt_icd r ∈ odict_keys mapping)
  ∨ (match_type r = "Specificity Issue"
     ∧ (gt_icd r ∉ odict_keys mapping) ∧ llm_icd r ∈ odict_keys mapping
     ∧ specificity_test (gt_icd r) (llm_icd r) = Some true)
  ∨ (match_type r = "Mismatch"
     ∧ (gt_icd r ∉ odict_keys mapping)
     ∧ llm_icd r = PNone ∧ llm_cc_mcc r = PNone).
Proof.
  unfold compare_gt_item. rewrite gt_cc_mcc_raw_has_severity.
  case_bool_decide as Hsev; [|by intros [= <-] ?%elem_of_nil].
  case_bool_decide as Hin.
  - destruct (odict_get mapping _) as [v|]; cbn [mbind option_bind]; [|done].
    intros [= <-] ->%list_elem_of_singleton. by left.
  - destruct (specificity_find _ _ mapping) as [[[k v]|]|] eqn:Hfind;
      cbn [mbind option_bind]; [| |done].
    + apply specificity_find_key in Hfind as [Hk Htest].
      intros [= <-] ->%list_elem_of_singleton. right. by left.
    + intros [= <-] ->%list_elem_of_singleton. right. by right.
Qed.

(** ** The severity comparator *)

Section comparator.
Context (account_num : string) (parsed_data : parsed_results) (csv : csv_data).

Lemma llm_sdx_diagnoses_typed :
  Forall typed_comb_item (combination_of parsed_data account_num) →
  llm_sdx_diagnoses_of parsed_data account_num
  = Some (extracted_sdx parsed_data account_num).
Proof.
  unfold llm_sdx_diagnoses_of, extracted_sdx, combination_of.
  destruct (parsed_data !! account_num) as [acct|]; simpl; [|done].
  intros Hall. apply filter_by_upper_typed.
  eapply Forall_impl; [exact Hall|]. by intros d [? _].
Qed.

Lemma llm_sdx_diagnoses_Some (l : list row) :
  llm_sdx_diagnoses_of parsed_data account_num = Some l →
  l = extracted_sdx parsed_data account_num.
Proof.
  unfold llm_sdx_diagnoses_of, extracted_sdx, combination_of.
  destruct (parsed_data !! account_num) as [acct|]; simpl.
  - apply filter_by_upper_Some.
  - by intros [= <-].
Qed.

Lemma extracted_sdx_typed :
  Forall typed_comb_item (combination_of parsed_data account_num) →
  Forall typed_comb_item (extracted_sdx parsed_data account_num).
Proof.
  intros Hall. unfold extracted_sdx, records_of_role.
  apply Forall_forall. intros item [_ Hin]%list_elem_of_filter.
  by eapply Forall_forall in Hall.
Qed.

(** The rows of the comparator on records of the data model. *)
Lemma comparison_rows_typed :
  Forall typed_gt_row (ground_truth_of (csv_sdx csv) account_num) →
  Forall typed_comb_item (combination_of parsed_data account_num) →
  let refs := extracted_sdx_codes parsed_data account_num in
  row_match <$> create_cc_mcc_comparison_data account_num parsed_data csv
  = (λ gt_item,
       (PStr (gt_code gt_item),
        reference_value (best_reference (gt_code gt_item) refs),
        row_label (classify (gt_code gt_item) refs)))
    <$> filter has_severity (ground_truth_of (csv_sdx csv) account_num).
Proof.
  intros Hgt Hcomb refs.
  unfold create_cc_mcc_comparison_data, create_cc_mcc_comparison_data_body.
  rewrite llm_sdx_diagnoses_typed by done. cbn [mbind option_bind].
  pose proof (extracted_sdx_typed Hcomb) as Hext.
  destruct (mapM_concat_fmap
              (compare_gt_item
                 (build_llm_icd_mapping (extracted_sdx parsed_data account_num)))
              row_match
              (λ gt_item,
                 if bool_decide (has_severity gt_item)
                 then [ (PStr (gt_code gt_item),
                         reference_value (best_reference (gt_code gt_item) refs),
                         row_label (classify (gt_code gt_item) refs)) ]
                 else [])
              (ground_truth_of (csv_sdx csv) account_num))
    as (rs & -> & Hproj).
  { eapply Forall_impl; [exact Hgt|]. intros gt_item Hitem.
    by apply compare_gt_item_typed. }
  change (default [] _) with (concat rs). rewrite Hproj.
  apply (concat_fmap_if has_severity).
Qed.

(** Each row of the comparator comes from a ground-truth record. *)
Lemma comparison_row_typed (r : comparison_row) :
  Forall typed_gt_row (ground_truth_of (csv_sdx csv) account_num) →
  Forall typed_comb_item (combination_of parsed_data account_num) →
  r ∈ create_cc_mcc_comparison_data account_num parsed_data csv →
  let refs := extracted_sdx_codes parsed_data account_num in
  ∃ c, gt_icd r = PStr c
       ∧ llm_icd r = reference_value (best_reference c refs)
       ∧ match_type r = row_label (classify c refs).
Proof.
  intros Hgt Hcomb Hr refs.
  assert (row_match r
          ∈ row_match <$> create_cc_mcc_comparison_data account_num parsed_data csv)
    as Hin by (apply list_elem_of_fmap; eauto).
  rewrite (comparison_rows_typed Hgt Hcomb) in Hin.
  apply list_elem_of_fmap in Hin as (gt_item & Heq & _).
  unfold row_match in Heq. injection Heq as Hg Hl Hm.
  by exists (gt_code gt_item).
Qed.

(** Each row comes from a ground-truth record, compared with the mapping
    built from the extracted SDX records. *)
Lemma comparison_row_origin (r : comparison_row) :
  r ∈ create_cc_mcc_comparison_data account_num parsed_data csv →
  ∃ gt_item rows,
    gt_item ∈ ground_truth_of (csv_sdx csv) account_num
    ∧ compare_gt_item
        (build_llm_icd_mapping (extracted_sdx parsed_data account_num))
        gt_item = Some rows
    ∧ r ∈ rows.
Proof.
  intros Hr.
  unfold create_cc_mcc_comparison_data, create_cc_mcc_comparison_data_body in Hr.
  destruct (llm_sdx_diagnoses_of parsed_data account_num) as [l|] eqn:Hl;
    cbn [mbind option_bind] in Hr; [|by apply elem_of_nil in Hr].
  apply llm_sdx_diagnoses_Some in Hl as ->.
  destruct (mapM _ _) as [rs|] eqn:HmapM; cbn [mbind option_bind] in Hr;
    [|by apply elem_of_nil in Hr].
  change (r ∈ concat rs) in Hr.
  apply elem_of_concat in Hr as (rows & Hrows & Hin).
  destruct (mapM_Some_elem _ _ _ _ HmapM Hrows) as (gt_item & Hgt & Hitem).
  by exists gt_item, rows.
Qed.

(** The two counting loops count normalized tags. *)
Lemma severity_counts_tally (st : cc_mcc_counts) :
  calculate_cc_mcc_statistics_body account_num parsed_data csv = Some st →
  let gt := ground_truth_of (csv_sdx csv) account_num in
  let ext := extracted_sdx parsed_data account_num in
  let gt_tag item := normalize_severity (gt_severity_cell item) in
  let llm_tag (item : row) := normalize_severity (item !! "cc/mcc") in
  gt_cc st = length (filter (λ item, gt_tag item = CC) gt)
  ∧ gt_mcc st = length (filter (λ item, gt_tag item = MCC) gt)
  ∧ llm_cc st = length (filter (λ item, llm_tag item = CC) ext)
  ∧ llm_mcc st = length (filter (λ item, llm_tag item = MCC) ext).
Proof.
  unfold calculate_cc_mcc_statistics_body.
  destruct (llm_sdx_diagnoses_of _ _) as [l|] eqn:Hl;
    cbn [mbind option_bind]; [|done].
  apply llm_sdx_diagnoses_Some in Hl as ->.
  destruct (mapM _ _) as [tags|] eqn:Htags; cbn [mbind option_bind]; [|done].
  intros [= <-]. cbn zeta. rewrite !tally_counts.
  cbn [gt_cc gt_mcc llm_cc llm_mcc fst snd].
  apply mapM_Some_1 in Htags.
  split_and!.
  - symmetry. apply count_Forall2, Forall2_fmap_r, Forall_Forall2_diag.
    apply Forall_forall. intros item _. cbn.
    symmetry. apply gt_cc_mcc_upper_normalize.
  - symmetry. apply count_Forall2, Forall2_fmap_r, Forall_Forall2_diag.
    apply Forall_forall. intros item _. cbn.
    symmetry. apply gt_cc_mcc_upper_normalize.
  - symmetry. apply count_Forall2, Forall2_fmap_r.
    eapply Forall2_impl; [exact Htags|]. intros item t Ht. cbn.
    symmetry. by apply llm_cc_mcc_upper_normalize.
  - symmetry. apply count_Forall2, Forall2_fmap_r.
    eapply Forall2_impl; [exact Htags|]. intros item t Ht. cbn.
    symmetry. by apply llm_cc_mcc_upper_normalize.
Qed.

(** C3.  On records of the data model, the comparator emits one row for each
    ground-truth SDX record whose normalized severity is CC or MCC and none
    for the others, in the order of the ground truth; the ground-truth code,
    the counterpart and the match label of a row are the candidate, the
    reference and the classification of the matcher run on the ground-truth
    code against the extracted SDX codes; a row labelled "Match" has its
    counterpart equal to its ground-truth code. *)
Theorem comparison_rows_follow_matcher :
  Forall typed_gt_row (ground_truth_of (csv_sdx csv) account_num) →
  Forall typed_comb_item (combination_of parsed_data account_num) →
  let refs := extracted_sdx_codes parsed_data account_num in
  let rows := create_cc_mcc_comparison_data account_num parsed_data csv in
  row_match <$> rows
  = (λ gt_item,
       (PStr (gt_code gt_item),
        reference_value (best_reference (gt_code gt_item) refs),
        row_label (classify (gt_code gt_item) refs)))
    <$> filter has_severity (ground_truth_of (csv_sdx csv) account_num)
  ∧ ∀ r, r ∈ rows → match_type r = "Match" → llm_icd r = gt_icd r.
Proof.
  intros Hgt Hcomb refs rows.
  split; [by apply comparison_rows_typed|].
  intros r Hr Hmatch.
  destruct (comparison_row_typed _ Hgt Hcomb Hr) as (c & -> & -> & Hm).
  rewrite Hmatch in Hm. unfold best_reference.
  by destruct (classify c (extracted_sdx_codes parsed_data account_num)).
Qed.

(** C10.  The comparator keeps one mapping entry per extracted SDX code (the
    keys of the mapping are pairwise distinct), and every comparison row
    that has a counterpart reports the severity cell of the last extracted
    SDX record carrying the counterpart's code: of several records with the
    same code, the last one decides. *)
Theorem duplicate_codes_last_severity_wins (r : comparison_row) :
  r ∈ create_cc_mcc_comparison_data account_num parsed_data csv →
  llm_icd r ≠ PNone →
  NoDup (odict_keys
           (build_llm_icd_mapping (extracted_sdx parsed_data account_num)))
  ∧ ∃ item,
      last (filter (λ item, raw_item_code item = llm_icd r)
              (extracted_sdx parsed_data account_num)) = Some item
      ∧ llm_cc_mcc r = dict_get item "cc/mcc" (PStr "").
Proof.
  intros Hr Hicd. split.
  { apply build_NoDup. cbn. apply NoDup_nil_2. }
  destruct (comparison_row_origin r Hr) as (gt_item & rows & _ & Hitem & Hin).
  apply mapping_value_is_cell. by eapply compare_gt_item_lookup.
Qed.

(** C8, as the code has it.  The severity counts tally normalized tags: a
    ground-truth record counts as CC (as MCC) exactly when the upper-cased
    cell of its [cc_mcc] column, or of its [ccmcc] column when the first is
    absent, is "CC" ("MCC"), an extracted SDX record exactly when the
    upper-cased [cc/mcc] cell is; every other cell, blank and absent ones
    included, counts as neither (and when the counting raises, all four
    counts are zero).  The comparison rows are not normalized: the
    ground-truth tag of a row is the source cell of a ground-truth record
    with a severity, in its source casing (so its upper-cased form is "CC"
    or "MCC"); the extracted tag is [None] when the row has no counterpart,
    and otherwise the [cc/mcc] cell, as it is in the source, of the
    counterpart: the last extracted SDX record with the counterpart code
    (the empty string when that record has no such cell). *)
Theorem severity_counts_normalized_rows_raw :
  let gt := ground_truth_of (csv_sdx csv) account_num in
  let ext := extracted_sdx parsed_data account_num in
  let gt_tag item := normalize_severity (gt_severity_cell item) in
  let llm_tag (item : row) := normalize_severity (item !! "cc/mcc") in
  let body := calculate_cc_mcc_statistics_body account_num parsed_data csv in
  let st := calculate_cc_mcc_statistics account_num parsed_data csv in
  (is_Some body →
   gt_cc st = length (filter (λ item, gt_tag item = CC) gt)
   ∧ gt_mcc st = length (filter (λ item, gt_tag item = MCC) gt)
   ∧ llm_cc st = length (filter (λ item, llm_tag item = CC) ext)
   ∧ llm_mcc st = length (filter (λ item, llm_tag item = MCC) ext))
  ∧ (body = None → st = zero_cc_mcc_stats)
  ∧ ∀ r, r ∈ create_cc_mcc_comparison_data account_num parsed_data csv →
      (∃ gt_item, gt_item ∈ gt ∧ gt_tag gt_item ≠ NONE
                  ∧ gt_icd r = dict_get gt_item "icd_code" (PStr "")
                  ∧ gt_severity_cell gt_item = Some (PStr (gt_cc_mcc r)))
      ∧ (upper (gt_cc_mcc r) = "CC" ∨ upper (gt_cc_mcc r) = "MCC")
      ∧ (llm_icd r = PNone → llm_cc_mcc r = PNone)
      ∧ (llm_icd r ≠ PNone →
         ∃ item,
           last (filter (λ item, raw_item_code item = llm_icd r) ext)
           = Some item
           ∧ llm_cc_mcc r = dict_get item "cc/mcc" (PStr "")).
Proof.
  intros gt ext gt_tag llm_tag body st. split_and!.
  - intros [st' Hst]. unfold st, calculate_cc_mcc_statistics.
    fold body. rewrite Hst.
    change (default zero_cc_mcc_stats (Some st')) with st'.
    exact (severity_counts_tally _ Hst).
  - intros Hnone. unfold st, calculate_cc_mcc_statistics. fold body.
    by rewrite Hnone.
  - intros r Hr.
    destruct (comparison_row_origin r Hr)
      as (gt_item & rows & Hgt & Hitem & Hin).
    destruct (compare_gt_item_tags _ _ _ _ Hitem Hin) as (Hsev & Hraw & _).
    split_and!.
    + exists gt_item. split_and!; [done|done| |].
      * revert Hitem Hin. unfold compare_gt_item.
        destruct (_ && _); [|by intros [= <-] ?%elem_of_nil].
        case_bool_decide.
        -- destruct (odict_get _ _); cbn [mbind option_bind]; [|done].
           by intros [= <-] ->%list_elem_of_singleton.
        -- destruct (specificity_find _ _ _) as [[[k v]|]|];
             cbn [mbind option_bind]; [| |done];
             by intros [= <-] ->%list_elem_of_singleton.
      * destruct (normalize_severity_tagged _ Hsev) as (s & Hcell & _ & _).
        rewrite Hcell, Hraw. f_equal. f_equal.
        revert Hcell. unfold gt_severity_cell, gt_cc_mcc_raw.
        destruct (gt_item !! "cc_mcc") as [v|].
        -- intros [= ->]. by destruct (truthy (PStr s)) eqn:Ht;
             [|apply negb_false_iff, bool_decide_eq_true_1 in Ht].
        -- intros ->. by destruct (truthy (PStr s)) eqn:Ht;
             [|apply negb_false_iff, bool_decide_eq_true_1 in Ht].
    + rewrite Hraw. by apply gt_cc_mcc_raw_upper.
    + intros Hnone.
      destruct (compare_gt_item_row _ _ _ _ Hitem Hin)
        as [(_ & Hllm & Hkey)|[(_ & _ & Hkey & _)|(_ & _ & _ & Hcc)]];
        [| |done].
      * exfalso. rewrite <- Hllm, Hnone in Hkey.
        unfold build_llm_icd_mapping in Hkey.
        apply build_keys_elem in Hkey as [Hnil|[Htruthy _]]; [|done].
        by apply elem_of_nil in Hnil.
      * exfalso. rewrite Hnone in Hkey.
        unfold build_llm_icd_mapping in Hkey.
        apply build_keys_elem in Hkey as [Hnil|[Htruthy _]]; [|done].
        by apply elem_of_nil in Hnil.
    + intros Hcounterpart.
      apply mapping_value_is_cell. by eapply compare_gt_item_lookup.
Qed.

End comparator.

Lemma comparison_rows_follow_matcher_witness :
  Forall typed_gt_row (ground_truth_of (csv_sdx sample_csv) "1001")
  ∧ Forall typed_comb_item (combination_of sample_parsed "1001")
  ∧ row_match <$> create_cc_mcc_comparison_data "1001" sample_parsed sample_csv
    = [ (PStr "E1122", PStr "E1121", "Specificity Issue");
        (PStr "N179", PStr "N179", "Match") ].
Proof.
  assert (Forall typed_gt_row (ground_truth_of (csv_sdx sample_csv) "1001"))
    as Hgt by compute_done.
  assert (Forall typed_comb_item (combination_of sample_parsed "1001"))
    as Hcomb by compute_done.
  split_and!; [exact Hgt|exact Hcomb|].
  rewrite (proj1 (comparison_rows_follow_matcher "1001" sample_parsed
                    sample_csv Hgt Hcomb)).
  vm_compute. reflexivity.
Defined.

Lemma duplicate_codes_last_severity_wins_witness :
  sample_row ∈ create_cc_mcc_comparison_data "1001" sample_parsed sample_csv
  ∧ llm_icd sample_row ≠ PNone
  ∧ ∃ item,
      last (filter (λ item, raw_item_code item = llm_icd sample_row)
              (extracted_sdx sample_parsed "1001")) = Some item
      ∧ llm_cc_mcc sample_row = dict_get item "cc/mcc" (PStr "").
Proof.
  assert (sample_row
          ∈ create_cc_mcc_comparison_data "1001" sample_parsed sample_csv)
    as Hrow by compute_done.
  assert (llm_icd sample_row ≠ PNone) as Hicd by done.
  split_and!; [exact Hrow|exact Hicd|].
  exact (proj2 (duplicate_codes_last_severity_wins "1001" sample_parsed
                  sample_csv sample_row Hrow Hicd)).
Defined.

Lemma severity_counts_normalized_rows_raw_witness :
  is_Some (calculate_cc_mcc_statistics_body "1001" sample_parsed sample_csv)
  ∧ sample_row ∈ create_cc_mcc_comparison_data "1001" sample_parsed sample_csv
  ∧ llm_icd sample_row ≠ PNone
  ∧ calculate_cc_mcc_statistics "1001" sample_parsed sample_csv = sample_counts
  ∧ gt_cc sample_counts
    = length (filter (λ item, normalize_severity (gt_severity_cell item) = CC)
                (ground_truth_of (csv_sdx sample_csv) "1001"))
  ∧ (upper (gt_cc_mcc sample_row) = "CC" ∨ upper (gt_cc_mcc sample_row) = "MCC")
  ∧ ∃ item,
      last (filter (λ item, raw_item_code item = llm_icd sample_row)
              (extracted_sdx sample_parsed "1001")) = Some item
      ∧ llm_cc_mcc sample_row = dict_get item "cc/mcc" (PStr "").
Proof.
  assert (is_Some (calculate_cc_mcc_statistics_body "1001" sample_parsed
                     sample_csv)) as Hst by compute_done.
  assert (sample_row
          ∈ create_cc_mcc_comparison_data "1001" sample_parsed sample_csv)
    as Hrow by compute_done.
  assert (llm_icd sample_row ≠ PNone) as Hicd by done.
  assert (calculate_cc_mcc_statistics "1001" sample_parsed sample_csv
          = sample_counts) as Hcounts by compute_done.
  destruct (severity_counts_normalized_rows_raw "1001" sample_parsed
              sample_csv) as (Htally & _ & Hrows).
  destruct (Htally Hst) as (Hgc & _).
  destruct (Hrows sample_row Hrow) as (_ & Hupper & _ & Hcell).
  split_and!; [exact Hst|exact Hrow|exact Hicd|exact Hcounts| |exact Hupper
              |exact (Hcell Hicd)].
  rewrite <- Hcounts. exact Hgc.
Defined.

(** C8 as stated fails on the comparison rows: for account 1001 the first
    row carries the ground-truth tag "mcc", in the casing of the source, and
    the extracted tag "yes", the raw cell; neither is the name of a
    normalized tag, nor blank. *)
Lemma severity_row_tags_not_normalized :
  sample_row ∈ create_cc_mcc_comparison_data "1001" sample_parsed sample_csv
  ∧ gt_cc_mcc sample_row = "mcc"
  ∧ llm_cc_mcc sample_row = PStr "yes"
  ∧ (∀ t, gt_cc_mcc sample_row ≠ tag_name t)
  ∧ (∀ t, llm_cc_mcc sample_row ≠ PStr (tag_name t))
  ∧ gt_cc_mcc sample_row ≠ ""
  ∧ llm_cc_mcc sample_row ≠ PStr "" ∧ llm_cc_mcc sample_row ≠ PNone.
Proof.
  split_and!; try done; try (by intros []).
  compute_done.
Qed.


(** ** C5: which reference is reported *)

Lemma check_sdx_match_filter_specificity (icd_code account_num : pyval)
    (csv : account_csv) :
  status (check_sdx_match_filter icd_code account_num csv)
  = "Specificity Issue" →
  gt_codes (check_sdx_match_filter icd_code account_num csv)
  = filter (qualifies (py_str icd_code)) (filter_ground_truth_codes csv).
Proof.
  assert (∀ (c : string) (l : list string),
    filter (λ gt_code, specificity_test_str c gt_code = true) l
    = filter (qualifies c) l) as Hfilter.
  { intros c l. apply list_filter_iff. intros r.
    by rewrite specificity_test_str_qualifies, bool_decide_eq_true. }
  unfold check_sdx_match_filter.
  destruct icd_code as [|n|s]; [done| |];
    (destruct (_ || _); [done|]; case_bool_decide; [done|];
     rewrite Hfilter; by destruct (filter _ _)).
Qed.

(** C5, as the code has it.  The severity comparator reports one reference
    for a row labelled "Specificity Issue": the first extracted SDX code, in
    the order of the extraction, that qualifies for the ground-truth code.
    The template filter [check_sdx_match_filter] reports every reference
    that qualifies, in the order of the ground truth. *)
Theorem specificity_references_reported
    (account_num : string) (parsed_data : parsed_results) (csv : csv_data)
    (icd_code filter_account : pyval) (filter_csv : account_csv) :
  (Forall typed_gt_row (ground_truth_of (csv_sdx csv) account_num) →
   Forall typed_comb_item (combination_of parsed_data account_num) →
   ∀ r, r ∈ create_cc_mcc_comparison_data account_num parsed_data csv →
        match_type r = "Specificity Issue" →
        llm_icd r
        = reference_value
            (head (filter (qualifies (py_str (gt_icd r)))
                     (extracted_sdx_codes parsed_data account_num))))
  ∧ (status (check_sdx_match_filter icd_code filter_account filter_csv)
     = "Specificity Issue" →
     gt_codes (check_sdx_match_filter icd_code filter_account filter_csv)
     = filter (qualifies (py_str icd_code))
         (filter_ground_truth_codes filter_csv)).
Proof.
  split.
  - intros Hgt Hcomb r Hr Hspec.
    destruct (comparison_row_typed _ _ _ _ Hgt Hcomb Hr) as (c & -> & -> & Hm).
    rewrite Hspec in Hm. unfold best_reference. cbn [py_str].
    by destruct (classify c (extracted_sdx_codes parsed_data account_num)).
  - apply check_sdx_match_filter_specificity.
Qed.

Lemma specificity_references_reported_witness :
  (sample_row ∈ create_cc_mcc_comparison_data "1001" sample_parsed sample_csv
   ∧ llm_icd sample_row
     = reference_value
         (head (filter (qualifies (py_str (gt_icd sample_row)))
                  (extracted_sdx_codes sample_parsed "1001"))))
  ∧ (status (check_sdx_match_filter (PStr "E1121") (PStr "1001")
               two_candidates_csv) = "Specificity Issue"
     ∧ gt_codes (check_sdx_match_filter (PStr "E1121") (PStr "1001")
                   two_candidates_csv)
       = filter (qualifies "E1121")
           (filter_ground_truth_codes two_candidates_csv)).
Proof.
  assert (Forall typed_gt_row (ground_truth_of (csv_sdx sample_csv) "1001"))
    as Hgt by compute_done.
  assert (Forall typed_comb_item (combination_of sample_parsed "1001"))
    as Hcomb by compute_done.
  assert (sample_row
          ∈ create_cc_mcc_comparison_data "1001" sample_parsed sample_csv)
    as Hrow by compute_done.
  assert (status (check_sdx_match_filter (PStr "E1121") (PStr "1001")
                    two_candidates_csv) = "Specificity Issue")
    as Hstatus by compute_done.
  destruct (specificity_references_reported "1001" sample_parsed sample_csv
              (PStr "E1121") (PStr "1001") two_candidates_csv)
    as [Hcomparator Hfilter].
  split; split.
  - exact Hrow.
  - exact (Hcomparator Hgt Hcomb sample_row Hrow eq_refl).
  - exact Hstatus.
  - exact (Hfilter Hstatus).
Defined.

(** C5 as stated fails for the template filter: two ground-truth codes
    qualify for "E1121", and the filter reports both of them, not only the
    first. *)
Lemma filter_reports_every_qualifying_reference :
  qualifies "E1121" "E1122" ∧ qualifies "E1121" "E1129"
  ∧ status (check_sdx_match_filter (PStr "E1121") (PStr "1001")
              two_candidates_csv) = "Specificity Issue"
  ∧ gt_codes (check_sdx_match_filter (PStr "E1121") (PStr "1001")
                two_candidates_csv) = ["E1122"; "E1129"]
  ∧ gt_codes (check_sdx_match_filter (PStr "E1121") (PStr "1001")
                two_candidates_csv) ≠ ["E1122"].
Proof.
  assert (gt_codes (check_sdx_match_filter (PStr "E1121") (PStr "1001")
                      two_candidates_csv) = ["E1122"; "E1129"]) as Hcodes
    by compute_done.
  split_and!; [compute_done|compute_done|compute_done|exact Hcodes|].
  rewrite Hcodes. intros [=].
Qed.

(** ** Accuracy *)

Lemma round_half_even_nonneg (num den : Z) :
  (0 ≤ num)%Z → (0 < den)%Z → (0 ≤ round_half_even num den)%Z.
Proof.
  intros Hnum Hden. unfold round_half_even.
  assert (0 ≤ num / den)%Z by (by apply Z.div_pos).
  repeat case_match; lia.
Qed.

Lemma round_half_even_le (num den k : Z) :
  (0 < den)%Z → (num ≤ k * den)%Z → (round_half_even num den ≤ k)%Z.
Proof.
  intros Hden Hnum. unfold round_half_even.
  pose proof (Z.div_mod num den ltac:(lia)) as Hdm.
  pose proof (Z.mod_pos_bound num den Hden) as Hr.
  destruct (Z.ltb_spec (2 * (num mod den)) den) as [Hlt|Hge].
  - nia.
  - assert (num / den < k)%Z by nia.
    repeat case_match; lia.
Qed.

Lemma accuracy_of_zero_total (matched : nat) : accuracy_of matched 0 = 0%Z.
Proof. done. Qed.

Lemma accuracy_of_nonneg (matched total : nat) :
  (0 ≤ accuracy_of matched total)%Z.
Proof.
  unfold accuracy_of. case_bool_decide; [|done].
  apply round_half_even_nonneg; lia.
Qed.

Lemma accuracy_of_le (matched total : nat) :
  matched ≤ total → (accuracy_of matched total ≤ 1000)%Z.
Proof.
  intros Hle. unfold accuracy_of. case_bool_decide; [|done].
  apply round_half_even_le; lia.
Qed.


(** ** The aggregator *)

Lemma mapM_icd_code (rows : list row) (codes : list pyval) :
  mapM (λ item : row, item !! "icd_code") rows = Some codes →
  codes = (λ item, dict_get item "icd_code" (PStr "")) <$> rows.
Proof.
  intros HmapM%mapM_Some_1.
  induction HmapM as [|item v rows codes Hv _ IH]; [done|].
  rewrite fmap_cons, <- IH. f_equal. unfold dict_get. by rewrite Hv.
Qed.

Section aggregator.
Context (account_num : string) (parsed_data : parsed_results) (csv : csv_data)
  (comparison_data : comparison).

(** The statistics the [try] block returns, when it returns. *)
Lemma statistics_body_Some (st : account_statistics) :
  calculate_account_statistics_body account_num parsed_data csv comparison_data
  = Some st →
  let coded := coded_diagnoses_of parsed_data account_num in
  let pdx_llm_raw :=
    first_code "ICD-10-CM Code" (records_of_role "Type" "PDX" coded) in
  let pdx_coded_raw :=
    first_code "icd_code" (ground_truth_of (csv_pdx csv) account_num) in
  total_sdx st = length (ground_truth_of (csv_sdx csv) account_num)
  ∧ llm_matched_sdx st
    = size (extracted_sdx_code_set parsed_data account_num
            ∩ ground_truth_sdx_code_set csv account_num)
  ∧ matched_icds st = length (default [] (comparison_data !! account_num))
  ∧ accuracy st = accuracy_of (matched_icds st) (length coded)
  ∧ pdx_llm st = py_str pdx_llm_raw
  ∧ pdx_coded st = py_str pdx_coded_raw
  ∧ pdx_matched st
    = bool_decide (pdx_coded_raw = pdx_llm_raw)
      && negb (bool_decide (pdx_coded_raw = PStr "N/A"))
  ∧ cc_mcc_stats st = calculate_cc_mcc_statistics account_num parsed_data csv.
Proof.
  unfold calculate_account_statistics_body.
  destruct (mapM _ _) as [codes|] eqn:Hcodes; cbn [mbind option_bind]; [|done].
  apply mapM_icd_code in Hcodes as ->.
  destruct (filter_by_upper "Type" "SDX" _) as [sdx|] eqn:Hsdx;
    cbn [mbind option_bind]; [|done].
  apply filter_by_upper_Some in Hsdx as ->.
  destruct (filter_by_upper "Type" "PDX" _) as [pdx|] eqn:Hpdx;
    cbn [mbind option_bind]; [|done].
  apply filter_by_upper_Some in Hpdx as ->.
  intros [= <-]. cbn. done.
Qed.

(** The [try] block returns exactly when every ground-truth SDX row has an
    [icd_code] and the [Type] of every diagnosis is absent or a string; the
    combination table, which only the severity counts read, plays no part. *)
Lemma statistics_body_is_Some :
  is_Some (calculate_account_statistics_body account_num parsed_data csv
             comparison_data)
  ↔ Forall (λ item : row, is_Some (item !! "icd_code"))
      (ground_truth_of (csv_sdx csv) account_num)
    ∧ Forall (λ d, str_field d "Type")
        (coded_diagnoses_of parsed_data account_num).
Proof.
  unfold calculate_account_statistics_body. split.
  - intros [st Hst]. revert Hst.
    destruct (mapM _ _) as [codes|] eqn:Hcodes; cbn [mbind option_bind];
      [|done].
    destruct (filter_by_upper "Type" "SDX" _) as [sdx|] eqn:Hsdx;
      cbn [mbind option_bind]; [|done].
    intros _. split.
    + apply mapM_Some_1 in Hcodes.
      eapply Forall2_Forall_l; [exact Hcodes|].
      apply Forall_forall. intros v _ item Hv. by rewrite Hv.
    + clear -Hsdx. revert sdx Hsdx.
      induction (coded_diagnoses_of parsed_data account_num) as [|d l IH];
        intros sdx; cbn [filter_by_upper]; [done|].
      unfold dict_get.
      destruct (py_upper _) as [u|] eqn:Hu; cbn [mbind option_bind]; [|done].
      destruct (filter_by_upper "Type" "SDX" l) as [kept|]; [|done].
      intros _. constructor; [|by eapply IH].
      unfold str_field. by destruct (d !! "Type") as [[|n|s]|].
  - intros [Hgt Htype].
    destruct (mapM _ _) as [codes|] eqn:Hcodes; cbn [mbind option_bind].
    + rewrite !filter_by_upper_typed by done. cbn [mbind option_bind]. eauto.
    + apply mapM_None_1, Exists_exists in Hcodes as (item & Hin & Hnone).
      eapply Forall_forall in Hgt; [|exact Hin].
      rewrite Hnone in Hgt. by destruct Hgt.
Qed.


(** The accuracy is never negative, and it is zero for an account without
    extracted records. *)
Lemma accuracy_zero_without_records :
  let st :=
    calculate_account_statistics account_num parsed_data csv comparison_data in
  (0 ≤ accuracy st)%Z
  ∧ (coded_diagnoses_of parsed_data account_num = [] → accuracy st = 0%Z).
Proof.
  intros st. unfold st, calculate_account_statistics.
  destruct (calculate_account_statistics_body _ _ _ _) as [st'|] eqn:Hbody;
    [|done].
  destruct (statistics_body_Some _ Hbody) as (_ & _ & _ & Hacc & _).
  change (default sentinel_statistics (Some st')) with st'.
  rewrite Hacc. split; [apply accuracy_of_nonneg|]. by intros ->.
Qed.



(** C9, as the code has it.  When the [try] block of
    [calculate_account_statistics] raises, the result is the sentinel; the
    block raises exactly when a ground-truth SDX row lacks its code or the
    type of a diagnosis is not a string.  When the nested severity
    computation raises, its own handler makes the four severity counts zero
    and the block goes on.  In every case the function returns a statistics
    object: the sentinel or the object the block computed. *)
Theorem statistics_failure_policy :
  let body :=
    calculate_account_statistics_body account_num parsed_data csv
      comparison_data in
  let st :=
    calculate_account_statistics account_num parsed_data csv comparison_data in
  (body = None → st = sentinel_statistics)
  ∧ (body = None
     ↔ ¬ (Forall (λ item : row, is_Some (item !! "icd_code"))
            (ground_truth_of (csv_sdx csv) account_num)
          ∧ Forall (λ d, str_field d "Type")
              (coded_diagnoses_of parsed_data account_num)))
  ∧ (calculate_cc_mcc_statistics_body account_num parsed_data csv = None →
     cc_mcc_stats st = zero_cc_mcc_stats)
  ∧ (st = sentinel_statistics ∨ body = Some st).
Proof.
  intros body st.
  pose proof statistics_body_is_Some as Hiff.
  fold body in Hiff. unfold st, calculate_account_statistics. fold body.
  split_and!.
  - by intros ->.
  - rewrite <- Hiff, <- eq_None_not_Some. done.
  - intros Hcc. destruct body as [st'|] eqn:Hbody; [|done].
    destruct (statistics_body_Some _ Hbody)
      as (_ & _ & _ & _ & _ & _ & _ & Hstats).
    change (cc_mcc_stats st' = zero_cc_mcc_stats). rewrite Hstats.
    unfold calculate_cc_mcc_statistics. by rewrite Hcc.
  - destruct body; [by right|by left].
Qed.

End aggregator.




Lemma statistics_failure_policy_witness :
  calculate_cc_mcc_statistics_body "2002" broken_comb_parsed broken_comb_csv
  = None
  ∧ cc_mcc_stats (calculate_account_statistics "2002" broken_comb_parsed
              broken_comb_csv ∅) = zero_cc_mcc_stats.
Proof.
  assert (calculate_cc_mcc_statistics_body "2002" broken_comb_parsed
            broken_comb_csv = None) as Hcc by compute_done.
  split; [exact Hcc|].
  exact (proj1 (proj2 (proj2 (statistics_failure_policy "2002"
                                broken_comb_parsed broken_comb_csv ∅))) Hcc).
Defined.

(** C9 as stated fails: for account 2002 the severity computation raises
    (the type of a combination row is a number), so an error is raised
    during the account's statistics computation; it is caught inside
    [calculate_cc_mcc_statistics], and the account's result is not the
    sentinel: it counts one ground-truth SDX code and one matched code. *)
Lemma nested_failure_is_not_sentinel :
  calculate_cc_mcc_statistics_body "2002" broken_comb_parsed broken_comb_csv
  = None
  ∧ calculate_account_statistics "2002" broken_comb_parsed broken_comb_csv ∅
    = broken_comb_statistics
  ∧ calculate_account_statistics "2002" broken_comb_parsed broken_comb_csv ∅
    ≠ sentinel_statistics.
Proof.
  assert (calculate_account_statistics "2002" broken_comb_parsed
            broken_comb_csv ∅ = broken_comb_statistics) as Hst
    by compute_done.
  split_and!; [compute_done|exact Hst|].
  rewrite Hst. intros [=].
Qed.


(** ** The merged comparison data *)

Lemma merge_diagnosis_length (codes : gset pyval) (d : row)
    (entries : list row) :
  merge_diagnosis codes d = Some entries →
  length entries = if truthy (diagnosis_code d) then 1 else 0.
Proof.
  unfold merge_diagnosis. fold (diagnosis_code d).
  destruct (py_upper _); cbn [mbind option_bind]; [|done].
  destruct (truthy (diagnosis_code d)); by intros [= <-].
Qed.

(** When the merge of an account returns, it has one entry for each
    diagnosis with a truthy code, matching or not. *)
Lemma merge_account_length (parsed_data : parsed_results)
    (account_num : string) (items entries : list row) :
  merge_account parsed_data account_num items = Some entries →
  length entries
  = length (filter (λ d, truthy (diagnosis_code d) = true)
              (coded_diagnoses_of parsed_data account_num)).
Proof.
  unfold merge_account.
  destruct (mapM _ _) as [ls|] eqn:HmapM; cbn [mbind option_bind]; [|done].
  intros [= <-]. apply mapM_Some_1 in HmapM.
  induction HmapM as [|d es l ls Hd _ IH]; [done|].
  cbn [concat]. rewrite length_app, IH, filter_cons.
  rewrite (merge_diagnosis_length _ _ _ Hd).
  destruct (truthy (diagnosis_code d)); [by rewrite decide_True|].
  by rewrite decide_False.
Qed.

(** Without the fallback, the merged data of an account is the merge of
    that account. *)
Lemma merge_lookup_no_fallback (comparison_data : comparison)
    (parsed_data : parsed_results) (account_num : string) :
  (∀ k items, comparison_data !! k = Some items →
              is_Some (merge_account parsed_data k items)) →
  merge_comparison_with_parsed_data comparison_data parsed_data !! account_num
  = comparison_data !! account_num ≫= merge_account parsed_data account_num.
Proof.
  intros Hok. unfold merge_comparison_with_parsed_data.
  rewrite bool_decide_eq_true_2.
  - rewrite lookup_omap, map_lookup_imap.
    destruct (comparison_data !! account_num) as [items|]; [|done].
    cbn. by destruct (merge_account parsed_data account_num items).
  - intros k r. rewrite map_lookup_imap.
    destruct (comparison_data !! k) as [items|] eqn:Hk; [|done].
    cbn. intros [= <-]. by eapply Hok.
Qed.

(** Without the fallback the accuracy is at most 100.0. *)
Lemma accuracy_le_100_no_fallback (comparison_data_raw : comparison)
    (parsed_data : parsed_results) (csv : csv_data) (account_num : string) :
  (∀ k items, comparison_data_raw !! k = Some items →
              is_Some (merge_account parsed_data k items)) →
  (accuracy (account_stats comparison_data_raw parsed_data csv account_num)
   ≤ 1000)%Z.
Proof.
  intros Hok. unfold account_stats, calculate_account_statistics.
  destruct (calculate_account_statistics_body _ _ _ _) as [st|] eqn:Hbody;
    [|done].
  destruct (statistics_body_Some _ _ _ _ _ Hbody)
    as (_ & _ & Hm & Hacc & _).
  change (default sentinel_statistics (Some st)) with st.
  rewrite Hacc, Hm. apply accuracy_of_le.
  rewrite (merge_lookup_no_fallback _ _ _ Hok).
  destruct (comparison_data_raw !! account_num) as [items|] eqn:Hk;
    cbn [mbind option_bind]; [|cbn; lia].
  destruct (Hok _ _ Hk) as [entries Hentries]. rewrite Hentries.
  change (length entries ≤ length (coded_diagnoses_of parsed_data account_num)).
  rewrite (merge_account_length _ _ _ _ Hentries).
  apply length_filter.
Qed.


(** Without the fallback, and for an account of the raw comparison data,
    [matched_icds] is the number of diagnoses with a truthy code, whatever
    their match status. *)
Lemma matched_icds_is_coded_count (comparison_data_raw : comparison)
    (parsed_data : parsed_results) (csv : csv_data) (account_num : string) :
  (∀ k items, comparison_data_raw !! k = Some items →
              is_Some (merge_account parsed_data k items)) →
  is_Some (comparison_data_raw !! account_num) →
  is_Some (calculate_account_statistics_body account_num parsed_data csv
             (merge_comparison_with_parsed_data comparison_data_raw
                parsed_data)) →
  matched_icds (account_stats comparison_data_raw parsed_data csv account_num)
  = length (filter (λ d, truthy (diagnosis_code d) = true)
              (coded_diagnoses_of parsed_data account_num)).
Proof.
  intros Hok [items Hitems] [st Hbody].
  unfold account_stats, calculate_account_statistics. rewrite Hbody.
  destruct (statistics_body_Some _ _ _ _ _ Hbody) as (_ & _ & Hm & _).
  change (default sentinel_statistics (Some st)) with st.
  rewrite Hm, (merge_lookup_no_fallback _ _ _ Hok), Hitems.
  cbn [mbind option_bind].
  destruct (Hok _ _ Hitems) as [entries Hentries]. rewrite Hentries.
  exact (merge_account_length _ _ _ _ Hentries).
Qed.

(** ** C2: what [matched_icds] counts *)

(** C2 at account 3003.  The only extracted code, "E1121", is not in the
    ground truth ["Z9989"]: the matcher classifies it as a mismatch and no
    extracted record classifies as a match.  The merged comparison data
    still has an entry for it, marked "Mismatch", and
    [calculate_account_statistics] takes the number of entries: it reports
    one matched code and an accuracy of 100.0, where the count of matches
    is zero and the accuracy 0.0. *)
Theorem matched_icds_counts_mismatches :
  let st :=
    account_stats mismatch_comparison_raw mismatch_parsed mismatch_csv "3003" in
  classify "E1121" ["Z9989"] = MISMATCH
  ∧ length (filter (λ d, check_sdx_match (diagnosis_code d) "3003" mismatch_csv
                         = "SDX Match")
              (coded_diagnoses_of mismatch_parsed "3003")) = 0
  ∧ (λ entry : row, entry !! "match_status") <$>
      default []
        (merge_comparison_with_parsed_data mismatch_comparison_raw
           mismatch_parsed !! "3003")
    = [Some (PStr "Mismatch")]
  ∧ matched_icds st = 1
  ∧ accuracy st = 1000%Z.
Proof. split_and!; compute_done. Qed.


(** ** C7: the range of the accuracy *)

(** C7 at account 4004.  The merge raises on account 4005, whose diagnosis
    has [None] as its type, and its handler returns the raw comparison data
    for every account; for account 4004 this is the list of its three
    ground-truth codes, against one extracted record, and the accuracy is
    300.0. *)
Theorem accuracy_exceeds_100_after_fallback :
  let st :=
    account_stats fallback_comparison_raw fallback_parsed fallback_csv "4004" in
  merge_account fallback_parsed "4005" [raw_entry "PDX" "J189"] = None
  ∧ merge_comparison_with_parsed_data fallback_comparison_raw fallback_parsed
    = fallback_comparison_raw
  ∧ length (coded_diagnoses_of fallback_parsed "4004") = 1
  ∧ matched_icds st = 3
  ∧ accuracy st = 3000%Z
  ∧ ¬ (0 ≤ accuracy st ≤ 1000)%Z.
Proof. split_and!; compute_done. Qed.

(** * Further properties *)

(** ** The merged comparison data, continued *)

(** Either no account makes the merge raise, and the merged data of each
    account is the merge of that account, or the raw data is returned. *)
Lemma merge_cases (comparison_data : comparison) (parsed_data : parsed_results) :
  ((∀ k items, comparison_data !! k = Some items →
               is_Some (merge_account parsed_data k items))
   ∧ ∀ k, merge_comparison_with_parsed_data comparison_data parsed_data !! k
          = comparison_data !! k ≫= merge_account parsed_data k)
  ∨ (¬ (∀ k items, comparison_data !! k = Some items →
                   is_Some (merge_account parsed_data k items))
     ∧ merge_comparison_with_parsed_data comparison_data parsed_data
       = comparison_data).
Proof.
  destruct (decide (map_Forall (λ _ r, is_Some r)
              (map_imap (λ account_num items,
                 Some (merge_account parsed_data account_num items))
                 comparison_data))) as [Hall|Hnot].
  - left.
    assert (∀ k items, comparison_data !! k = Some items →
                       is_Some (merge_account parsed_data k items)) as Hok.
    { intros k items Hk. apply (Hall k). rewrite map_lookup_imap, Hk. done. }
    split; [exact Hok|]. intros k. by apply merge_lookup_no_fallback.
  - right. split.
    + intros Hok. apply Hnot. intros k r. rewrite map_lookup_imap.
      destruct (comparison_data !! k) as [items|] eqn:Hk; [|done].
      cbn. intros [= <-]. by eapply Hok.
    + unfold merge_comparison_with_parsed_data.
      by rewrite bool_decide_eq_false_2.
Qed.

Lemma merge_diagnosis_typed (codes : gset pyval) (d : row) :
  str_field d "Type" →
  merge_diagnosis codes d
  = Some (if truthy (diagnosis_code d)
          then [ ({[ "type" := PStr (role_of "Type" d);
                     "coded_icd" := diagnosis_code d;
                     "coded_description" :=
                       dict_get d "Diagnosis/Condition" (PStr "");
                     "llm_icd" := diagnosis_code d;
                     "llm_description" :=
                       dict_get d "Diagnosis/Condition" (PStr "");
                     "match_status" :=
                       PStr (if bool_decide (diagnosis_code d ∈ codes)
                             then "Match" else "Mismatch") ]} : row) ]
          else []).
Proof.
  intros Htype. unfold merge_diagnosis, role_of. fold (diagnosis_code d).
  destruct (str_field_get d "Type" "" Htype) as [s ->]. cbn.
  by destruct (truthy (diagnosis_code d)).
Qed.

Lemma merge_diagnosis_untyped (codes : gset pyval) (d : row) :
  ¬ str_field d "Type" → merge_diagnosis codes d = None.
Proof.
  unfold str_field, merge_diagnosis, dict_get.
  by destruct (d !! "Type") as [[|n|s]|].
Qed.

Lemma merge_account_is_Some (parsed_data : parsed_results)
    (account_num : string) (items : list row) :
  is_Some (merge_account parsed_data account_num items)
  ↔ Forall (λ d, str_field d "Type")
      (coded_diagnoses_of parsed_data account_num).
Proof.
  unfold merge_account.
  set (codes := list_to_set _).
  split.
  - intros [entries Hentries].
    destruct (mapM _ _) as [ls|] eqn:HmapM; [|done].
    apply Forall_forall. intros d Hd.
    destruct (decide (str_field d "Type")) as [|Hno]; [done|].
    assert (mapM (merge_diagnosis codes)
              (coded_diagnoses_of parsed_data account_num) = None) as Hnone.
    { apply mapM_None_2, Exists_exists. exists d. split; [done|].
      by apply merge_diagnosis_untyped. }
    congruence.
  - intros Htyped.
    destruct (mapM _ _) as [ls|] eqn:HmapM; [by eexists|].
    apply mapM_None_1, Exists_exists in HmapM as (d & Hd & Hnone).
    eapply Forall_forall in Htyped; [|exact Hd].
    by rewrite (merge_diagnosis_typed _ _ Htyped) in Hnone.
Qed.

(** X1.  The accounts of the merged data are those of the raw data, whether the
    merge raised or not. *)
Theorem merge_keeps_accounts (comparison_data : comparison)
    (parsed_data : parsed_results) :
  dom (merge_comparison_with_parsed_data comparison_data parsed_data)
  = dom comparison_data.
Proof.
  destruct (merge_cases comparison_data parsed_data)
    as [[Hok Hlookup]|[_ ->]]; [|done].
  apply set_eq. intros k. rewrite !elem_of_dom, Hlookup.
  destruct (comparison_data !! k) as [items|] eqn:Hk; cbn.
  - split; [by eauto|]. intros _. by eapply Hok.
  - split; by intros [? ?].
Qed.

(** X2.  When every diagnosis of every account of the raw data has a string (or
    no) type, the merged list of an account has one entry for each of its
    diagnoses with a non-empty code, in their order, and an entry is marked
    "Match" exactly when its code is the code of a raw entry of type SDX of
    that account; raw entries of type PDX play no part. *)
Theorem merge_marks_sdx_codes (comparison_data : comparison)
    (parsed_data : parsed_results) (account_num : string) (items : list row) :
  map_Forall (λ k _, Forall (λ d, str_field d "Type")
                       (coded_diagnoses_of parsed_data k)) comparison_data →
  comparison_data !! account_num = Some items →
  (λ entry : row, (entry !! "coded_icd", entry !! "match_status")) <$>
    default []
      (merge_comparison_with_parsed_data comparison_data parsed_data
         !! account_num)
  = (λ d,
       (Some (diagnosis_code d),
        Some (PStr
          (if bool_decide
                (diagnosis_code d
                 ∈ (λ item, dict_get item "coded_icd" (PStr "")) <$>
                     filter (λ item, dict_get_none item "type" = PStr "SDX")
                       items)
           then "Match" else "Mismatch")))) <$>
    filter (λ d, truthy (diagnosis_code d) = true)
      (coded_diagnoses_of parsed_data account_num).
Proof.
  intros Htyped Hitems.
  rewrite merge_lookup_no_fallback, Hitems; cycle 1.
  { intros k items' Hk. apply merge_account_is_Some. by eapply (Htyped k). }
  cbn [mbind option_bind]. unfold merge_account.
  set (codes := (λ item, dict_get item "coded_icd" (PStr "")) <$> _).
  set (h := λ d : row,
         (Some (diagnosis_code d),
          Some (PStr (if bool_decide (diagnosis_code d ∈ codes)
                      then "Match" else "Mismatch")))).
  destruct (mapM_concat_fmap
              (merge_diagnosis (list_to_set codes))
              (λ entry : row, (entry !! "coded_icd", entry !! "match_status"))
              (λ d, if bool_decide (truthy (diagnosis_code d) = true)
                    then [h d] else [])
              (coded_diagnoses_of parsed_data account_num))
    as (ls & -> & Hproj).
  { eapply Forall_impl; [exact (Htyped _ _ Hitems)|]. intros d Hd.
    eexists. split; [by apply merge_diagnosis_typed|].
    destruct (truthy (diagnosis_code d)) eqn:Htr; [|done].
    rewrite (bool_decide_eq_true_2 (true = true)) by done.
    rewrite fmap_cons, fmap_nil. unfold h.
    rewrite (bool_decide_ext
               (diagnosis_code d ∈ (list_to_set codes : gset pyval))
               (diagnosis_code d ∈ codes)) by apply elem_of_list_to_set.
    f_equal. }
  change (default [] _) with (concat ls). rewrite Hproj.
  apply (concat_fmap_if (λ d, truthy (diagnosis_code d) = true)).
Qed.

Lemma merge_marks_sdx_codes_witness :
  map_Forall (λ k _, Forall (λ d, str_field d "Type")
                       (coded_diagnoses_of sample_parsed k))
    sample_comparison_raw
  ∧ sample_comparison_raw !! "1001"
    = Some [raw_entry "PDX" "I2510"; raw_entry "SDX" "E1122";
            raw_entry "SDX" "I10"; raw_entry "SDX" "N179"]
  ∧ (λ entry : row, (entry !! "coded_icd", entry !! "match_status")) <$>
      default []
        (merge_comparison_with_parsed_data sample_comparison_raw sample_parsed
           !! "1001")
    = [ (Some (PStr "I2510"), Some (PStr "Mismatch"));
        (Some (PStr "E1121"), Some (PStr "Mismatch"));
        (Some (PStr "N179"), Some (PStr "Match")) ].
Proof.
  assert (map_Forall (λ k _, Forall (λ d, str_field d "Type")
                               (coded_diagnoses_of sample_parsed k))
            sample_comparison_raw) as Htyped by compute_done.
  assert (sample_comparison_raw !! "1001"
          = Some [raw_entry "PDX" "I2510"; raw_entry "SDX" "E1122";
                  raw_entry "SDX" "I10"; raw_entry "SDX" "N179"]) as Hitems
    by compute_done.
  split_and!; [exact Htyped|exact Hitems|].
  rewrite (merge_marks_sdx_codes _ _ _ _ Htyped Hitems). compute_done.
Defined.

(** X3.  When some diagnosis of some account of the raw data has a type that is
    not a string, the merge returns the raw data, for every account. *)
Theorem merge_falls_back_on_untyped (comparison_data : comparison)
    (parsed_data : parsed_results) :
  ¬ map_Forall (λ k _, Forall (λ d, str_field d "Type")
                         (coded_diagnoses_of parsed_data k)) comparison_data →
  merge_comparison_with_parsed_data comparison_data parsed_data
  = comparison_data.
Proof.
  intros Hnot.
  destruct (merge_cases comparison_data parsed_data)
    as [[Hok _]|[_ ->]]; [|done].
  exfalso. apply Hnot. intros k items Hk.
  apply (merge_account_is_Some parsed_data k items). by eapply Hok.
Qed.

Lemma merge_falls_back_on_untyped_witness :
  ¬ map_Forall (λ k _, Forall (λ d, str_field d "Type")
                         (coded_diagnoses_of fallback_parsed k))
      fallback_comparison_raw
  ∧ merge_comparison_with_parsed_data fallback_comparison_raw fallback_parsed
    = fallback_comparison_raw.
Proof.
  assert (¬ map_Forall (λ k _, Forall (λ d, str_field d "Type")
                                 (coded_diagnoses_of fallback_parsed k))
              fallback_comparison_raw) as Hnot by compute_done.
  split; [exact Hnot|].
  exact (merge_falls_back_on_untyped _ _ Hnot).
Defined.

(** ** The severity counts, continued *)

Lemma disjoint_filters_length {A} (P Q : A → Prop)
    `{!∀ x, Decision (P x)} `{!∀ x, Decision (Q x)} (l : list A) :
  (∀ x, P x → Q x → False) →
  length (filter P l) + length (filter Q l) ≤ length l.
Proof.
  intros Hdisj. induction l as [|x l IH]; [done|].
  rewrite !filter_cons. cbn [length].
  destruct (decide (P x)), (decide (Q x)); cbn [length];
    [exfalso; eauto|lia..].
Qed.

Lemma union_filters_length {A} (P Q : A → Prop)
    `{!∀ x, Decision (P x)} `{!∀ x, Decision (Q x)} (l : list A) :
  (∀ x, P x → Q x → False) →
  length (filter (λ x, P x ∨ Q x) l)
  = length (filter P l) + length (filter Q l).
Proof.
  intros Hdisj. induction l as [|x l IH]; [done|].
  rewrite !filter_cons.
  destruct (decide (P x)), (decide (Q x)), (decide (P x ∨ Q x));
    cbn [length]; try lia; try tauto. exfalso; eauto.
Qed.

Lemma filter_by_upper_is_Some (key target : string) (l : list row) :
  is_Some (filter_by_upper key target l) ↔ Forall (λ d, str_field d key) l.
Proof.
  split.
  - intros [kept Hkept]. revert kept Hkept.
    induction l as [|d l IH]; intros kept; cbn [filter_by_upper]; [done|].
    unfold dict_get.
    destruct (py_upper _) as [u|] eqn:Hu; cbn [mbind option_bind]; [|done].
    destruct (filter_by_upper key target l) as [kept'|]; [|done].
    intros _. constructor; [|by eapply IH].
    unfold str_field. by destruct (d !! key) as [[|n|s]|].
  - intros Htyped. rewrite filter_by_upper_typed by done. by eexists.
Qed.

Lemma llm_sdx_diagnoses_empty (parsed_data : parsed_results)
    (account_num : string) :
  combination_of parsed_data account_num = [] →
  llm_sdx_diagnoses_of parsed_data account_num = Some [].
Proof.
  unfold llm_sdx_diagnoses_of, combination_of.
  destruct (parsed_data !! account_num) as [acct|]; [|done].
  cbn. by intros ->.
Qed.

(** The tag of an extracted row is computed unless its [cc/mcc] cell is
    truthy and not a string. *)
Lemma llm_cc_mcc_upper_is_Some (item : row) :
  is_Some (llm_cc_mcc_upper item)
  ↔ (truthy (dict_get_none item "cc/mcc") = true →
     is_str (dict_get_none item "cc/mcc")).
Proof.
  unfold llm_cc_mcc_upper, dict_get_none, dict_get.
  destruct (item !! "cc/mcc") as [[|n|s]|]; cbn.
  - split; [done|by eexists].
  - destruct (negb (n =? 0)%Z); cbn.
    + split; [by intros [? ?]|]. intros H. by destruct H.
    + split; [done|by eexists].
  - split; [done|]. intros _. destruct (negb _); by eexists.
  - split; [done|by eexists].
Qed.

(** X4.  The severity counts never exceed the lists they are taken from. *)
Theorem severity_counts_bounded (account_num : string)
    (parsed_data : parsed_results) (csv : csv_data) :
  let st := calculate_cc_mcc_statistics account_num parsed_data csv in
  gt_cc st + gt_mcc st ≤ length (ground_truth_of (csv_sdx csv) account_num)
  ∧ llm_cc st + llm_mcc st ≤ length (combination_of parsed_data account_num).
Proof.
  intros st. unfold st, calculate_cc_mcc_statistics.
  destruct (calculate_cc_mcc_statistics_body _ _ _) as [st'|] eqn:Hbody;
    [|cbn; lia].
  change (default zero_cc_mcc_stats (Some st')) with st'.
  destruct (severity_counts_tally _ _ _ _ Hbody) as (-> & -> & -> & ->).
  split.
  - apply disjoint_filters_length. intros item H1 H2. congruence.
  - etrans; [apply disjoint_filters_length; intros item H1 H2; congruence|].
    unfold extracted_sdx, records_of_role. apply length_filter.
Qed.

(** X5.  The severity counts are computed exactly when the type of every row of
    the account's combination table is a string (or absent) and the
    [cc/mcc] cell of every extracted SDX row is a string (or falsy);
    otherwise all four counts are zero, the ground-truth ones included. *)
Theorem severity_counts_failure (account_num : string)
    (parsed_data : parsed_results) (csv : csv_data) :
  let well_formed :=
    Forall (λ item, str_field item "type")
      (combination_of parsed_data account_num)
    ∧ Forall (λ item, truthy (dict_get_none item "cc/mcc") = true →
                      is_str (dict_get_none item "cc/mcc"))
        (extracted_sdx parsed_data account_num) in
  (is_Some (calculate_cc_mcc_statistics_body account_num parsed_data csv)
   ↔ well_formed)
  ∧ (¬ well_formed →
     calculate_cc_mcc_statistics account_num parsed_data csv
     = zero_cc_mcc_stats).
Proof.
  intros well_formed.
  assert (is_Some (calculate_cc_mcc_statistics_body account_num parsed_data csv)
          ↔ well_formed) as Hiff.
  { unfold well_formed, calculate_cc_mcc_statistics_body.
    assert (is_Some (llm_sdx_diagnoses_of parsed_data account_num)
            ↔ Forall (λ item, str_field item "type")
                (combination_of parsed_data account_num)) as Htype.
    { unfold llm_sdx_diagnoses_of, combination_of.
      destruct (parsed_data !! account_num) as [acct|]; cbn.
      - apply filter_by_upper_is_Some.
      - split; [done|by eexists]. }
    destruct (llm_sdx_diagnoses_of parsed_data account_num) as [l|] eqn:Hl;
      cbn [mbind option_bind].
    - apply llm_sdx_diagnoses_Some in Hl as ->.
      assert (is_Some (mapM llm_cc_mcc_upper
                         (extracted_sdx parsed_data account_num))
              ↔ Forall (λ item, truthy (dict_get_none item "cc/mcc") = true →
                                is_str (dict_get_none item "cc/mcc"))
                  (extracted_sdx parsed_data account_num)) as Hcells.
      { rewrite mapM_is_Some. apply Forall_iff. intros item.
        apply llm_cc_mcc_upper_is_Some. }
      destruct (mapM _ _) as [tags|]; cbn [mbind option_bind].
      + split; [|by eexists]. intros _. split; [by apply Htype|by apply Hcells].
      + split; [by intros [? ?]|]. intros [_ Hc].
        by destruct (proj2 Hcells Hc).
    - split; [by intros [? ?]|]. intros [Ht _]. by destruct (proj2 Htype Ht). }
  split; [exact Hiff|].
  intros Hnot. unfold calculate_cc_mcc_statistics.
  destruct (calculate_cc_mcc_statistics_body _ _ _) eqn:Hbody; [|done].
  exfalso. apply Hnot, Hiff. by eexists.
Qed.

Lemma severity_counts_failure_witness :
  ¬ (Forall (λ item, str_field item "type")
       (combination_of broken_comb_parsed "2002")
     ∧ Forall (λ item, truthy (dict_get_none item "cc/mcc") = true →
                       is_str (dict_get_none item "cc/mcc"))
         (extracted_sdx broken_comb_parsed "2002"))
  ∧ calculate_cc_mcc_statistics "2002" broken_comb_parsed broken_comb_csv
    = zero_cc_mcc_stats.
Proof.
  assert (¬ (Forall (λ item, str_field item "type")
               (combination_of broken_comb_parsed "2002")
             ∧ Forall (λ item, truthy (dict_get_none item "cc/mcc") = true →
                               is_str (dict_get_none item "cc/mcc"))
                 (extracted_sdx broken_comb_parsed "2002"))) as Hnot.
  { intros [Htype _]. revert Htype. apply (bool_decide_unpack _). compute_done. }
  split; [exact Hnot|].
  exact (proj2 (severity_counts_failure "2002" broken_comb_parsed
                  broken_comb_csv) Hnot).
Defined.

(** ** The comparison table, continued *)

(** The ground-truth side of the rows the loop body appends. *)
Lemma compare_gt_item_gt_side (mapping : odict) (gt_item : row)
    (rows : list comparison_row) :
  compare_gt_item mapping gt_item = Some rows →
  (λ r, (gt_icd r, gt_cc_mcc r)) <$> rows
  = if bool_decide (has_severity gt_item)
    then [ (dict_get gt_item "icd_code" (PStr ""), gt_cc_mcc_raw gt_item) ]
    else [].
Proof.
  unfold compare_gt_item. rewrite gt_cc_mcc_raw_has_severity.
  case_bool_decide as Hsev; [|by intros [= <-]].
  case_bool_decide as Hin.
  - destruct (odict_get mapping _) as [v|]; cbn [mbind option_bind]; [|done].
    by intros [= <-].
  - destruct (specificity_find _ _ mapping) as [[[k v]|]|];
      cbn [mbind option_bind]; [| |done]; by intros [= <-].
Qed.

Lemma comparison_body_gt_side (account_num : string)
    (parsed_data : parsed_results) (csv : csv_data)
    (rows : list comparison_row) :
  create_cc_mcc_comparison_data_body account_num parsed_data csv = Some rows →
  (λ r, (gt_icd r, gt_cc_mcc r)) <$> rows
  = (λ gt_item, (dict_get gt_item "icd_code" (PStr ""), gt_cc_mcc_raw gt_item))
      <$> filter has_severity (ground_truth_of (csv_sdx csv) account_num).
Proof.
  unfold create_cc_mcc_comparison_data_body.
  destruct (llm_sdx_diagnoses_of parsed_data account_num) as [l|];
    cbn [mbind option_bind]; [|done].
  destruct (mapM _ _) as [rs|] eqn:HmapM; cbn [mbind option_bind]; [|done].
  intros [= <-].
  destruct (mapM_concat_fmap (compare_gt_item (build_llm_icd_mapping l))
              (λ r, (gt_icd r, gt_cc_mcc r))
              (λ gt_item,
                 if bool_decide (has_severity gt_item)
                 then [ (dict_get gt_item "icd_code" (PStr ""),
                         gt_cc_mcc_raw gt_item) ]
                 else [])
              (ground_truth_of (csv_sdx csv) account_num))
    as (rs' & Hrs' & Hproj).
  { apply Forall_forall. intros gt_item Hgt.
    assert (is_Some (compare_gt_item (build_llm_icd_mapping l) gt_item))
      as [ys Hys].
    { assert (is_Some (mapM (compare_gt_item (build_llm_icd_mapping l))
                         (ground_truth_of (csv_sdx csv) account_num)))
        as Hall by (by eexists).
      rewrite mapM_is_Some in Hall. by eapply Forall_forall in Hall. }
    exists ys. split; [done|]. exact (compare_gt_item_gt_side _ _ _ Hys). }
  rewrite HmapM in Hrs'. injection Hrs' as <-.
  rewrite Hproj. apply concat_fmap_if.
Qed.

(** X6.  Every row of the comparison table, whatever the cells of the source
    rows hold, is of one of three kinds.  A Match row repeats the
    ground-truth code as its counterpart; a Specificity Issue row has a
    counterpart that differs from the ground-truth code and passes the
    specificity test against it; a Mismatch row has [None] as counterpart
    and as counterpart severity.  A counterpart is always a truthy code of
    an extracted SDX row, and a code that is one is never reported as
    anything but a Match. *)
Theorem comparison_row_kinds (account_num : string)
    (parsed_data : parsed_results) (csv : csv_data) (r : comparison_row) :
  r ∈ create_cc_mcc_comparison_data account_num parsed_data csv →
  let extracted :=
    filter (λ code, truthy code = true)
      (raw_item_code <$> extracted_sdx parsed_data account_num) in
  (match_type r = "Match"
   ∧ llm_icd r = gt_icd r ∧ gt_icd r ∈ extracted)
  ∨ (match_type r = "Specificity Issue"
     ∧ (gt_icd r ∉ extracted) ∧ llm_icd r ∈ extracted
     ∧ llm_icd r ≠ gt_icd r
     ∧ specificity_test (gt_icd r) (llm_icd r) = Some true)
  ∨ (match_type r = "Mismatch"
     ∧ (gt_icd r ∉ extracted)
     ∧ llm_icd r = PNone ∧ llm_cc_mcc r = PNone).
Proof.
  intros Hr extracted.
  destruct (comparison_row_origin _ _ _ r Hr)
    as (gt_item & rows & _ & Hitem & Hin).
  assert (∀ k, k ∈ odict_keys
                     (build_llm_icd_mapping
                        (extracted_sdx parsed_data account_num))
               ↔ k ∈ extracted) as Hkeys.
  { intros k. unfold build_llm_icd_mapping, extracted.
    rewrite build_keys_elem, list_elem_of_filter. cbn [odict_keys fmap list_fmap].
    rewrite elem_of_nil. tauto. }
  destruct (compare_gt_item_row _ _ _ _ Hitem Hin)
    as [(Ht & Hllm & Hgt)|[(Ht & Hgt & Hllm & Htest)|(Ht & Hgt & Hllm & Hcc)]].
  - left. by rewrite <- Hkeys.
  - right; left. rewrite <- !Hkeys. split_and!; [done..| |done].
    intros Heq. by rewrite Heq in Hllm.
  - right; right. by rewrite <- Hkeys.
Qed.

Lemma comparison_row_kinds_witness :
  sample_row ∈ create_cc_mcc_comparison_data "1001" sample_parsed sample_csv
  ∧ match_type sample_row = "Specificity Issue"
  ∧ llm_icd sample_row ≠ gt_icd sample_row
  ∧ specificity_test (gt_icd sample_row) (llm_icd sample_row) = Some true.
Proof.
  assert (sample_row
          ∈ create_cc_mcc_comparison_data "1001" sample_parsed sample_csv)
    as Hrow by compute_done.
  split; [exact Hrow|].
  destruct (comparison_row_kinds "1001" sample_parsed sample_csv sample_row
              Hrow)
    as [(Ht & _)|[(Ht & _ & _ & Hne & Htest)|(Ht & _)]];
    [discriminate Ht|done|discriminate Ht].
Defined.

(** X7.  When the comparison does not raise, the table has one row for each
    ground-truth SDX row that carries a severity tag, in the order of the
    ground truth, with that row's code and its tag as stored. *)
Theorem comparison_rows_ground_truth_side (account_num : string)
    (parsed_data : parsed_results) (csv : csv_data)
    (rows : list comparison_row) :
  create_cc_mcc_comparison_data_body account_num parsed_data csv = Some rows →
  create_cc_mcc_comparison_data account_num parsed_data csv = rows
  ∧ (λ r, (gt_icd r, gt_cc_mcc r)) <$> rows
    = (λ gt_item,
         (dict_get gt_item "icd_code" (PStr ""), gt_cc_mcc_raw gt_item))
        <$> filter has_severity (ground_truth_of (csv_sdx csv) account_num).
Proof.
  intros Hbody. split.
  - unfold create_cc_mcc_comparison_data. by rewrite Hbody.
  - exact (comparison_body_gt_side _ _ _ _ Hbody).
Qed.

Lemma comparison_rows_ground_truth_side_witness :
  create_cc_mcc_comparison_data_body "1001" sample_parsed sample_csv
  = Some (create_cc_mcc_comparison_data "1001" sample_parsed sample_csv)
  ∧ (λ r, (gt_icd r, gt_cc_mcc r))
      <$> create_cc_mcc_comparison_data "1001" sample_parsed sample_csv
    = [ (PStr "E1122", "mcc"); (PStr "N179", "CC") ].
Proof.
  assert (create_cc_mcc_comparison_data_body "1001" sample_parsed sample_csv
          = Some (create_cc_mcc_comparison_data "1001" sample_parsed
                    sample_csv)) as Hbody by compute_done.
  split; [exact Hbody|].
  rewrite (proj2 (comparison_rows_ground_truth_side "1001" sample_parsed
                    sample_csv _ Hbody)).
  compute_done.
Defined.

(** X8.  When neither function raises, the comparison table has as many rows as
    the two ground-truth counts of the severity statistics add up to. *)
Theorem comparison_rows_count (account_num : string)
    (parsed_data : parsed_results) (csv : csv_data)
    (st : cc_mcc_counts) (rows : list comparison_row) :
  calculate_cc_mcc_statistics_body account_num parsed_data csv = Some st →
  create_cc_mcc_comparison_data_body account_num parsed_data csv = Some rows →
  length (create_cc_mcc_comparison_data account_num parsed_data csv)
  = gt_cc (calculate_cc_mcc_statistics account_num parsed_data csv)
    + gt_mcc (calculate_cc_mcc_statistics account_num parsed_data csv).
Proof.
  intros Hst Hrows.
  unfold create_cc_mcc_comparison_data, calculate_cc_mcc_statistics.
  rewrite Hst, Hrows.
  change (length rows = gt_cc st + gt_mcc st).
  destruct (severity_counts_tally _ _ _ _ Hst) as (-> & -> & _ & _).
  rewrite <- (length_fmap (λ r, (gt_icd r, gt_cc_mcc r)) rows).
  rewrite (comparison_body_gt_side _ _ _ _ Hrows), length_fmap.
  rewrite <- union_filters_length by (intros item H1 H2; congruence).
  f_equal. apply list_filter_iff. intros item. unfold has_severity.
  destruct (normalize_severity (gt_severity_cell item));
    split; (done || (intros [?|?]; done) || tauto).
Qed.

Lemma comparison_rows_count_witness :
  calculate_cc_mcc_statistics_body "1001" sample_parsed sample_csv
  = Some sample_counts
  ∧ is_Some (create_cc_mcc_comparison_data_body "1001" sample_parsed sample_csv)
  ∧ length (create_cc_mcc_comparison_data "1001" sample_parsed sample_csv)
    = gt_cc (calculate_cc_mcc_statistics "1001" sample_parsed sample_csv)
      + gt_mcc (calculate_cc_mcc_statistics "1001" sample_parsed sample_csv).
Proof.
  assert (calculate_cc_mcc_statistics_body "1001" sample_parsed sample_csv
          = Some sample_counts) as Hst by compute_done.
  assert (create_cc_mcc_comparison_data_body "1001" sample_parsed sample_csv
          = Some (create_cc_mcc_comparison_data "1001" sample_parsed
                    sample_csv)) as Hrows by compute_done.
  split; [exact Hst|]. split; [by eexists|].
  exact (comparison_rows_count "1001" sample_parsed sample_csv _ _ Hst Hrows).
Defined.

(** X9.  An account whose combination table is empty or missing never makes the
    comparison raise: every ground-truth SDX row with a severity tag is
    reported as a Mismatch with no counterpart. *)
Theorem comparison_without_extraction (account_num : string)
    (parsed_data : parsed_results) (csv : csv_data) :
  combination_of parsed_data account_num = [] →
  create_cc_mcc_comparison_data account_num parsed_data csv
  = (λ gt_item,
       {| gt_icd := dict_get gt_item "icd_code" (PStr "");
          gt_cc_mcc := gt_cc_mcc_raw gt_item;
          llm_icd := PNone; llm_cc_mcc := PNone;
          match_type := "Mismatch" |})
      <$> filter has_severity (ground_truth_of (csv_sdx csv) account_num).
Proof.
  intros Hcomb.
  pose proof (llm_sdx_diagnoses_empty _ _ Hcomb) as Hl.
  unfold create_cc_mcc_comparison_data, create_cc_mcc_comparison_data_body.
  rewrite Hl. cbn [mbind option_bind].
  set (mismatch_row := λ gt_item : row,
         {| gt_icd := dict_get gt_item "icd_code" (PStr "");
            gt_cc_mcc := gt_cc_mcc_raw gt_item;
            llm_icd := PNone; llm_cc_mcc := PNone;
            match_type := "Mismatch" |}).
  destruct (mapM_concat_fmap (compare_gt_item (build_llm_icd_mapping []))
              id
              (λ gt_item,
                 if bool_decide (has_severity gt_item)
                 then [mismatch_row gt_item] else [])
              (ground_truth_of (csv_sdx csv) account_num))
    as (rs & -> & Hrows).
  { apply Forall_forall. intros gt_item _.
    unfold compare_gt_item. rewrite gt_cc_mcc_raw_has_severity.
    case_bool_decide; [|by exists []].
    rewrite (bool_decide_eq_false_2 (_ ∈ _)) by apply not_elem_of_nil.
    eexists. split; [done|]. by rewrite list_fmap_id. }
  rewrite list_fmap_id in Hrows. cbn [mbind option_bind default].
  rewrite Hrows. apply concat_fmap_if.
Qed.

Lemma comparison_without_extraction_witness :
  combination_of mismatch_parsed "1001" = []
  ∧ create_cc_mcc_comparison_data "1001" mismatch_parsed sample_csv
    = [ {| gt_icd := PStr "E1122"; gt_cc_mcc := "mcc";
           llm_icd := PNone; llm_cc_mcc := PNone; match_type := "Mismatch" |};
        {| gt_icd := PStr "N179"; gt_cc_mcc := "CC";
           llm_icd := PNone; llm_cc_mcc := PNone; match_type := "Mismatch" |} ].
Proof.
  assert (combination_of mismatch_parsed "1001" = []) as Hcomb by compute_done.
  split; [exact Hcomb|].
  rewrite (comparison_without_extraction "1001" mismatch_parsed sample_csv
             Hcomb).
  compute_done.
Defined.

(** ** The statistics, continued *)

(** X10.  An account for which nothing is loaded (no diagnoses, no combination
    table, no ground truth, no comparison entries) gets, without any
    exception, statistics equal to the object of the exception handler: the
    sentinel does not tell a failure from an account without data. *)
Theorem statistics_of_empty_account (account_num : string)
    (parsed_data : parsed_results) (csv : csv_data)
    (comparison_data : comparison) :
  coded_diagnoses_of parsed_data account_num = [] →
  combination_of parsed_data account_num = [] →
  ground_truth_of (csv_sdx csv) account_num = [] →
  ground_truth_of (csv_pdx csv) account_num = [] →
  default [] (comparison_data !! account_num) = [] →
  calculate_account_statistics_body account_num parsed_data csv comparison_data
  = Some sentinel_statistics.
Proof.
  intros Hcoded Hcomb Hsdx Hpdx Hcmp.
  unfold calculate_account_statistics_body, calculate_cc_mcc_statistics,
    calculate_cc_mcc_statistics_body.
  rewrite (llm_sdx_diagnoses_empty _ _ Hcomb), Hcoded, Hsdx, Hpdx, Hcmp.
  done.
Qed.

Lemma statistics_of_empty_account_witness :
  coded_diagnoses_of sample_parsed "9999" = []
  ∧ combination_of sample_parsed "9999" = []
  ∧ ground_truth_of (csv_sdx sample_csv) "9999" = []
  ∧ ground_truth_of (csv_pdx sample_csv) "9999" = []
  ∧ default [] (sample_comparison_raw !! "9999") = []
  ∧ calculate_account_statistics "9999" sample_parsed sample_csv
      sample_comparison_raw
    = sentinel_statistics.
Proof.
  split_and!; [reflexivity..|].
  unfold calculate_account_statistics.
  rewrite (statistics_of_empty_account "9999" sample_parsed sample_csv
             sample_comparison_raw);
    reflexivity.
Defined.

(** X11.  When the type of every diagnosis of every account of the comparison data
    is a string, so that the merge does not fall back to the raw data, the
    accuracy of every account lies between 0.0 and 100.0. *)
Theorem accuracy_bounded_without_fallback (comparison_data_raw : comparison)
    (parsed_data : parsed_results) (csv : csv_data) (account_num : string) :
  map_Forall (λ k _, Forall (λ d, str_field d "Type")
                       (coded_diagnoses_of parsed_data k))
    comparison_data_raw →
  (0 ≤ accuracy (account_stats comparison_data_raw parsed_data csv account_num)
   ≤ 1000)%Z.
Proof.
  intros Htyped. split.
  - apply accuracy_zero_without_records.
  - apply accuracy_le_100_no_fallback. intros k items Hk.
    apply merge_account_is_Some. exact (Htyped k items Hk).
Qed.

Lemma accuracy_bounded_without_fallback_witness :
  map_Forall (λ k _, Forall (λ d, str_field d "Type")
                       (coded_diagnoses_of sample_parsed k))
    sample_comparison_raw
  ∧ (0 ≤ accuracy (account_stats sample_comparison_raw sample_parsed sample_csv
                     "1001") ≤ 1000)%Z.
Proof.
  assert (map_Forall (λ k _, Forall (λ d, str_field d "Type")
                               (coded_diagnoses_of sample_parsed k))
            sample_comparison_raw) as Htyped by compute_done.
  split; [exact Htyped|].
  exact (accuracy_bounded_without_fallback sample_comparison_raw sample_parsed
           sample_csv "1001" Htyped).
Defined.

(** X12.  When neither the merge nor the statistics raise, [matched_icds] of an
    account of the comparison data is the number of its diagnoses with a
    truthy code, whether or not they match the ground truth. *)
Theorem matched_icds_counts_coded_diagnoses (comparison_data_raw : comparison)
    (parsed_data : parsed_results) (csv : csv_data) (account_num : string) :
  map_Forall (λ k _, Forall (λ d, str_field d "Type")
                       (coded_diagnoses_of parsed_data k))
    comparison_data_raw →
  is_Some (comparison_data_raw !! account_num) →
  Forall (λ item : row, is_Some (item !! "icd_code"))
    (ground_truth_of (csv_sdx csv) account_num) →
  matched_icds (account_stats comparison_data_raw parsed_data csv account_num)
  = length (filter (λ d, truthy (diagnosis_code d) = true)
              (coded_diagnoses_of parsed_data account_num)).
Proof.
  intros Htyped [items Hacc] Hgt.
  apply matched_icds_is_coded_count.
  - intros k items' Hk. apply merge_account_is_Some. exact (Htyped k items' Hk).
  - by eexists.
  - apply statistics_body_is_Some. split; [done|].
    exact (Htyped account_num items Hacc).
Qed.

Lemma matched_icds_counts_coded_diagnoses_witness :
  map_Forall (λ k _, Forall (λ d, str_field d "Type")
                       (coded_diagnoses_of mismatch_parsed k))
    mismatch_comparison_raw
  ∧ is_Some (mismatch_comparison_raw !! "3003")
  ∧ Forall (λ item : row, is_Some (item !! "icd_code"))
      (ground_truth_of (csv_sdx mismatch_csv) "3003")
  ∧ matched_icds (account_stats mismatch_comparison_raw mismatch_parsed
                    mismatch_csv "3003")
    = length (filter (λ d, truthy (diagnosis_code d) = true)
                (coded_diagnoses_of mismatch_parsed "3003")).
Proof.
  assert (map_Forall (λ k _, Forall (λ d, str_field d "Type")
                               (coded_diagnoses_of mismatch_parsed k))
            mismatch_comparison_raw) as Htyped by compute_done.
  assert (is_Some (mismatch_comparison_raw !! "3003")) as Hacc by compute_done.
  assert (Forall (λ item : row, is_Some (item !! "icd_code"))
            (ground_truth_of (csv_sdx mismatch_csv) "3003")) as Hgt
    by compute_done.
  split_and!; [exact Htyped|exact Hacc|exact Hgt|].
  exact (matched_icds_counts_coded_diagnoses mismatch_comparison_raw
           mismatch_parsed mismatch_csv "3003" Htyped Hacc Hgt).
Defined.

(** ** The matcher and the template filter, continued *)

Lemma gt_codes_strings (gt : list row) :
  Forall (λ item, str_field item "icd_code") gt →
  (λ item, dict_get item "icd_code" (PStr "")) <$> gt
  = PStr <$> (gt_code <$> gt).
Proof.
  induction 1 as [|item gt Hitem _ IH]; [done|].
  rewrite !fmap_cons, IH. f_equal. unfold gt_code.
  by destruct (str_field_get item "icd_code" "" Hitem) as [s ->].
Qed.

Lemma filter_ground_truth_codes_strings (pdx gt : list row)
    (refs : list string) :
  (λ item, dict_get item "icd_code" (PStr "")) <$> gt = PStr <$> refs →
  filter_ground_truth_codes {| acc_pdx := pdx; acc_sdx := gt |}
  = filter (λ r, r ≠ "") refs.
Proof.
  unfold filter_ground_truth_codes. cbn [acc_sdx]. intros ->.
  induction refs as [|r refs IH]; [done|].
  rewrite fmap_cons, !filter_cons.
  destruct (decide (r = "")) as [->|Hr].
  - rewrite decide_False by (by cbn). rewrite decide_False by tauto. exact IH.
  - rewrite decide_True by (by apply truthy_PStr).
    rewrite decide_True by done. rewrite fmap_cons, IH. done.
Qed.

Lemma filter_qualifies_nonempty (c : string) (refs : list string) :
  filter (λ gt_code, specificity_test_str c gt_code = true)
    (filter (λ r, r ≠ "") refs)
  = filter (qualifies c) refs.
Proof.
  induction refs as [|r refs IH]; [done|].
  rewrite (filter_cons (λ r, r ≠ "")), (filter_cons (qualifies c)).
  destruct (decide (qualifies c r)) as [Hq|Hq].
  - destruct (qualifies_nonempty _ _ Hq) as [_ Hr].
    rewrite decide_True by done. rewrite filter_cons.
    rewrite decide_True
      by (by rewrite specificity_test_str_qualifies, bool_decide_eq_true).
    by rewrite IH.
  - destruct (decide (r ≠ "")); [|exact IH].
    rewrite filter_cons.
    rewrite decide_False
      by (by rewrite specificity_test_str_qualifies, bool_decide_eq_true).
    exact IH.
Qed.

(** The matcher on string references, step by step. *)
Lemma check_sdx_match_strings (c : string) (refs : list string)
    (account_num : string) (csv : csv_data) :
  (λ item, dict_get item "icd_code" (PStr "")) <$>
     ground_truth_of (csv_sdx csv) account_num = PStr <$> refs →
  check_sdx_match (PStr c) account_num csv
  = if bool_decide (c = "") then "SDX Mismatch"
    else if bool_decide (c ∈ refs) then "SDX Match"
    else if bool_decide (Exists (qualifies c) refs) then "Specificity Issue"
    else "SDX Mismatch".
Proof.
  intros Hcodes.
  unfold check_sdx_match, check_sdx_match_body.
  rewrite Hcodes, is_nil_fmap. cbn [truthy].
  case_bool_decide as Hc; [done|]. cbn [negb orb].
  destruct refs as [|r refs].
  { cbn [is_nil default].
    rewrite (bool_decide_eq_false_2 (c ∈ [])) by apply not_elem_of_nil.
    rewrite bool_decide_eq_false_2; [done|]. by inversion 1. }
  cbn [is_nil].
  rewrite (bool_decide_ext _ _ (elem_of_PStr_fmap c (r :: refs))).
  destruct (bool_decide (c ∈ r :: refs)); [done|].
  rewrite sdx_scan_strings. done.
Qed.

(** The status of the template filter on string references. *)
Lemma check_sdx_match_filter_strings (c : string) (filter_account : pyval)
    (pdx gt : list row) (refs : list string) :
  (λ item, dict_get item "icd_code" (PStr "")) <$> gt = PStr <$> refs →
  status (check_sdx_match_filter (PStr c) filter_account
            {| acc_pdx := pdx; acc_sdx := gt |})
  = if bool_decide (c = "") then "SDX Mismatch"
    else if bool_decide (c ∈ refs) then "SDX Match"
    else if bool_decide (Exists (qualifies c) refs) then "Specificity Issue"
    else "SDX Mismatch".
Proof.
  intros Hcodes. unfold check_sdx_match_filter. cbn [py_str].
  rewrite (filter_ground_truth_codes_strings pdx gt refs Hcodes).
  case_bool_decide as Hc; [done|]. cbn [orb].
  rewrite filter_qualifies_nonempty.
  assert (c ∈ filter (λ r, r ≠ "") refs ↔ c ∈ refs) as Hin.
  { rewrite list_elem_of_filter. tauto. }
  rewrite (bool_decide_ext _ _ Hin).
  destruct (decide (c ∈ refs)) as [Hc_in|Hc_in].
  - rewrite (bool_decide_eq_true_2 _ Hc_in).
    apply Hin in Hc_in.
    destruct (filter (λ r, r ≠ "") refs); [by apply elem_of_nil in Hc_in|done].
  - rewrite (bool_decide_eq_false_2 _ Hc_in).
    destruct (decide (Exists (qualifies c) refs)) as [Hex|Hex].
    + rewrite (bool_decide_eq_true_2 _ Hex).
      apply Exists_exists in Hex as (r & Hr & Hq).
      assert (r ∈ filter (qualifies c) refs) as Hrq
        by (by apply list_elem_of_filter).
      assert (r ∈ filter (λ r, r ≠ "") refs) as Hrn.
      { apply list_elem_of_filter. split; [|done].
        by destruct (qualifies_nonempty _ _ Hq). }
      destruct (filter (λ r, r ≠ "") refs);
        [by apply elem_of_nil in Hrn|].
      destruct (filter (qualifies c) refs);
        [by apply elem_of_nil in Hrq|done].
    + rewrite (bool_decide_eq_false_2 _ Hex).
      assert (filter (qualifies c) refs = []) as ->.
      { destruct (filter (qualifies c) refs) as [|r l] eqn:Hf; [done|].
        exfalso. apply Hex, Exists_exists. exists r.
        assert (r ∈ filter (qualifies c) refs) as [? ?]%list_elem_of_filter
          by (rewrite Hf; left).
        done. }
      by destruct (filter (λ r, r ≠ "") refs).
Qed.

(** X13.  On a string candidate and ground-truth rows whose code is a string (or
    absent), the template filter handed the account's ground truth reports
    the status that [check_sdx_match] returns for the account, although the
    filter drops empty reference codes and the matcher keeps them. *)
Theorem filter_status_agrees_with_matcher (candidate account_num : string)
    (filter_account : pyval) (csv : csv_data) :
  Forall (λ item, str_field item "icd_code")
    (ground_truth_of (csv_sdx csv) account_num) →
  status (check_sdx_match_filter (PStr candidate) filter_account
            {| acc_pdx := ground_truth_of (csv_pdx csv) account_num;
               acc_sdx := ground_truth_of (csv_sdx csv) account_num |})
  = check_sdx_match (PStr candidate) account_num csv.
Proof.
  intros Hgt. pose proof (gt_codes_strings _ Hgt) as Hcodes.
  rewrite (check_sdx_match_filter_strings _ _ _ _ _ Hcodes).
  by rewrite (check_sdx_match_strings _ _ _ _ Hcodes).
Qed.

Lemma filter_status_agrees_with_matcher_witness :
  Forall (λ item, str_field item "icd_code")
    (ground_truth_of (csv_sdx sample_csv) "1001")
  ∧ status (check_sdx_match_filter (PStr "E1121") (PStr "1001")
              {| acc_pdx := ground_truth_of (csv_pdx sample_csv) "1001";
                 acc_sdx := ground_truth_of (csv_sdx sample_csv) "1001" |})
    = check_sdx_match (PStr "E1121") "1001" sample_csv.
Proof.
  assert (Forall (λ item, str_field item "icd_code")
            (ground_truth_of (csv_sdx sample_csv) "1001")) as Hgt
    by compute_done.
  split; [exact Hgt|].
  exact (filter_status_agrees_with_matcher "E1121" "1001" (PStr "1001")
           sample_csv Hgt).
Defined.

(** X14.  Whatever the candidate and the rows, the filter answers with one of the
    three statuses, every code it reports is one of the ground-truth codes
    of the account, and it reports at least one code unless the status is a
    mismatch; for a match it reports the candidate alone. *)
Theorem filter_reports_ground_truth_codes (icd_code account_num : pyval)
    (csv : account_csv) :
  let res := check_sdx_match_filter icd_code account_num csv in
  status res ∈ ["SDX Match"; "Specificity Issue"; "SDX Mismatch"]
  ∧ gt_codes res ⊆ filter_ground_truth_codes csv
  ∧ (status res ≠ "SDX Mismatch" → gt_codes res ≠ [])
  ∧ (status res = "SDX Match" → gt_codes res = [py_str icd_code]).
Proof.
  assert (∀ s : string,
    let res :=
      if bool_decide (s = "") || is_nil (filter_ground_truth_codes csv) then
        {| status := "SDX Mismatch";
           gt_codes := filter_ground_truth_codes csv |}
      else if bool_decide (s ∈ filter_ground_truth_codes csv) then
        {| status := "SDX Match"; gt_codes := [s] |}
      else if negb (is_nil (filter (λ gt_code,
                                      specificity_test_str s gt_code = true)
                              (filter_ground_truth_codes csv))) then
        {| status := "Specificity Issue";
           gt_codes := filter (λ gt_code, specificity_test_str s gt_code = true)
                         (filter_ground_truth_codes csv) |}
      else
        {| status := "SDX Mismatch";
           gt_codes := filter_ground_truth_codes csv |} in
    status res ∈ ["SDX Match"; "Specificity Issue"; "SDX Mismatch"]
    ∧ gt_codes res ⊆ filter_ground_truth_codes csv
    ∧ (status res ≠ "SDX Mismatch" → gt_codes res ≠ [])
    ∧ (status res = "SDX Match" → gt_codes res = [s])) as Hstr.
  { intros s. cbv zeta.
    destruct (_ || _); [cbn; split_and!; [compute_done|done..]|].
    case_bool_decide as Hin.
    { cbn. split_and!; [compute_done| |done|done].
      intros x ->%list_elem_of_singleton. done. }
    destruct (filter _ (filter_ground_truth_codes csv)) as [|r l] eqn:Hf.
    { cbn. split_and!; [compute_done|done..]. }
    cbn. split_and!; [compute_done| |done|done].
    rewrite <- Hf. intros x [_ ?]%list_elem_of_filter. done. }
  destruct icd_code as [|n|s].
  - cbn. split_and!; [compute_done| |done|done].
    intros x ?%elem_of_nil. done.
  - exact (Hstr (py_str (PInt n))).
  - exact (Hstr s).
Qed.

Lemma filter_reports_ground_truth_codes_witness :
  status (check_sdx_match_filter (PStr "E1121") (PStr "1001")
            two_candidates_csv) ≠ "SDX Mismatch"
  ∧ gt_codes (check_sdx_match_filter (PStr "E1121") (PStr "1001")
                two_candidates_csv) ≠ [].
Proof.
  assert (status (check_sdx_match_filter (PStr "E1121") (PStr "1001")
                    two_candidates_csv) ≠ "SDX Mismatch") as Hstatus
    by compute_done.
  split; [exact Hstatus|].
  destruct (filter_reports_ground_truth_codes (PStr "E1121") (PStr "1001")
              two_candidates_csv) as (_ & _ & Hcodes & _).
  exact (Hcodes Hstatus).
Defined.

(** X15.  A string candidate of at most one character never reaches a reference's
    length or slice: [check_sdx_match] cannot raise on it, whatever the
    reference cells hold, and answers with a match exactly when the
    candidate is non-empty and equal to a reference code, with a mismatch
    otherwise; it is never a specificity issue. *)
Theorem short_candidate_exact_only (candidate account_num : string)
    (csv : csv_data) :
  String.length candidate ≤ 1 →
  check_sdx_match_body (PStr candidate) account_num csv
  = Some (if bool_decide
               (candidate ≠ ""
                ∧ PStr candidate
                  ∈ (λ item, dict_get item "icd_code" (PStr "")) <$>
                      ground_truth_of (csv_sdx csv) account_num)
          then "SDX Match" else "SDX Mismatch").
Proof.
  intros Hlen. unfold check_sdx_match_body.
  set (codes := _ <$> ground_truth_of (csv_sdx csv) account_num).
  cbn [truthy].
  destruct (decide (candidate = "")) as [->|Hc].
  { rewrite (bool_decide_eq_false_2 (_ ∧ _)) by (by intros [? _]). done. }
  rewrite (bool_decide_eq_false_2 (candidate = "")) by done. cbn [negb orb].
  assert (sdx_scan (PStr candidate) codes = Some "SDX Mismatch") as Hscan.
  { induction codes as [|gt_code codes IH]; [done|].
    cbn [sdx_scan]. unfold specificity_test. cbn [py_len mbind option_bind].
    rewrite (bool_decide_eq_false_2 (1 < _)) by lia. exact IH. }
  destruct codes as [|gt_code codes].
  { cbn [is_nil]. rewrite bool_decide_eq_false_2; [done|].
    intros [_ ?%elem_of_nil]. done. }
  cbn [is_nil].
  destruct (decide (PStr candidate ∈ gt_code :: codes)) as [Hin|Hin].
  - rewrite (bool_decide_eq_true_2 _ Hin).
    by rewrite bool_decide_eq_true_2.
  - rewrite (bool_decide_eq_false_2 _ Hin), Hscan.
    rewrite bool_decide_eq_false_2; [done|]. tauto.
Qed.

Lemma short_candidate_exact_only_witness :
  String.length "I" ≤ 1
  ∧ check_sdx_match_body (PStr "I") "1"
      {| csv_pdx := ∅;
         csv_sdx := {[ "1" := [ ({[ "icd_code" := PInt 5 ]} : row) ] ]} |}
    = Some "SDX Mismatch".
Proof.
  assert (String.length "I" ≤ 1) as Hlen by (cbn; lia).
  split; [exact Hlen|].
  rewrite (short_candidate_exact_only "I" "1" _ Hlen).
  compute_done.
Defined.

(** ** The accounts of the dashboard *)

Lemma build_sample_accounts_lookup (g : loaded_data)
    (accounts : gmap string sample_account) (k : string) :
  build_sample_accounts g = Some accounts →
  accounts !! k
  = PARSED_RESULTS_DATA g !! k ≫= λ p, sample_account_of g k p ≫= id.
Proof.
  unfold build_sample_accounts. case_bool_decide; [|done].
  intros [= <-]. rewrite lookup_omap, map_lookup_imap.
  by destruct (PARSED_RESULTS_DATA g !! k).
Qed.

Lemma build_sample_accounts_is_Some (g : loaded_data) :
  is_Some (build_sample_accounts g)
  ↔ ∀ k p, PARSED_RESULTS_DATA g !! k = Some p →
           is_Some (sample_account_of g k p).
Proof.
  unfold build_sample_accounts. split.
  - case_bool_decide as Hall; [|by intros [? ?]].
    intros _ k p Hk. apply (Hall k).
    by rewrite map_lookup_imap, Hk.
  - intros Hall. rewrite bool_decide_eq_true_2; [by eexists|].
    intros k r. rewrite map_lookup_imap.
    destruct (PARSED_RESULTS_DATA g !! k) as [p|] eqn:Hk; [|done].
    intros [= <-]. by eapply Hall.
Qed.

(** What one turn of the loop stores. *)
Lemma sample_account_of_Some (g : loaded_data) (k : string)
    (p : parsed_account) (a : sample_account) :
  sample_account_of g k p = Some (Some a) →
  let st :=
    calculate_account_statistics k (PARSED_RESULTS_DATA g) (CSV_DATA g)
      (COMPARISON_DATA g) in
  default ∅ (DOCUMENTS_DATA g !! k) ≠ ∅
  ∧ (0 < total_sdx st ∨ (pdx_coded st ≠ "N/A" ∧ pdx_coded st ≠ ""))
  ∧ has_cc_mcc_tags (ground_truth_of (csv_sdx (CSV_DATA g)) k)
    = Some (sa_has_cc_mcc_tags a)
  ∧ sa_id a = k
  ∧ sa_stats a = st
  ∧ sa_cc_mcc_comparison a
    = create_cc_mcc_comparison_data k (PARSED_RESULTS_DATA g) (CSV_DATA g)
  ∧ sa_diagnosis_comb_overlap a = diagnosis_comb_overlap k p
  ∧ sa_reviewed a = bool_decide (k ∈ completed_at_load g).
Proof.
  unfold sample_account_of. case_bool_decide as Hdocs; [done|].
  destruct (has_cc_mcc_tags _) as [tags|]; cbn [mbind option_bind]; [|done].
  destruct (_ || _) eqn:Hcrit; [|done].
  intros [= <-]. cbn. split_and!; try done.
  apply orb_true_iff in Hcrit as [Htotal|Hpdx].
  - left. by apply bool_decide_eq_true_1 in Htotal.
  - right. apply bool_decide_eq_true_1 in Hpdx.
    destruct (bool_decide _ || bool_decide _) eqn:Hor; [lia|].
    apply orb_false_iff in Hor as [?%bool_decide_eq_false_1
                                     ?%bool_decide_eq_false_1].
    done.
Qed.

(** The tag loop answers [True] as soon as it meets a row that carries a
    severity. *)
Lemma has_cc_mcc_tags_severity (item : row) (rest : list row) :
  has_severity item → has_cc_mcc_tags (item :: rest) = Some true.
Proof.
  unfold has_severity. intros Htag.
  apply normalize_severity_tagged in Htag as (s & Hcell & Hs & Hup).
  assert (truthy (PStr s) = true) as Htruthy by (by apply truthy_PStr).
  cbn [has_cc_mcc_tags]. unfold gt_severity_cell in Hcell. unfold dict_get.
  destruct (item !! "cc_mcc") as [v|].
  - injection Hcell as ->. cbn [from_option id].
    repeat (rewrite Htruthy; cbv iota).
    cbn [py_upper mbind option_bind]. by rewrite bool_decide_eq_true_2.
  - rewrite Hcell. cbn [from_option id].
    change (truthy (PStr "")) with false. cbv iota.
    repeat (rewrite Htruthy; cbv iota). cbn [py_upper mbind option_bind].
    by rewrite bool_decide_eq_true_2.
Qed.

Lemma has_cc_mcc_tags_rest (item : row) (rest : list row) :
  has_cc_mcc_tags (item :: rest) = Some false →
  has_cc_mcc_tags rest = Some false.
Proof.
  cbn [has_cc_mcc_tags].
  generalize (if truthy (dict_get item "cc_mcc" (PStr ""))
              then dict_get item "cc_mcc" (PStr "")
              else dict_get item "ccmcc" (PStr "")).
  intros cc_mcc. destruct (truthy cc_mcc); [|done].
  destruct (py_upper cc_mcc); cbn [mbind option_bind]; [|done].
  by case_bool_decide.
Qed.

Lemma has_cc_mcc_tags_false (rows : list row) :
  has_cc_mcc_tags rows = Some false → Forall (λ item, ¬ has_severity item) rows.
Proof.
  induction rows as [|item rows IH]; [by constructor|].
  intros Hloop. constructor.
  - intros Hsev. by rewrite (has_cc_mcc_tags_severity _ _ Hsev) in Hloop.
  - by eapply IH, has_cc_mcc_tags_rest.
Qed.

Lemma has_cc_mcc_tags_is_Some (rows : list row) :
  Forall (λ item, str_field item "cc_mcc" ∧ str_field item "ccmcc") rows →
  is_Some (has_cc_mcc_tags rows).
Proof.
  induction 1 as [|item rows [Hfirst Hsecond] _ IH]; [by eexists|].
  cbn [has_cc_mcc_tags].
  destruct (str_field_get item "cc_mcc" "" Hfirst) as [s ->].
  destruct (str_field_get item "ccmcc" "" Hsecond) as [t ->].
  destruct (truthy (PStr s)).
  - destruct (truthy (PStr s)); [|done].
    cbn [py_upper mbind option_bind]. case_bool_decide; [by eexists|done].
  - destruct (truthy (PStr t)); [|done].
    cbn [py_upper mbind option_bind]. case_bool_decide; [by eexists|done].
Qed.

(** X16.  An account of the parsed results gets an entry in [SAMPLE_ACCOUNTS]
    exactly when it has documents and its statistics show a ground-truth SDX
    code or a coded PDX.  The entry carries the account's own statistics,
    which are never the object of the exception handler, and is flagged as
    reviewed exactly when the account's feedback was on file at load time. *)
Theorem sample_accounts_inclusion (g : loaded_data)
    (accounts : gmap string sample_account) (k : string) :
  build_sample_accounts g = Some accounts →
  let st :=
    calculate_account_statistics k (PARSED_RESULTS_DATA g) (CSV_DATA g)
      (COMPARISON_DATA g) in
  (k ∈ dom accounts
   ↔ k ∈ dom (PARSED_RESULTS_DATA g)
     ∧ default ∅ (DOCUMENTS_DATA g !! k) ≠ ∅
     ∧ (0 < total_sdx st ∨ (pdx_coded st ≠ "N/A" ∧ pdx_coded st ≠ "")))
  ∧ ∀ a, accounts !! k = Some a →
         sa_id a = k ∧ sa_stats a = st ∧ sa_stats a ≠ sentinel_statistics
         ∧ sa_reviewed a = bool_decide (k ∈ completed_at_load g).
Proof.
  intros Hbuild st.
  pose proof (build_sample_accounts_lookup g accounts k Hbuild) as Hlookup.
  assert (∀ a, accounts !! k = Some a →
               ∃ p, PARSED_RESULTS_DATA g !! k = Some p
                    ∧ sample_account_of g k p = Some (Some a)) as Hentry.
  { intros a Ha. rewrite Hlookup in Ha.
    destruct (PARSED_RESULTS_DATA g !! k) as [p|]; [|done].
    exists p. split; [done|]. cbn in Ha.
    by destruct (sample_account_of g k p) as [[a'|]|]; simplify_eq/=. }
  split.
  - rewrite !elem_of_dom. split.
    + intros [a Ha]. destruct (Hentry a Ha) as (p & Hp & Hturn).
      destruct (sample_account_of_Some _ _ _ _ Hturn) as (? & ? & _).
      split; [by eexists|done].
    + intros ([p Hp] & Hdocs & Hcrit). rewrite Hlookup, Hp. cbn.
      assert (is_Some (sample_account_of g k p)) as [turn Hturn].
      { eapply build_sample_accounts_is_Some; [by eexists|done]. }
      rewrite Hturn. cbn. revert Hturn. unfold sample_account_of.
      rewrite (bool_decide_eq_false_2 _ Hdocs).
      destruct (has_cc_mcc_tags _) as [tags|]; cbn [mbind option_bind];
        [|done].
      fold st.
      assert (bool_decide (0 < total_sdx st)
              || bool_decide
                   (0 < (if bool_decide (pdx_coded st = "N/A")
                            || bool_decide (pdx_coded st = "")
                         then 0 else 1)) = true) as ->.
      { apply orb_true_iff. destruct Hcrit as [Htotal|[Hna Hempty]].
        - left. by apply bool_decide_eq_true_2.
        - right. rewrite (bool_decide_eq_false_2 _ Hna),
            (bool_decide_eq_false_2 _ Hempty).
          cbn [orb]. apply bool_decide_eq_true_2. lia. }
      intros [= <-]. by eexists.
  - intros a Ha. destruct (Hentry a Ha) as (p & Hp & Hturn).
    destruct (sample_account_of_Some _ _ _ _ Hturn)
      as (_ & Hcrit & _ & Hid & Hst & _ & _ & Hrev).
    split_and!; [done..| |done].
    rewrite Hst. intros Hsentinel. fold st in Hcrit. unfold st in Hcrit.
    rewrite Hsentinel in Hcrit. cbn in Hcrit.
    destruct Hcrit as [?|[? _]]; [lia|done].
Qed.

Lemma sample_accounts_inclusion_witness :
  build_sample_accounts sample_loaded = Some sample_accounts
  ∧ "1001" ∈ dom sample_accounts
  ∧ ∀ a, sample_accounts !! "1001" = Some a →
         sa_stats a ≠ sentinel_statistics ∧ sa_reviewed a = true.
Proof.
  assert (build_sample_accounts sample_loaded = Some sample_accounts)
    as Hbuild by (vm_compute; reflexivity).
  split; [exact Hbuild|].
  destruct (sample_accounts_inclusion sample_loaded sample_accounts "1001"
              Hbuild) as [Hdom Hentry].
  split.
  - apply Hdom. split_and!; [compute_done|compute_done|left; compute_done].
  - intros a Ha. destruct (Hentry a Ha) as (_ & _ & Hne & Hrev).
    split; [exact Hne|]. rewrite Hrev. compute_done.
Defined.

(** X17.  The list of overlapping codes in an entry of [SAMPLE_ACCOUNTS] is
    empty unless the account number is itself one of the key names of a
    parsed entry; when it
    is not empty, each of its codes is a truthy code of the account's
    diagnoses and a code of its combination table. *)
Theorem overlap_only_under_key_names (g : loaded_data)
    (accounts : gmap string sample_account) (k : string)
    (a : sample_account) :
  build_sample_accounts g = Some accounts →
  accounts !! k = Some a →
  (k ∉ parsed_account_keys → sa_diagnosis_comb_overlap a = [])
  ∧ ∀ code, code ∈ sa_diagnosis_comb_overlap a →
      truthy code = true
      ∧ ∃ p, PARSED_RESULTS_DATA g !! k = Some p
             ∧ code ∈ diagnosis_code <$> coded_diagnoses p
             ∧ code ∈ raw_item_code <$> combination_code_review p.
Proof.
  intros Hbuild Ha.
  rewrite (build_sample_accounts_lookup g accounts k Hbuild) in Ha.
  destruct (PARSED_RESULTS_DATA g !! k) as [p|] eqn:Hp; [|done].
  cbn in Ha.
  destruct (sample_account_of g k p) as [[a'|]|] eqn:Hturn; simplify_eq/=.
  destruct (sample_account_of_Some _ _ _ _ Hturn)
    as (_ & _ & _ & _ & _ & _ & -> & _).
  unfold diagnosis_comb_overlap. split.
  - intros Hkey. by rewrite (bool_decide_eq_false_2 _ Hkey).
  - intros code. case_bool_decide; [|by intros ?%elem_of_nil].
    rewrite list_elem_of_filter, elem_of_list_to_set, list_elem_of_filter.
    intros [[Htruthy Hdiag] Hcomb]. split; [done|]. by exists p.
Qed.

Lemma overlap_only_under_key_names_witness :
  build_sample_accounts sample_loaded = Some sample_accounts
  ∧ ("1001" ∉ parsed_account_keys)
  ∧ ∀ a, sample_accounts !! "1001" = Some a →
         sa_diagnosis_comb_overlap a = [].
Proof.
  assert (build_sample_accounts sample_loaded = Some sample_accounts)
    as Hbuild by (vm_compute; reflexivity).
  assert ("1001" ∉ parsed_account_keys) as Hkey by compute_done.
  split; [exact Hbuild|]. split; [exact Hkey|].
  intros a Ha.
  exact (proj1 (overlap_only_under_key_names sample_loaded sample_accounts
                  "1001" a Hbuild Ha) Hkey).
Defined.

(** X18.  An entry of [SAMPLE_ACCOUNTS] whose [has_cc_mcc_tags] flag is off
    has an empty comparison table and ground-truth severity counts of zero. *)
Theorem untagged_account_has_no_severity_rows (g : loaded_data)
    (accounts : gmap string sample_account) (k : string)
    (a : sample_account) :
  build_sample_accounts g = Some accounts →
  accounts !! k = Some a →
  sa_has_cc_mcc_tags a = false →
  sa_cc_mcc_comparison a = []
  ∧ gt_cc (cc_mcc_stats (sa_stats a)) = 0
  ∧ gt_mcc (cc_mcc_stats (sa_stats a)) = 0.
Proof.
  intros Hbuild Ha Hflag.
  rewrite (build_sample_accounts_lookup g accounts k Hbuild) in Ha.
  destruct (PARSED_RESULTS_DATA g !! k) as [p|] eqn:Hp; [|done].
  cbn in Ha.
  destruct (sample_account_of g k p) as [[a'|]|] eqn:Hturn; simplify_eq/=.
  destruct (sample_account_of_Some _ _ _ _ Hturn)
    as (_ & _ & Htags & _ & -> & -> & _).
  rewrite Hflag in Htags. apply has_cc_mcc_tags_false in Htags.
  assert (filter has_severity (ground_truth_of (csv_sdx (CSV_DATA g)) k) = [])
    as Hnone.
  { induction Htags as [|item rows Hitem _ IH]; [done|].
    by rewrite filter_cons, decide_False. }
  split.
  - unfold create_cc_mcc_comparison_data.
    destruct (create_cc_mcc_comparison_data_body _ _ _) as [rows|] eqn:Hbody;
      [|done].
    apply comparison_body_gt_side in Hbody. rewrite Hnone in Hbody.
    by apply fmap_nil_inv in Hbody.
  - assert (gt_cc (calculate_cc_mcc_statistics k (PARSED_RESULTS_DATA g)
                     (CSV_DATA g)) = 0
            ∧ gt_mcc (calculate_cc_mcc_statistics k (PARSED_RESULTS_DATA g)
                        (CSV_DATA g)) = 0) as Hcounts.
    { unfold calculate_cc_mcc_statistics.
      destruct (calculate_cc_mcc_statistics_body _ _ _) as [c|] eqn:Hc;
        [|done].
      change (gt_cc c = 0 ∧ gt_mcc c = 0).
      destruct (severity_counts_tally _ _ _ _ Hc) as (-> & -> & _ & _).
      clear Hnone.
      induction Htags as [|item rows Hitem _ [IHcc IHmcc]]; [done|].
      rewrite !filter_cons. unfold has_severity in Hitem.
      rewrite !decide_False; [done| |];
        intros Htag; apply Hitem; by rewrite Htag. }
    unfold calculate_account_statistics.
    destruct (calculate_account_statistics_body _ _ _ _) as [st|] eqn:Hst;
      [|done].
    change (gt_cc (cc_mcc_stats st) = 0 ∧ gt_mcc (cc_mcc_stats st) = 0).
    destruct (statistics_body_Some _ _ _ _ _ Hst)
      as (_ & _ & _ & _ & _ & _ & _ & ->).
    exact Hcounts.
Qed.

Lemma untagged_account_has_no_severity_rows_witness :
  build_sample_accounts mismatch_loaded
  = Some (default ∅ (build_sample_accounts mismatch_loaded))
  ∧ ∀ a, default ∅ (build_sample_accounts mismatch_loaded) !! "3003" = Some a →
         sa_has_cc_mcc_tags a = false ∧ sa_cc_mcc_comparison a = [].
Proof.
  assert (build_sample_accounts mismatch_loaded
          = Some (default ∅ (build_sample_accounts mismatch_loaded)))
    as Hbuild by (vm_compute; reflexivity).
  split; [exact Hbuild|].
  intros a Ha.
  assert (sa_has_cc_mcc_tags a = false) as Hflag.
  { revert Ha. vm_compute. by intros [= <-]. }
  split; [exact Hflag|].
  exact (proj1 (untagged_account_has_no_severity_rows mismatch_loaded _
                  "3003" a Hbuild Ha Hflag)).
Defined.

(** X19.  Building the accounts raises, and with it the import of the module,
    exactly when some account of the parsed results has documents and the
    loop over its ground-truth severity cells raises; the statistics and the
    comparison table catch their own exceptions. *)
Theorem load_raises_on_unreadable_tag (g : loaded_data) :
  build_sample_accounts g = None
  ↔ ∃ k, k ∈ dom (PARSED_RESULTS_DATA g)
         ∧ default ∅ (DOCUMENTS_DATA g !! k) ≠ ∅
         ∧ has_cc_mcc_tags (ground_truth_of (csv_sdx (CSV_DATA g)) k) = None.
Proof.
  assert (∀ k p, sample_account_of g k p = None
                 ↔ default ∅ (DOCUMENTS_DATA g !! k) ≠ ∅
                   ∧ has_cc_mcc_tags
                       (ground_truth_of (csv_sdx (CSV_DATA g)) k) = None)
    as Hturn.
  { intros k p. unfold sample_account_of.
    case_bool_decide as Hdocs; [split; [done|tauto]|].
    destruct (has_cc_mcc_tags _) as [tags|]; cbn [mbind option_bind].
    - destruct (_ || _); split; (done || by intros [_ ?]).
    - done. }
  rewrite eq_None_not_Some, build_sample_accounts_is_Some. split.
  - intros Hnot.
    destruct (decide (map_Forall
                        (λ k p, is_Some (sample_account_of g k p))
                        (PARSED_RESULTS_DATA g))) as [Hall|Hex]; [done|].
    apply map_not_Forall in Hex; [|apply _].
    destruct Hex as (k & p & Hp & Hraise).
    exists k. split; [by apply elem_of_dom; eexists|].
    apply Hturn with p. by apply eq_None_not_Some.
  - intros (k & [p Hp]%elem_of_dom & Hdocs & Htags) Hall.
    destruct (Hall k p Hp) as [turn Hsome].
    assert (sample_account_of g k p = None) as Hnone by (by apply Hturn).
    congruence.
Qed.

(** X20.  When the two severity columns of every ground-truth SDX row hold
    strings (or are absent), building the accounts does not raise. *)
Theorem load_succeeds_on_string_tags (g : loaded_data) :
  map_Forall
    (λ _ rows,
       Forall (λ item, str_field item "cc_mcc" ∧ str_field item "ccmcc") rows)
    (csv_sdx (CSV_DATA g)) →
  is_Some (build_sample_accounts g).
Proof.
  intros Htyped. apply build_sample_accounts_is_Some. intros k p _.
  assert (is_Some (has_cc_mcc_tags (ground_truth_of (csv_sdx (CSV_DATA g)) k)))
    as [tags Htags].
  { apply has_cc_mcc_tags_is_Some. unfold ground_truth_of.
    destruct (csv_sdx (CSV_DATA g) !! k) as [rows|] eqn:Hrows; [|done].
    exact (Htyped k rows Hrows). }
  unfold sample_account_of. case_bool_decide; [by eexists|].
  rewrite Htags. cbn [mbind option_bind]. destruct (_ || _); by eexists.
Qed.

Lemma load_succeeds_on_string_tags_witness :
  map_Forall
    (λ _ rows,
       Forall (λ item, str_field item "cc_mcc" ∧ str_field item "ccmcc") rows)
    (csv_sdx (CSV_DATA sample_loaded))
  ∧ is_Some (build_sample_accounts sample_loaded).
Proof.
  assert (map_Forall
            (λ _ rows,
               Forall (λ item, str_field item "cc_mcc"
                               ∧ str_field item "ccmcc") rows)
            (csv_sdx (CSV_DATA sample_loaded))) as Htyped by compute_done.
  split; [exact Htyped|].
  exact (load_succeeds_on_string_tags sample_loaded Htyped).
Defined.

Lemma load_raises_on_unreadable_tag_witness :
  (∃ k, k ∈ dom (PARSED_RESULTS_DATA numeric_tag_loaded)
        ∧ default ∅ (DOCUMENTS_DATA numeric_tag_loaded !! k) ≠ ∅
        ∧ has_cc_mcc_tags
            (ground_truth_of (csv_sdx (CSV_DATA numeric_tag_loaded)) k) = None)
  ∧ build_sample_accounts numeric_tag_loaded = None.
Proof.
  assert (∃ k, k ∈ dom (PARSED_RESULTS_DATA numeric_tag_loaded)
               ∧ default ∅ (DOCUMENTS_DATA numeric_tag_loaded !! k) ≠ ∅
               ∧ has_cc_mcc_tags
                   (ground_truth_of (csv_sdx (CSV_DATA numeric_tag_loaded)) k)
                 = None) as Hraise.
  { exists "5005". split_and!; compute_done. }
  split; [exact Hraise|].
  exact (proj2 (load_raises_on_unreadable_tag numeric_tag_loaded) Hraise).
Defined.

(** A number in the severity cell of one ground-truth row is enough, though
    the statistics of the account are computed without an exception. *)
Example load_raises_on_numeric_tag :
  build_sample_accounts numeric_tag_loaded = None
  ∧ calculate_account_statistics_body "5005"
      (PARSED_RESULTS_DATA numeric_tag_loaded) (CSV_DATA numeric_tag_loaded)
      (COMPARISON_DATA numeric_tag_loaded) ≠ None.
Proof. split; [vm_compute; reflexivity|compute_done]. Qed.

(** ** The review queue *)

(** What every request keeps: a pending account is an account, no account is
    both pending and completed, and every account is one or the other. *)
Lemma handle_keeps_partition (accounts : gset string) (q : queue)
    (r : request) :
  pending_accounts q ⊆ accounts
  ∧ pending_accounts q ## completed_accounts q
  ∧ accounts ⊆ pending_accounts q ∪ completed_accounts q →
  pending_accounts (handle accounts q r) ⊆ accounts
  ∧ pending_accounts (handle accounts q r)
    ## completed_accounts (handle accounts q r)
  ∧ accounts
    ⊆ pending_accounts (handle accounts q r)
      ∪ completed_accounts (handle accounts q r).
Proof.
  intros (Hsub & Hdisj & Hcover).
  destruct r as [account_id accepted|account_id]; cbn [handle].
  - destruct (decide (account_id ∈ accounts)) as [Hin|Hin].
    + rewrite (bool_decide_eq_true_2 _ Hin). cbn [andb].
      destruct accepted; [|done].
      cbn [submit_feedback_queue pending_accounts completed_accounts].
      set_unfold. split_and!.
      * intros x [Hx _]. by apply Hsub.
      * intros x [Hx Hne] [Heq|Hc]; [done|by apply (Hdisj x)].
      * intros x Hx. destruct (decide (x = account_id)) as [->|Hne];
          [by right; left|].
        destruct (Hcover x Hx); [by left|by right; right].
    + by rewrite (bool_decide_eq_false_2 _ Hin).
  - cbn [move_to_queue_queue pending_accounts completed_accounts].
    destruct (decide (account_id ∈ accounts)) as [Hin|Hin];
      [rewrite (bool_decide_eq_true_2 _ Hin)
      |rewrite (bool_decide_eq_false_2 _ Hin)];
      (destruct (decide (account_id ∈ completed_accounts q)) as [Hc|Hc];
       [rewrite (bool_decide_eq_true_2 _ Hc)
       |rewrite (bool_decide_eq_false_2 _ Hc)]);
      set_unfold; split_and!.
    all: try (intros x [->|Hx]; [done|by apply Hsub]).
    all: try exact Hsub.
    all: try exact Hdisj.
    all: try exact Hcover.
    + intros x [->|Hx] [Hcx Hne]; [done|by apply (Hdisj x)].
    + intros x Hx. destruct (decide (x = account_id)) as [->|Hne];
        [by left; left|].
      destruct (Hcover x Hx); [by left; right|by right].
    + intros x [->|Hx] Hcx; [done|by apply (Hdisj x)].
    + intros x Hx. destruct (Hcover x Hx); [by left; right|by right].
    + intros x Hx [Hcx Hne]. by apply (Hdisj x).
    + intros x Hx. destruct (decide (x = account_id)) as [->|Hne]; [done|].
      destruct (Hcover x Hx); [by left|by right].
Qed.

(** X21.  After any sequence of feedback submissions and moves back to the queue,
    starting from the queue built at load time, the dashboard lists exactly
    the pending accounts and the page of completed accounts lists all the
    other accounts: every account is on one of the two pages and none is on
    both. *)
Theorem queue_partitions_accounts {A} (SAMPLE_ACCOUNTS : gmap string A)
    (completed : gset string) (requests : list request) :
  let q :=
    serve (dom SAMPLE_ACCOUNTS)
      (initial_queue (dom SAMPLE_ACCOUNTS) completed) requests in
  pending_accounts q ⊆ dom SAMPLE_ACCOUNTS
  ∧ pending_accounts q ## completed_accounts q
  ∧ dom SAMPLE_ACCOUNTS ⊆ pending_accounts q ∪ completed_accounts q
  ∧ dom (index_accounts SAMPLE_ACCOUNTS q) = pending_accounts q
  ∧ dom (completed_accounts_page SAMPLE_ACCOUNTS q)
    = dom SAMPLE_ACCOUNTS ∖ pending_accounts q.
Proof.
  intros q.
  assert (pending_accounts q ⊆ dom SAMPLE_ACCOUNTS
          ∧ pending_accounts q ## completed_accounts q
          ∧ dom SAMPLE_ACCOUNTS ⊆ pending_accounts q ∪ completed_accounts q)
    as (Hsub & Hdisj & Hcover).
  { unfold q, serve.
    assert (pending_accounts (initial_queue (dom SAMPLE_ACCOUNTS) completed)
              ⊆ dom SAMPLE_ACCOUNTS
            ∧ pending_accounts (initial_queue (dom SAMPLE_ACCOUNTS) completed)
              ## completed_accounts
                   (initial_queue (dom SAMPLE_ACCOUNTS) completed)
            ∧ dom SAMPLE_ACCOUNTS
              ⊆ pending_accounts (initial_queue (dom SAMPLE_ACCOUNTS) completed)
                ∪ completed_accounts
                    (initial_queue (dom SAMPLE_ACCOUNTS) completed)) as Hinit.
    { cbn [initial_queue pending_accounts completed_accounts]. split_and!.
      - apply subseteq_difference_l. reflexivity.
      - intros x [_ Hx]%elem_of_difference Hc. done.
      - intros x Hx. rewrite elem_of_union, elem_of_difference.
        destruct (decide (x ∈ completed)); [by right|by left]. }
    revert Hinit. generalize (initial_queue (dom SAMPLE_ACCOUNTS) completed).
    induction requests as [|r requests IH]; intros q0 Hq0; [done|].
    cbn [foldl]. by apply IH, handle_keeps_partition. }
  split_and!; [done..| |].
  - apply set_eq. intros k. unfold index_accounts.
    rewrite elem_of_dom. unfold is_Some.
    setoid_rewrite map_lookup_filter_Some. cbn [fst]. split.
    + by intros (a & _ & Hk).
    + intros Hk. destruct (proj1 (elem_of_dom _ _) (Hsub k Hk)) as [a Ha]. by exists a.
  - apply set_eq. intros k. unfold completed_accounts_page.
    rewrite elem_of_difference, !elem_of_dom. unfold is_Some.
    setoid_rewrite map_lookup_filter_Some. cbn [fst]. split.
    + intros (a & Ha & Hk). split; [by exists a|].
      intros Hp. by apply (Hdisj k).
    + intros ([a Ha] & Hk). exists a. split; [done|].
      assert (k ∈ dom SAMPLE_ACCOUNTS) as Hdom by (apply elem_of_dom; eauto).
      by destruct (proj1 (elem_of_union _ _ _) (Hcover k Hdom)) as [?|?].
Qed.

(** X22.  Moving an account back to the queue undoes the effect of its accepted
    submission on the queue. *)
Theorem move_to_queue_undoes_submit (accounts : gset string)
    (account_id : string) (q : queue) :
  account_id ∈ accounts →
  account_id ∈ pending_accounts q →
  account_id ∉ completed_accounts q →
  serve accounts q [SubmitFeedback account_id true; MoveToQueue account_id]
  = q.
Proof.
  intros Hacc Hpending Hcompleted. destruct q as [pending completed].
  cbn [serve foldl handle pending_accounts completed_accounts] in *.
  rewrite (bool_decide_eq_true_2 _ Hacc). cbn [andb].
  unfold move_to_queue_queue, submit_feedback_queue.
  cbn [pending_accounts completed_accounts].
  rewrite (bool_decide_eq_true_2 (account_id ∈ accounts)) by done.
  rewrite (bool_decide_eq_true_2 (account_id ∈ {[account_id]} ∪ completed))
    by (apply elem_of_union; left; by apply elem_of_singleton).
  f_equal.
  - apply set_eq. intros x.
    rewrite elem_of_union, elem_of_difference, elem_of_singleton.
    destruct (decide (x = account_id)) as [->|?]; tauto.
  - apply set_eq. intros x.
    rewrite elem_of_difference, elem_of_union, elem_of_singleton.
    destruct (decide (x = account_id)) as [->|?]; tauto.
Qed.

Lemma move_to_queue_undoes_submit_witness :
  "1001" ∈ ({[ "1001"; "3003" ]} : gset string)
  ∧ "1001" ∈ pending_accounts (initial_queue {[ "1001"; "3003" ]} {[ "3003" ]})
  ∧ ("1001" ∉ completed_accounts
                (initial_queue {[ "1001"; "3003" ]} {[ "3003" ]}))
  ∧ serve {[ "1001"; "3003" ]}
      (initial_queue {[ "1001"; "3003" ]} {[ "3003" ]})
      [SubmitFeedback "1001" true; MoveToQueue "1001"]
    = initial_queue {[ "1001"; "3003" ]} {[ "3003" ]}.
Proof.
  assert ("1001" ∈ ({[ "1001"; "3003" ]} : gset string)) as Hacc
    by compute_done.
  assert ("1001" ∈ pending_accounts
                     (initial_queue {[ "1001"; "3003" ]} {[ "3003" ]}))
    as Hpending by compute_done.
  assert ("1001" ∉ completed_accounts
                     (initial_queue {[ "1001"; "3003" ]} {[ "3003" ]}))
    as Hcompleted by compute_done.
  split_and!; [exact Hacc|exact Hpending|exact Hcompleted|].
  exact (move_to_queue_undoes_submit _ "1001" _ Hacc Hpending Hcompleted).
Defined.

(** ** Login, logout and the access decorators *)

Lemma lookup_foldl_insert (entries : list (pyval * credential))
    (creds : credentials) (u : pyval) :
  foldl (λ creds e, <[e.1 := e.2]> creds) creds entries !! u
  = match last (filter (λ e, e.1 = u) entries) with
    | Some e => Some e.2
    | None => creds !! u
    end.
Proof.
  revert creds. induction entries as [|e entries IH] using rev_ind;
    intros creds; [done|].
  rewrite foldl_snoc, filter_app, filter_cons, filter_nil.
  destruct (decide (e.1 = u)) as [<-|Hne].
  - by rewrite last_snoc, lookup_insert_eq.
  - rewrite app_nil_r, lookup_insert_ne by done. apply IH.
Qed.

(** X23.  An accepted login opens every view behind [login_required]; a view
    behind [admin_required] is served exactly when the name or the team of
    the credential says so, whatever the username is. *)
Theorem login_grants_access {A} (f : A) (creds : credentials)
    (username pass : pyval) (s s' : session) :
  login_post creds username pass s = (s', true) →
  ∃ c, creds !! username = Some c
       ∧ password c = pass
       ∧ login_required f s' = View f
       ∧ admin_required f s'
         = if bool_decide (name c = PStr "admin")
              || bool_decide (team c = PStr "Administration")
           then View f else RedirectIndexDenied.
Proof.
  unfold login_post.
  destruct (creds !! username) as [c|]; [|done].
  case_bool_decide as Hpass; [|done].
  intros [= <-]. exists c. split_and!; [done..| |].
  - unfold login_required.
    rewrite lookup_insert_ne, lookup_insert_ne, lookup_insert_eq by done.
    done.
  - unfold admin_required, dict_get_none, dict_get.
    rewrite (lookup_insert_ne _ "user_team" "user_id") by done.
    rewrite (lookup_insert_ne _ "user_name" "user_id") by done.
    rewrite (lookup_insert_eq _ "user_id").
    rewrite (bool_decide_eq_false_2 (Some username = None)) by done.
    rewrite (lookup_insert_eq _ "user_team").
    rewrite (lookup_insert_ne _ "user_team" "user_name") by done.
    rewrite (lookup_insert_eq _ "user_name").
    done.
Qed.

Lemma login_grants_access_witness :
  login_post (load_auditor_credentials None) (PStr "admin") (PStr "admin123") ∅
  = ((login_post (load_auditor_credentials None) (PStr "admin")
        (PStr "admin123") ∅).1, true)
  ∧ admin_required tt
      (login_post (load_auditor_credentials None) (PStr "admin")
         (PStr "admin123") ∅).1
    = View tt.
Proof.
  assert (login_post (load_auditor_credentials None) (PStr "admin")
            (PStr "admin123") ∅
          = ((login_post (load_auditor_credentials None) (PStr "admin")
                (PStr "admin123") ∅).1, true)) as Hlogin
    by (vm_compute; reflexivity).
  split; [exact Hlogin|].
  destruct (login_grants_access tt _ _ _ _ _ Hlogin)
    as (c & Hc & _ & _ & ->).
  assert (c = {| password := PStr "admin123"; name := PStr "Admin User";
                 team := PStr "Administration" |}) as ->.
  { revert Hc. vm_compute. by intros [= <-]. }
  reflexivity.
Defined.

(** X24.  After [logout] no decorated view is served, whatever the session held,
    and a second [logout] changes nothing. *)
Theorem logout_closes_access {A} (f : A) (s : session) :
  login_required f (logout s) = RedirectLogin
  ∧ admin_required f (logout s) = RedirectLogin
  ∧ logout (logout s) = logout s.
Proof.
  assert (logout s !! "user_id" = None) as Hout.
  { unfold logout. case_bool_decide as Hin; [done|].
    by apply eq_None_not_Some. }
  unfold login_required, admin_required. rewrite Hout.
  split_and!; [done..|].
  unfold logout at 1. rewrite Hout.
  rewrite bool_decide_eq_false_2; [done|]. by intros [? ?].
Qed.

(** X25.  In the credentials loaded from a file whose rows all have the four
    columns, a username stands for its last row. *)
Theorem credentials_last_row_wins (rows : list row)
    (entries : list (pyval * credential)) (username : pyval) :
  mapM credential_of_row rows = Some entries →
  load_auditor_credentials (Some rows) !! username
  = snd <$> last (filter (λ e, e.1 = username) entries).
Proof.
  intros Hrows. unfold load_auditor_credentials. rewrite Hrows.
  rewrite lookup_foldl_insert, lookup_empty.
  by destruct (last _).
Qed.


Lemma credentials_last_row_wins_witness :
  mapM credential_of_row sample_logins
  = Some (default [] (mapM credential_of_row sample_logins))
  ∧ load_auditor_credentials (Some sample_logins) !! PStr "jo"
    = Some {| password := PStr "second"; name := PStr "Jo B";
              team := PStr "Administration" |}.
Proof.
  assert (mapM credential_of_row sample_logins
          = Some (default [] (mapM credential_of_row sample_logins)))
    as Hrows by (vm_compute; reflexivity).
  split; [exact Hrows|].
  rewrite (credentials_last_row_wins sample_logins _ (PStr "jo") Hrows).
  vm_compute. reflexivity.
Defined.


(** ** The template filters [flatten] and [strip] *)

(** X27.  [flatten_filter] leaves a list without nested lists as it is, flattens
    the parts of a list one by one, opens a nested list, and so changes
    nothing when it is applied a second time. *)
Theorem flatten_filter_laws (flat : list pyval) (l1 l2 : list pynest) :
  flatten_filter (Atom <$> flat) = flat
  ∧ flatten_filter (l1 ++ l2) = flatten_filter l1 ++ flatten_filter l2
  ∧ flatten_filter (Nest l1 :: l2) = flatten_filter l1 ++ flatten_filter l2
  ∧ flatten_filter (Atom <$> flatten_filter l1) = flatten_filter l1.
Proof.
  assert (∀ l : list pyval, flatten_filter (Atom <$> l) = l) as Hflat.
  { unfold flatten_filter. induction l as [|v l IH]; [done|].
    cbn [fmap list_fmap map concat flatten_item app] in *.
    by rewrite IH. }
  split_and!; [apply Hflat| | |apply Hflat].
  - unfold flatten_filter. by rewrite map_app, concat_app.
  - done.
Qed.

Lemma lstrip_head (s : string) :
  lstrip s = "" ∨ ∃ c r, lstrip s = String c r ∧ is_space c = false.
Proof.
  induction s as [|c r IH]; [by left|]. cbn [lstrip].
  destruct (is_space c) eqn:Hc; [done|]. right. by exists c, r.
Qed.

Lemma rstrip_head (c : ascii) (r : string) :
  is_space c = false → ∃ r', rstrip (String c r) = String c r'.
Proof.
  intros Hc. cbn [rstrip]. rewrite Hc.
  destruct (rstrip r) as [|c' r']; eauto.
Qed.

Lemma rstrip_rstrip (s : string) : rstrip (rstrip s) = rstrip s.
Proof.
  induction s as [|c r IH]; [done|]. cbn [rstrip].
  destruct (rstrip r) as [|c' r'] eqn:Hr.
  - destruct (is_space c) eqn:Hc; [done|]. cbn [rstrip]. by rewrite Hc.
  - change (rstrip (String c (String c' r')))
      with (match rstrip (String c' r') with
            | EmptyString =>
                if is_space c then EmptyString else String c EmptyString
            | String c'' r'' => String c (String c'' r'')
            end).
    by rewrite IH.
Qed.

(** X28.  The result of [strip_filter] neither starts nor ends with a whitespace
    character: stripping it again on either side, or passing it through the
    filter a second time, changes nothing. *)
Theorem strip_filter_idempotent (value : pyval) :
  let s := strip_filter value in
  lstrip s = s ∧ rstrip s = s ∧ strip_filter (PStr s) = s.
Proof.
  assert (∀ t, lstrip (strip t) = strip t ∧ rstrip (strip t) = strip t)
    as Hstrip.
  { intros t. unfold strip. split; [|apply rstrip_rstrip].
    destruct (lstrip_head t) as [->|(c & r & -> & Hc)]; [done|].
    destruct (rstrip_head c r Hc) as [r' ->]. cbn [lstrip]. by rewrite Hc. }
  intros s.
  assert (lstrip s = s ∧ rstrip s = s) as [Hl Hr].
  { unfold s, strip_filter. destruct value; [done|apply Hstrip..]. }
  split_and!; [done..|].
  cbn [strip_filter py_str]. unfold strip. by rewrite Hl, Hr.
Qed.

(** ** The submitted feedback of an account *)

Lemma build_icd_type_mapping_is_Some (items : list row)
    (mapping : gmap pyval string) :
  is_Some (build_icd_type_mapping items mapping)
  ↔ Forall (λ item, str_field item "type") items.
Proof.
  revert mapping. induction items as [|item items IH]; intros mapping.
  - split; [done|by eexists].
  - cbn [build_icd_type_mapping]. rewrite Forall_cons.
    destruct (decide (str_field item "type")) as [Hstr|Hstr].
    + destruct (str_field_get item "type" "" Hstr) as [s ->].
      cbn [py_upper mbind option_bind]. rewrite IH. tauto.
    + assert (py_upper (dict_get item "type" (PStr "")) = None) as ->.
      { revert Hstr. unfold str_field, dict_get.
        destruct (item !! "type") as [[|n|s]|]; cbn; tauto. }
      split; [by intros [? ?]|tauto].
Qed.

(** The type under which a code is recorded is the upper-cased type of the
    last row that carries it. *)
Lemma build_icd_type_mapping_lookup (items : list row)
    (mapping result : gmap pyval string) (code : pyval) :
  build_icd_type_mapping items mapping = Some result →
  result !! code
  = match last (filter (λ item, raw_item_code item = code
                                ∧ truthy code = true) items) with
    | Some item => Some (role_of "type" item)
    | None => mapping !! code
    end.
Proof.
  revert mapping. induction items as [|item items IH]; intros mapping.
  - by intros [= <-].
  - cbn [build_icd_type_mapping]. unfold role_of in *.
    destruct (py_upper (dict_get item "type" (PStr ""))) as [u|] eqn:Hu;
      cbn [mbind option_bind]; [|done].
    intros Hrest. rewrite (IH _ Hrest), filter_cons.
    assert (u = upper (py_str (dict_get item "type" (PStr "")))) as Hrole.
    { destruct (dict_get item "type" (PStr "")); simplify_eq/=. done. }
    fold (raw_item_code item) in *.
    destruct (decide (raw_item_code item = code ∧ truthy code = true))
      as [[Hcode Htruthy]|Hno].
    + rewrite last_cons.
      destruct (last (filter _ items)); [done|].
      rewrite Hcode, Htruthy, lookup_insert_eq. by rewrite Hrole.
    + destruct (last (filter _ items)); [done|].
      destruct (truthy (raw_item_code item)) eqn:Htruthy; [|done].
      rewrite lookup_insert_ne; [done|].
      intros Heq. apply Hno. split; [done|]. by rewrite <- Heq.
Qed.

(** X29.  When the filter does not raise, it answers with one item for each row
    of the feedback file that belongs to the account, in the order of the
    file, under the row's code.  The item is typed after the last row of the
    account's combination table that carries the code: PDX, ADX or SDX
    feedback when that row's upper-cased type is one of the three, and ICD
    feedback otherwise, or when the code is falsy or in no row. *)
Theorem submitted_feedback_types (df : list row)
    (parsed_data : parsed_results) (account_id : string) (items : list row) :
  get_submitted_feedback_filter_body df parsed_data account_id = Some items →
  let feedback_type icd_code :=
    match last (filter (λ item, raw_item_code item = icd_code
                                ∧ truthy icd_code = true)
                  (combination_of parsed_data account_id)) with
    | Some item =>
        if bool_decide (role_of "type" item = "PDX") then "PDX Feedback"
        else if bool_decide (role_of "type" item = "ADX") then "ADX Feedback"
        else if bool_decide (role_of "type" item = "SDX") then "SDX Feedback"
        else "ICD Feedback"
    | None => "ICD Feedback"
    end in
  get_submitted_feedback_filter (Some df) parsed_data account_id = items
  ∧ (λ item : row, (item !! "icd_code", item !! "type")) <$> items
    = (λ r : row,
         (r !! "icd_code",
          Some (PStr (feedback_type (dict_get_none r "icd_code")))))
        <$> filter (λ r, py_str (dict_get_none r "account_number") = account_id)
              df.
Proof.
  intros Hbody feedback_type. split.
  { cbn [get_submitted_feedback_filter]. by rewrite Hbody. }
  revert Hbody. unfold get_submitted_feedback_filter_body.
  destruct (mapM _ df) as [numbers|]; cbn [mbind option_bind]; [|done].
  destruct (build_icd_type_mapping _ ∅) as [mapping|] eqn:Hmapping;
    cbn [mbind option_bind]; [|done].
  assert (∀ code, feedback_type_of mapping code = feedback_type code)
    as Htype.
  { intros code. unfold feedback_type_of, feedback_type.
    rewrite (build_icd_type_mapping_lookup _ _ _ code Hmapping).
    destruct (last _); [done|]. by rewrite lookup_empty. }
  generalize (filter (λ r, py_str (dict_get_none r "account_number")
                           = account_id) df).
  intros rows Hitems. apply mapM_Some_1 in Hitems.
  induction Hitems as [|r item rows items Hitem _ IH]; [done|].
  rewrite !fmap_cons, IH. f_equal.
  revert Hitem. unfold feedback_item_of, dict_get_none, dict_get.
  destruct (r !! "icd_code") as [code|]; cbn [mbind option_bind]; [|done].
  destruct (r !! "accept_reject"); cbn [mbind option_bind]; [|done].
  destruct (r !! "feedback_comment"); cbn [mbind option_bind]; [|done].
  destruct (r !! "reviewer"); cbn [mbind option_bind]; [|done].
  destruct (r !! "timestamp"); cbn [mbind option_bind]; [|done].
  intros [= <-]. rewrite Htype. cbn [default from_option id].
  by simplify_map_eq.
Qed.

Lemma submitted_feedback_types_witness :
  get_submitted_feedback_filter_body sample_feedback sample_parsed "1001"
  = Some (get_submitted_feedback_filter (Some sample_feedback) sample_parsed
            "1001")
  ∧ (λ item : row, (item !! "icd_code", item !! "type"))
      <$> get_submitted_feedback_filter (Some sample_feedback) sample_parsed
            "1001"
    = [ (Some (PStr "E1121"), Some (PStr "SDX Feedback"));
        (Some (PStr "Z9989"), Some (PStr "ICD Feedback")) ].
Proof.
  assert (get_submitted_feedback_filter_body sample_feedback sample_parsed
            "1001"
          = Some (get_submitted_feedback_filter (Some sample_feedback)
                    sample_parsed "1001")) as Hbody
    by (vm_compute; reflexivity).
  split; [exact Hbody|].
  rewrite (proj2 (submitted_feedback_types sample_feedback sample_parsed
                    "1001" _ Hbody)).
  vm_compute. reflexivity.
Defined.

(** X30.  The filter raises, and then shows no feedback at all for the account,
    exactly when a row of the file has no account number, a row of the
    account's combination table has a type that is not a string, or a row of
    the account in the file lacks one of the five columns it reads. *)
Theorem submitted_feedback_failure (df : list row)
    (parsed_data : parsed_results) (account_id : string) :
  let well_formed :=
    Forall (λ r : row, is_Some (r !! "account_number")) df
    ∧ Forall (λ item, str_field item "type")
        (combination_of parsed_data account_id)
    ∧ Forall (λ r : row,
                is_Some (r !! "icd_code") ∧ is_Some (r !! "accept_reject")
                ∧ is_Some (r !! "feedback_comment")
                ∧ is_Some (r !! "reviewer") ∧ is_Some (r !! "timestamp"))
        (filter (λ r, py_str (dict_get_none r "account_number") = account_id)
           df) in
  (is_Some (get_submitted_feedback_filter_body df parsed_data account_id)
   ↔ well_formed)
  ∧ (¬ well_formed →
     get_submitted_feedback_filter (Some df) parsed_data account_id = []).
Proof.
  intros well_formed.
  assert (is_Some (get_submitted_feedback_filter_body df parsed_data account_id)
          ↔ well_formed) as Hiff.
  { unfold well_formed, get_submitted_feedback_filter_body.
    assert (is_Some (mapM (λ r : row, r !! "account_number") df)
            ↔ Forall (λ r : row, is_Some (r !! "account_number")) df)
      as Hnumbers by apply mapM_is_Some.
    destruct (mapM _ df) as [numbers|]; cbn [mbind option_bind]; cycle 1.
    { split; [by intros [? ?]|]. intros (Hn & _). by destruct (proj2 Hnumbers Hn). }
    pose proof (build_icd_type_mapping_is_Some
                  (combination_of parsed_data account_id) ∅) as Hmapping.
    destruct (build_icd_type_mapping _ ∅) as [mapping|];
      cbn [mbind option_bind]; cycle 1.
    { split; [by intros [? ?]|]. intros (_ & Hc & _).
      by destruct (proj2 Hmapping Hc). }
    rewrite mapM_is_Some.
    assert (∀ r : row,
      is_Some (feedback_item_of mapping r)
      ↔ is_Some (r !! "icd_code") ∧ is_Some (r !! "accept_reject")
        ∧ is_Some (r !! "feedback_comment")
        ∧ is_Some (r !! "reviewer") ∧ is_Some (r !! "timestamp")) as Hitem.
    { intros r. unfold feedback_item_of.
      destruct (r !! "icd_code"); cbn [mbind option_bind];
        [|split; [by intros [? ?]|by intros ([? ?] & _)]].
      destruct (r !! "accept_reject"); cbn [mbind option_bind];
        [|split; [by intros [? ?]|by intros (_ & [? ?] & _)]].
      destruct (r !! "feedback_comment"); cbn [mbind option_bind];
        [|split; [by intros [? ?]|by intros (_ & _ & [? ?] & _)]].
      destruct (r !! "reviewer"); cbn [mbind option_bind];
        [|split; [by intros [? ?]|by intros (_ & _ & _ & [? ?] & _)]].
      destruct (r !! "timestamp"); cbn [mbind option_bind];
        [|split; [by intros [? ?]|by intros (_ & _ & _ & _ & [? ?])]].
      split; [|by eexists]. intros _. split_and!; by eexists. }
    rewrite (Forall_iff _ _ _ Hitem).
    split; [intros ?; split_and!; [by apply Hnumbers|by apply Hmapping|done]
           |by intros (_ & _ & ?)]. }
  split; [exact Hiff|].
  intros Hnot. cbn [get_submitted_feedback_filter].
  destruct (get_submitted_feedback_filter_body _ _ _) eqn:Hbody; [|done].
  exfalso. apply Hnot, Hiff. by eexists.
Qed.

Lemma submitted_feedback_failure_witness :
  ¬ (Forall (λ r : row, is_Some (r !! "account_number")) sample_feedback
     ∧ Forall (λ item, str_field item "type")
         (combination_of broken_comb_parsed "2002")
     ∧ Forall (λ r : row,
                 is_Some (r !! "icd_code") ∧ is_Some (r !! "accept_reject")
                 ∧ is_Some (r !! "feedback_comment")
                 ∧ is_Some (r !! "reviewer") ∧ is_Some (r !! "timestamp"))
         (filter (λ r, py_str (dict_get_none r "account_number") = "2002")
            sample_feedback))
  ∧ get_submitted_feedback_filter (Some sample_feedback) broken_comb_parsed
      "2002" = [].
Proof.
  assert (¬ (Forall (λ r : row, is_Some (r !! "account_number"))
               sample_feedback
             ∧ Forall (λ item, str_field item "type")
                 (combination_of broken_comb_parsed "2002")
             ∧ Forall (λ r : row,
                         is_Some (r !! "icd_code")
                         ∧ is_Some (r !! "accept_reject")
                         ∧ is_Some (r !! "feedback_comment")
                         ∧ is_Some (r !! "reviewer")
                         ∧ is_Some (r !! "timestamp"))
                 (filter (λ r, py_str (dict_get_none r "account_number")
                               = "2002") sample_feedback))) as Hnot.
  { intros (_ & Htype & _). revert Htype. apply (bool_decide_unpack _).
    compute_done. }
  split; [exact Hnot|].
  exact (proj2 (submitted_feedback_failure sample_feedback broken_comb_parsed
                  "2002") Hnot).
Defined.
